(* ===== verification/_CoqProject ===== *)
-Q . S2P
Prelude.v
PyData.v
Tensor.v
Dataset.v
Loader.v
Collab.v
Inferencer.v
Instances.v
MonadFacts.v
Pipeline.v
Construction.v
Effects.v
Fasttext.v
Banners.v
