(* ===== verification/Prelude.v ===== *)
(** * A verification development for the FARM inference core

    The repository is the inference part of FARM (tholor/FARM):
    - [src/farm/data_handler/dataset.py] : [convert_features_to_dataset], which
      turns a list of feature dictionaries into a [TensorDataset] of
      [torch.long] tensors and the ordered list of tensor names;
    - [src/farm/infer.py] : the [Inferencer] (construction, [load],
      [run_inference], [extract_vectors]) and the [FasttextInferencer]
      ([__init__], [load], [extract_vectors]);
    - [src/farm/ascii/text.py] : six ASCII banners (string constants).

    The components interact as follows.  An [Inferencer] holds an
    [AdaptiveModel] and a [Processor] (both external collaborators, only
    their contract is modelled).  [run_inference] and [extract_vectors]
    obtain a dataset and tensor names from the processor (whose
    [dataset_from_dicts] ends in [convert_features_to_dataset]), re-derive
    the samples per input dict, wrap the dataset in a [NamedDataLoader]
    over a [SequentialSampler], and for the i-th batch move every tensor to
    the device, slice [samples[i*bs:(i+1)*bs]], and call the model under
    [torch.no_grad()].  Construction switches the (shared) model to eval
    mode and reseeds the process-wide random state.

    Files (in dependency order):
    - [Prelude]    : this header; Python exceptions ([Exc]); the [Result]
                     error monad (stdpp's [MRet]/[MBind]/[FMap] instances);
                     [mapM] and [extendM] ([list.extend] in a loop); Python
                     indexing [py_index] and slicing [py_slice] (negative
                     and out-of-range bounds as Python clamps them); the
                     int64 range; [ceil_div]; the [farm] hint database and
                     the list, option and monad lemmas the components share.
    - [PyData]     : Python values ([PyVal]) and dicts (insertion-ordered
                     association lists: [getitem] raises [KeyError],
                     [setitem] updates in place or appends); Python's [==]
                     on values ([PyVal_eq_dec]) and on dicts ([dict_equiv],
                     decided by [dict_equivb]), an [Equivalence] for which
                     the dict operations are [Proper] morphisms.
    - [Tensor]     : long tensors as shape, row-major data and device;
                     [torch_tensor] ([torch.tensor(v, dtype=torch.long)]:
                     shape from the first element of each level,
                     [ValueError] on a ragged level, [RuntimeError] on an
                     int64 overflow), [tensor_index], [tensor_stack]
                     ([torch.stack]), [tensor_to] ([.to(device)]).
    - [Dataset]    : [convert_features_to_dataset] (dataset.py 6-23) and
                     torch's [TensorDataset] (size assertion, [len],
                     [__getitem__]).
    - [Loader]     : [SequentialSampler], torch's [BatchSampler] (the
                     accumulate-and-yield loop [batch_sampler_go]) and the
                     [NamedDataLoader] with its collate function; this code
                     is outside src/ and modelled from the spec and torch.
    - [Collab]     : records of the attributes and methods infer.py uses
                     of its collaborators ([Processor], [AdaptiveModel],
                     [LanguageModel], [PredictionHead]) and their contracts
                     as type classes ([ProcessorLaws], [ModelPointwise],
                     [LMPointwise]).
    - [Inferencer] : the world ([World]: seeds, the model's training flag,
                     torch's grad mode, CUDA availability, and the trace of
                     model calls), its state and error monad [M], the
                     helpers of farm/utils.py modelled from the spec
                     ([initialize_device_settings], [set_all_seeds]), and
                     the methods of [Inferencer] (infer.py 16-179):
                     [Inferencer_init], [Inferencer_load], [run_inference]
                     with [inference_loop], [extract_vectors] with
                     [extraction_loop].
    - [Instances]  : a concrete processor built on
                     [convert_features_to_dataset] and per-sample models,
                     with their contract instances, and concrete
                     inferencers and inputs for the witnesses.
    - [MonadFacts] : predicates on computations of the world monad
                     ([returns], [raises], [keeps_grad], [emits], [logs])
                     and their compositional lemmas (hint database [farm]).
    - [Pipeline]   : the batch loop both methods share, the refinement of
                     [run_inference] and [extract_vectors] by a per-sample
                     map (proved against the contracts of [Collab]), the
                     calls they make, and the errors of [run_inference].
    - [Construction] : [__init__] and [load].
    - [Effects]    : grad mode, the trace of model calls, and
                     the inductive [session] relation with its invariant.
    - [Fasttext]   : the [FasttextInferencer] (infer.py 182-212).
    - [Banners]    : the constants of src/farm/ascii/text.py.

    What the theorems show.
    - Refinement of the batched pipeline: for any processor satisfying
      [ProcessorLaws] and model satisfying [ModelPointwise] (resp.
      [LMPointwise]), [run_inference] (resp. [extract_vectors]) returns
      one prediction per sample, in input order, computed from the sample
      and its own row moved to the device; hence the result does not
      depend on the batch size.  The proofs go through [batch_loop], one
      loop both methods are shown equal to, whose correctness is proved by
      induction on the index batches ([batch_loop_logs]).  The same holds
      of the vectors of [extract_vectors], which hands every sample to the
      language model and never runs the adaptive model's forward pass.
    - The converter and the loader: names, shape and rows of
      [convert_features_to_dataset], the order of its errors and the keys
      it ignores, its failure on any int outside int64 (nothing wraps
      around), and its independence (by setoid rewriting) from the key
      order of every sample but the first; [torch.tensor] on int lists
      and rows (int64 bound, ragged rows); [torch.stack]'s round trip and
      its errors in the order they are checked; torch's [BatchSampler] equals a reference chunking
      (defined with Equations by well-founded recursion), a loader pass
      covers [0..n-1] in [ceil(n/bs)] slices, and a fetched batch's row
      [k] is the dataset item it was asked for, while an empty batch, an
      index past the end and an item of the wrong width raise the errors
      of [batch[0]], of indexing and of the collate assertion.
    - Effects: every model call runs under [no_grad], in the training mode
      found, on the inferencer's device; grad mode is restored on return
      and on exceptions.
    - Construction and errors: prediction type, label map, name, eval mode
      and reseed for zero, one and several heads (the last one leaves
      [prediction_type] unset, an [AttributeError]); [load] is the
      constructor with the directory's basename as name, and a model or
      processor that fails to load raises before the world changes; the
      embedder, non-positive batch size and keyword-collision errors; an input
      yielding no sample makes both methods raise the converter's
      [IndexError] instead of returning no prediction.
    - The [FasttextInferencer]: functional behaviour of ["reduce_mean"],
      and the rejection, inside the loop, of every other strategy (also
      the ['reduce_max'] and ['CLS'] its docstring lists).
    - Sessions and progress: in every world reachable by constructing
      ([__init__]) or loading ([load]) an inferencer and calling its
      methods in any order, the model stays in
      eval mode, the seed at 42, and every model call is made without
      gradients on the device (an invariant of the inductive [session]
      relation, by rule induction); a successful [run_inference] makes
      [ceil(N/bs)] forward passes and hands every sample to
      [formatted_preds] once; the iteration of torch's [BatchSampler]
      generator terminates.
    - A sanity check of the transcribed banners: they fit an 80-column
      terminal (not a property of the program's behaviour).

    Bounds and fuel.  The code's loops are structural recursions on finite
    lists (the dicts, the samples, the index batches); [chunks] recurses
    on the list length by well-founded recursion (Equations).  The one
    iteration modelled with fuel is the [for batch in batch_sampler] loop
    over the generator of [BatchSampler.__iter__] ([sampler_drain]): one
    [next()] per index plus the final [StopIteration] is enough, which
    [batch_sampler_iter_terminates] proves with the measure
    [sampler_measure] (indices left, plus one for a pending batch).
    Integers of tensors are [Z] checked against the int64 range, as torch
    checks them on store; sizes and indices are [nat].

    Not modelled.  The internals of the processor (tokenisation,
    featurisation) and of the model (the network) are not in the
    repository excerpt: only the attributes and methods infer.py uses are
    modelled, with their contracts as type classes; the theorems hold for
    every implementation of those contracts.  Real-valued computation:
    logits and predictions are abstract types.  The RNG itself: only which
    seed is set is recorded.  Multi-process data loading: [NamedDataLoader]
    is modelled with [num_workers = 0] as used here.  Module imports and
    docstrings. *)

From Stdlib Require Export String ZArith.
From stdpp Require Export base list strings sets.

Declare Scope farm_scope.
Delimit Scope farm_scope with farm.

Create HintDb farm.

(** ** Python exceptions *)

(** The exceptions the modelled code raises or lets propagate. *)
Inductive Exc : Type :=
| TypeError (msg : string)
| AttributeError (attr : string)
| IndexError (msg : string)
| KeyError (key : string)
| ValueError (msg : string)
| RuntimeError (msg : string)
| AssertionError (msg : string)
| NotImplementedError
| LoadError (msg : string).

#[export] Instance Exc_eq_dec : EqDecision Exc.
Proof. solve_decision. Defined.

(** ** The error monad: a Python call returns or raises *)

Inductive Result (A : Type) : Type :=
| Ok (a : A)
| Err (e : Exc).
Arguments Ok {A} a.
Arguments Err {A} e.

#[export] Instance Result_ret : MRet Result := @Ok.
#[export] Instance Result_bind : MBind Result :=
  fun A B f m => match m with Ok a => f a | Err e => Err e end.
#[export] Instance Result_fmap : FMap Result :=
  fun A B f m => match m with Ok a => Ok (f a) | Err e => Err e end.

Definition raise {A} (e : Exc) : Result A := Err e.

(** [assert cond, msg] *)
Definition py_assert (b : bool) (msg : string) : Result unit :=
  if b then Ok tt else Err (AssertionError msg).

Definition is_ok {A} (r : Result A) : bool :=
  match r with Ok _ => true | Err _ => false end.

(** [for x in l: out.append(f(x))] where [f] may raise: the first
    exception aborts the loop. *)
Fixpoint mapM {A B} (f : A -> Result B) (l : list A) : Result (list B) :=
  match l with
  | [] => Ok []
  | x :: l' => y ← f x; ys ← mapM f l'; Ok (y :: ys)
  end.

(** [for x in l: out.extend(f(x))] *)
Definition extendM {A B} (f : A -> Result (list B)) (l : list A) : Result (list B) :=
  (@concat B) <$> mapM f l.

(** ** Python lists: indexing and slicing *)

(** [l[i]] for an int [i], negative indices counting from the end. *)
Definition py_index {A} (l : list A) (i : Z) : Result A :=
  let n := Z.of_nat (length l) in
  let j := if (i <? 0)%Z then (i + n)%Z else i in
  if (0 <=? j)%Z then
    match l !! Z.to_nat j with
    | Some x => Ok x
    | None => Err (IndexError "list index out of range")
    end
  else Err (IndexError "list index out of range").

(** [l[a:c]] (step 1): each bound is normalised (negative from the end)
    and clamped to [0, len(l)]. *)
Definition py_slice_bound (n i : Z) : Z :=
  if (i <? 0)%Z then Z.max 0 (i + n) else Z.min i n.

Definition py_slice {A} (a c : Z) (l : list A) : list A :=
  let n := Z.of_nat (length l) in
  let a' := py_slice_bound n a in
  let c' := py_slice_bound n c in
  take (Z.to_nat (c' - a')) (drop (Z.to_nat a') l).

(** Python's subscript syntax, in the development's own scope. *)
Notation "l .[ i ]" := (py_index l i%Z)
  (at level 1, left associativity, i at level 99, format "l .[ i ]") : farm_scope.
Notation "l .[ a : b ]" := (py_slice a%Z b%Z l)
  (at level 1, left associativity, a at level 99, b at level 99, format "l .[ a : b ]") : farm_scope.

(** ** Machine integers: torch.long *)

Definition int64_min : Z := (- 2 ^ 63)%Z.
Definition int64_max : Z := (2 ^ 63 - 1)%Z.
Definition in_int64 (z : Z) : bool := (int64_min <=? z)%Z && (z <=? int64_max)%Z.

(** ** Arithmetic *)

(** [ceil(n / b)] on naturals. *)
Definition ceil_div (n b : nat) : nat := (n + (b - 1)) / b.

(** ** Generic lemmas on the monad *)

Lemma bind_Ok {A B} (m : Result A) (f : A -> Result B) (b : B) :
  (m ≫= f) = Ok b <-> exists a, m = Ok a /\ f a = Ok b.
Proof.
  destruct m as [a|e]; simpl; split.
  - eauto.
  - intros (a' & Ha & Hf). by injection Ha as ->.
  - discriminate.
  - by intros (? & ? & ?).
Qed.

Lemma bind_Ok_l {A B} (a : A) (f : A -> Result B) : (Ok a ≫= f) = f a.
Proof. reflexivity. Qed.

Lemma bind_Err_l {A B} (e : Exc) (f : A -> Result B) : (Err e ≫= f) = Err e.
Proof. reflexivity. Qed.

Lemma fmap_Ok {A B} (f : A -> B) (m : Result A) (b : B) :
  (f <$> m) = Ok b <-> exists a, m = Ok a /\ b = f a.
Proof.
  destruct m as [a|e]; simpl; split.
  - intros H. injection H as <-. eauto.
  - intros (a' & Ha & ->). by injection Ha as ->.
  - discriminate.
  - by intros (? & ? & ?).
Qed.


Lemma mapM_Ok_iff {A B} (f : A -> Result B) (l : list A) (l' : list B) :
  mapM f l = Ok l' <-> Forall2 (fun a b => f a = Ok b) l l'.
Proof.
  revert l'. induction l as [|x l IH]; intros l'; simpl.
  - split; [intros H; injection H as <-; constructor | intros H; inversion H; done].
  - destruct (f x) as [y|e] eqn:Hx; simpl.
    + destruct (mapM f l) as [ys|e] eqn:Hl; simpl.
      * split.
        -- intros H. injection H as <-. constructor; [done|]. by apply IH.
        -- intros H. inversion H as [|? ? ? ys' Hy Hys]; subst.
           apply IH in Hys. rewrite Hx in Hy. injection Hy as ->.
           by injection Hys as ->.
      * split; [discriminate|].
        intros H. inversion H as [|? ? ? ys' Hy Hys]; subst.
        apply IH in Hys. discriminate.
    + split; [discriminate|].
      intros H. inversion H; subst. congruence.
Qed.

Lemma mapM_length {A B} (f : A -> Result B) (l : list A) (l' : list B) :
  mapM f l = Ok l' -> length l' = length l.
Proof. intros H%mapM_Ok_iff. symmetry. by eapply Forall2_length. Qed.

Lemma mapM_Forall {A B} (P : B -> Prop) (f : A -> Result B) (l : list A) (l' : list B) :
  (forall a b, f a = Ok b -> P b) -> mapM f l = Ok l' -> Forall P l'.
Proof.
  intros Hf Hl%mapM_Ok_iff. induction Hl as [|a b l l' Hab _ IH]; constructor; eauto.
Qed.

Lemma mapM_lookup {A B} (f : A -> Result B) (l : list A) (l' : list B) (i : nat) (a : A) :
  mapM f l = Ok l' -> l !! i = Some a -> exists b, l' !! i = Some b /\ f a = Ok b.
Proof.
  intros Hl%mapM_Ok_iff Ha. destruct (Forall2_lookup_l _ _ _ _ _ Hl Ha) as (b & Hb & Hfb).
  eauto.
Qed.

Lemma mapM_app {A B} (f : A -> Result B) (l1 l2 : list A) :
  mapM f (l1 ++ l2) = (x ← mapM f l1; y ← mapM f l2; Ok (x ++ y)).
Proof.
  induction l1 as [|a l1 IH]; simpl.
  - by destruct (mapM f l2).
  - destruct (f a); simpl; [|done]. rewrite IH.
    destruct (mapM f l1); simpl; [|done]. by destruct (mapM f l2).
Qed.

Lemma mapM_elem_Ok {A B} (f : A -> Result B) (l : list A) (l' : list B) (a : A) :
  mapM f l = Ok l' -> a ∈ l -> exists b, f a = Ok b.
Proof.
  intros Hl%mapM_Ok_iff Ha. apply list_elem_of_lookup in Ha as [i Hi].
  destruct (Forall2_lookup_l _ _ _ _ _ Hl Hi) as (b & _ & Hb). eauto.
Qed.

(** Two loops over related lists compute the same thing. *)
Lemma mapM_compose {A B C} (f : A -> Result B) (g : B -> Result C) (h : A -> Result C)
    (l : list A) (l' : list B) :
  mapM f l = Ok l' -> (forall a b, f a = Ok b -> g b = h a) -> mapM g l' = mapM h l.
Proof.
  intros Hl%mapM_Ok_iff Hgh. induction Hl as [|a b l l' Hab _ IH]; simpl; [done|].
  rewrite (Hgh a b Hab), IH. done.
Qed.

Lemma mapM_all_ok {A B} (f : A -> Result B) (l : list A) :
  Forall (fun a => is_ok (f a) = true) l -> exists l', mapM f l = Ok l'.
Proof.
  induction 1 as [|a l Ha _ (l' & IH)]; simpl; [eauto|].
  destruct (f a) as [b|]; [|discriminate]. simpl. rewrite IH. simpl. eauto.
Qed.

(** The first failing element decides the error. *)
Lemma mapM_first_Err {A B} (f : A -> Result B) (l1 l2 : list A) (x : A) (e : Exc) :
  Forall (fun a => is_ok (f a) = true) l1 -> f x = Err e -> mapM f (l1 ++ x :: l2) = Err e.
Proof.
  intros Hl1 Hx. rewrite mapM_app. destruct (mapM_all_ok f l1 Hl1) as (ys & ->).
  simpl. by rewrite Hx.
Qed.

Lemma mapM_ext_in {A B} (f g : A -> Result B) (l : list A) :
  (forall a, a ∈ l -> f a = g a) -> mapM f l = mapM g l.
Proof.
  induction l as [|a l IH]; intros Hfg; simpl; [done|].
  rewrite Hfg by by constructor. rewrite IH; [done|]. intros b Hb. apply Hfg. by constructor.
Qed.

(** [mapM] is a morphism for pointwise equality of its function, so that
    [setoid_rewrite] reaches under it. *)
Lemma mapM_proper {A B} : Proper (pointwise_relation A (@eq (Result B)) ==> eq ==> eq) mapM.
Proof. intros f g Hfg l ? ->. apply mapM_ext_in. intros a _. apply Hfg. Qed.
#[export] Existing Instance mapM_proper.

Lemma cons_Forall2_proper {A} (R : relation A) : Proper (R ==> Forall2 R ==> Forall2 R) cons.
Proof. intros x y Hxy l l' Hl. by constructor. Qed.
#[export] Existing Instance cons_Forall2_proper.

Lemma mapM_map_in {A B C} (f : B -> Result C) (h : A -> B) (l : list A) :
  mapM f (map h l) = mapM (fun a => f (h a)) l.
Proof. induction l as [|a l IH]; simpl; [done|]. by rewrite IH. Qed.

Lemma mapM_Ok_Forall {A B} (f : A -> Result B) (P : B -> Prop) (l : list A) :
  Forall (fun a => exists b, f a = Ok b /\ P b) l ->
  exists l', mapM f l = Ok l' /\ Forall P l' /\ length l' = length l.
Proof.
  induction 1 as [|a l (b & Hb & HP) _ (l' & IH & Hl' & Hlen)]; simpl.
  - eexists; split_and!; [done|constructor|done].
  - rewrite Hb. simpl. rewrite IH. simpl. eexists; split_and!; [done|by constructor|simpl; lia].
Qed.

Lemma mapM_map {A B} (f : A -> Result B) (g : A -> B) (l : list A) :
  (forall a, a ∈ l -> f a = Ok (g a)) -> mapM f l = Ok (map g l).
Proof.
  intros Hf. apply mapM_Ok_iff. induction l as [|x l IH]; simpl; constructor.
  - apply Hf. set_solver.
  - apply IH. intros a Ha. apply Hf. set_solver.
Qed.

Lemma mapM_Err {A B} (f : A -> Result B) (l : list A) (e : Exc) :
  mapM f l = Err e -> exists i x, l !! i = Some x /\ f x = Err e /\
    forall j y, j < i -> l !! j = Some y -> is_ok (f y) = true.
Proof.
  induction l as [|x l IH]; simpl; [discriminate|].
  destruct (f x) as [y|e'] eqn:Hx; simpl.
  - destruct (mapM f l) as [ys|e''] eqn:Hl; simpl; [discriminate|].
    intros H. injection H as ->. destruct (IH eq_refl) as (i & z & Hi & Hz & Hbefore).
    exists (S i), z. split_and!; [done|done|].
    intros [|j] w Hj Hw; simpl in Hw.
    + injection Hw as <-. by rewrite Hx.
    + apply (Hbefore j); [lia|done].
  - intros H. injection H as ->. exists 0, x. split_and!; [done|done|lia].
Qed.

Lemma sum_list_length_concat {A} (ls : list (list A)) :
  sum_list (map length ls) = length (concat ls).
Proof. induction ls as [|l ls IH]; simpl; [done|]. by rewrite length_app, IH. Qed.

Lemma extendM_cons {A B} (f : A -> Result (list B)) (x : A) (l : list A) :
  extendM f (x :: l) = (a ← f x; b ← extendM f l; Ok (a ++ b)).
Proof. unfold extendM. simpl. destruct (f x); simpl; [|done]. by destruct (mapM f l). Qed.

Lemma extendM_Ok_length {A B} (f : A -> Result (list B)) (n : nat) (l : list A) :
  (forall a, a ∈ l -> exists bs, f a = Ok bs /\ length bs = n) ->
  exists out, extendM f l = Ok out /\ length out = n * length l.
Proof.
  induction l as [|x l IH]; intros Hf; simpl.
  - exists []. split; [done|simpl; rewrite Nat.mul_0_r; done].
  - destruct (Hf x) as (bs & Hbs & Hlen); [by constructor|].
    destruct IH as (out' & Hout & Hlen'); [intros a Ha; apply Hf; by constructor|].
    unfold extendM in *. apply fmap_Ok in Hout as (ys & Hys & ->).
    exists (bs ++ concat ys). simpl. rewrite Hbs. simpl. rewrite Hys. simpl.
    split; [done|]. rewrite length_app. lia.
Qed.

(** ** Python slicing on non-negative bounds *)

Lemma py_slice_nat {A} (a c : nat) (l : list A) :
  a <= c -> py_slice (Z.of_nat a) (Z.of_nat c) l = take (c - a) (drop a l).
Proof.
  intros Hac. unfold py_slice, py_slice_bound.
  assert (Hnoneg : forall k : nat, (Z.of_nat k <? 0)%Z = false) by (intros; apply Z.ltb_ge; lia).
  rewrite !Hnoneg.
  destruct (decide (c <= length l)), (decide (a <= length l)).
  - rewrite !Z.min_l by lia. f_equal; [lia | by rewrite Nat2Z.id].
  - lia.
  - rewrite (Z.min_l (Z.of_nat a)) by lia. rewrite (Z.min_r (Z.of_nat c)) by lia.
    rewrite Nat2Z.id. rewrite !take_ge by (rewrite length_drop; lia). done.
  - rewrite !Z.min_r by lia. rewrite Z.sub_diag. simpl.
    rewrite (drop_ge l a); [by rewrite take_nil | lia].
Qed.

Lemma py_index_nat {A} (l : list A) (i : nat) (x : A) :
  l !! i = Some x -> py_index l (Z.of_nat i) = Ok x.
Proof.
  intros H. unfold py_index.
  replace ((Z.of_nat i <? 0)%Z) with false by (symmetry; apply Z.ltb_ge; lia).
  replace ((0 <=? Z.of_nat i)%Z) with true by (symmetry; apply Z.leb_le; lia).
  by rewrite Nat2Z.id, H.
Qed.

Lemma py_index_nil {A} (i : Z) : py_index (@nil A) i = Err (IndexError "list index out of range").
Proof. unfold py_index. by destruct (_ <? _)%Z, (_ <=? _)%Z. Qed.

(** ** Chunk arithmetic *)

Lemma ceil_div_spec (n b : nat) :
  0 < b -> (ceil_div n b - 1) * b < n <= ceil_div n b * b \/ (n = 0 /\ ceil_div n b = 0).
Proof.
  intros Hb. unfold ceil_div.
  destruct n as [|n].
  - right. split; [done|]. apply Nat.div_small. lia.
  - left. pose proof (Nat.div_mod (S n + (b - 1)) b ltac:(lia)) as Hdm.
    pose proof (Nat.mod_upper_bound (S n + (b - 1)) b ltac:(lia)).
    nia.
Qed.

Lemma ceil_div_S (n b : nat) : 0 < b -> ceil_div (b + n) b = S (ceil_div n b).
Proof.
  intros Hb. unfold ceil_div.
  replace (b + n + (b - 1)) with (n + (b - 1) + 1 * b) by lia.
  rewrite Nat.div_add by lia. lia.
Qed.

Lemma ceil_div_small (n b : nat) : 0 < n <= b -> ceil_div n b = 1.
Proof.
  intros H. unfold ceil_div.
  symmetry. apply Nat.div_unique with (n - 1); lia.
Qed.

Lemma ceil_div_0 (b : nat) : ceil_div 0 b = 0.
Proof. unfold ceil_div. destruct b; [done|]. apply Nat.div_small. lia. Qed.

#[export] Hint Resolve mapM_length : farm.

(** Destruct a successful bind in a hypothesis. *)
Ltac res_inv :=
  repeat match goal with
  | H : (_ ≫= _) = Ok _ |- _ => apply bind_Ok in H as (? & ? & ?)
  | H : (_ <$> _) = Ok _ |- _ => apply fmap_Ok in H as (? & ? & ?)
  | H : Ok _ = Ok _ |- _ => injection H as H
  | H : Err _ = Ok _ |- _ => discriminate H
  end.

(** ** Row-major lists: a concatenation of equal-length chunks *)

Lemma concat_uniform_length {A} (ls : list (list A)) (k : nat) :
  Forall (fun l => length l = k) ls -> length (concat ls) = length ls * k.
Proof.
  induction 1 as [|l ls Hl _ IH]; simpl; [done|]. rewrite length_app. lia.
Qed.

Lemma concat_uniform_slice {A} (ls : list (list A)) (k i : nat) (x : list A) :
  Forall (fun l => length l = k) ls -> ls !! i = Some x ->
  take k (drop (i * k) (concat ls)) = x.
Proof.
  intros Hf. revert i. induction Hf as [|l ls Hl _ IH]; intros i Hi; [done|].
  destruct i as [|i]; simpl in *.
  - injection Hi as <-. by apply take_app_length'.
  - rewrite (drop_app_add' l (concat ls) k (i * k)) by done. by apply IH.
Qed.

#[export] Hint Resolve concat_uniform_length : farm.

Lemma lookup_map_Some {A B} (f : A -> B) (l : list A) (i : nat) (x : A) :
  l !! i = Some x -> map f l !! i = Some (f x).
Proof.
  revert i. induction l as [|y l IH]; intros [|i] H; simpl in *; try done.
  - by injection H as ->.
  - by apply IH.
Qed.

Lemma forallb_lookup {A} (f : A -> bool) (l : list A) (i : nat) (x : A) :
  forallb f l = true -> l !! i = Some x -> f x = true.
Proof.
  revert i. induction l as [|y l IH]; intros [|i] Hf Hx; simpl in *; try done;
    apply andb_true_iff in Hf as [? ?]; [congruence|eauto].
Qed.

Lemma forallb_Forall {A} (f : A -> bool) (l : list A) :
  forallb f l = true <-> Forall (fun x => f x = true) l.
Proof.
  induction l as [|y l IH]; simpl; [split; auto|].
  rewrite andb_true_iff, Forall_cons, IH. done.
Qed.

(** [all(...)] is false as soon as one element fails. *)
Lemma forallb_false_elem {A} (f : A -> bool) (l : list A) (x : A) :
  x ∈ l -> f x = false -> forallb f l = false.
Proof.
  intros Hx Hf. destruct (forallb f l) eqn:E; [|done].
  apply forallb_Forall in E. rewrite Forall_forall in E. by rewrite (E x Hx) in Hf.
Qed.

#[export] Hint Resolve lookup_map_Some forallb_lookup : farm.

Lemma py_index_0 {A} (x : A) (l : list A) : py_index (x :: l) 0 = Ok x.
Proof. reflexivity. Qed.

Lemma mapM_zip_snd {A B C} (f : B -> Result C) (l : list A) (l' : list B) :
  length l = length l' -> mapM (fun p => f p.2) (zip l l') = mapM f l'.
Proof.
  revert l'. induction l as [|a l IH]; intros [|b l'] Hlen; simpl in *; try done.
  rewrite IH by lia. done.
Qed.

Lemma map_fst_zip {A B} (l : list A) (l' : list B) :
  length l <= length l' -> map fst (zip l l') = l.
Proof.
  revert l'. induction l as [|a l IH]; intros [|b l'] Hlen; simpl in *; try (done || lia).
  rewrite IH by lia. done.
Qed.

Lemma zip_with_map_r {A B C} (g : A -> B -> C) (h : A -> B) (l : list A) :
  zip_with g l (map h l) = map (fun x => g x (h x)) l.
Proof. induction l as [|x l IH]; simpl; [done|]. by rewrite IH. Qed.

Lemma lookup_map_Some_inv {A B} (f : A -> B) (l : list A) (i : nat) (y : B) :
  map f l !! i = Some y -> exists x, y = f x /\ l !! i = Some x.
Proof.
  revert i. induction l as [|x l IH]; intros [|i] H; simpl in *; try done.
  - injection H as <-. eauto.
  - by apply IH.
Qed.
