(* ===== verification/PyData.v ===== *)
(** * Python values and dictionaries

    The inputs of the inference core are Python dictionaries ([dicts] of
    [run_inference], the feature dictionaries of
    [convert_features_to_dataset], the result records of
    [FasttextInferencer.extract_vectors]).  A Python [dict] keeps its keys
    in insertion order; it is modelled as an association list whose keys
    are pairwise distinct ([dict_wf]).  [d[k]] is [getitem] (raising
    [KeyError k]); [d[k] = v] is [setitem] (in place when [k] is present,
    appended at the end otherwise); [d.keys()] is [dict_keys].  Python's
    [==] on dictionaries ignores the insertion order: it is [dict_equiv],
    an equivalence for which [getitem], [dict_get], [dict_mem] and
    [setitem] are morphisms ([Proper] instances), so that statements up
    to dictionary equality are proved by [setoid_rewrite]. *)

From S2P Require Import Prelude.

Inductive PyVal : Type :=
| PyNone
| PyBool (b : bool)
| PyInt (z : Z)
| PyStr (s : string)
| PyList (vs : list PyVal)
| PyObj (tag : string) (payload : list Z).

(** Python's [==] on values, structural on lists. *)
Fixpoint PyVal_eq_dec (v1 v2 : PyVal) {struct v1} : Decision (v1 = v2).
Proof.
  refine (match v1, v2 with
  | PyNone, PyNone => left _
  | PyBool a, PyBool b => cast_if (decide (a = b))
  | PyInt a, PyInt b => cast_if (decide (a = b))
  | PyStr a, PyStr b => cast_if (decide (a = b))
  | PyList xs, PyList ys => cast_if (@list_eq_dec _ PyVal_eq_dec xs ys)
  | PyObj t p, PyObj t' p' => cast_if_and (decide (t = t')) (decide (p = p'))
  | _, _ => right _
  end); congruence.
Defined.
#[export] Instance PyVal_EqDecision : EqDecision PyVal := PyVal_eq_dec.

(** [PyObj] stands for an opaque object returned by a library
    (for instance a numpy vector): a type tag and its numeric content. *)

Definition dict := list (string * PyVal).

Definition dict_keys (d : dict) : list string := map fst d.

Definition dict_wf (d : dict) : Prop := NoDup (dict_keys d).

Fixpoint dict_get (d : dict) (k : string) : option PyVal :=
  match d with
  | [] => None
  | (k', v) :: d' => if String.eqb k k' then Some v else dict_get d' k
  end.

(** [d[k]] *)
Definition getitem (d : dict) (k : string) : Result PyVal :=
  match dict_get d k with
  | Some v => Ok v
  | None => Err (KeyError k)
  end.

(** [d[k] = v] *)
Fixpoint setitem (d : dict) (k : string) (v : PyVal) : dict :=
  match d with
  | [] => [(k, v)]
  | (k', v') :: d' => if String.eqb k k' then (k', v) :: d' else (k', v') :: setitem d' k v
  end.

(** [k in d] *)
Definition dict_mem (d : dict) (k : string) : bool :=
  match dict_get d k with Some _ => true | None => false end.

(** [d1 == d2]: Python's dictionary equality compares the key-value
    pairs and ignores the insertion order. *)
Definition dict_equiv (d1 d2 : dict) : Prop := forall k, dict_get d1 k = dict_get d2 k.

(** The executable comparison: only the keys of either side can differ. *)
Definition dict_equivb (d1 d2 : dict) : bool :=
  forallb (fun k => bool_decide (dict_get d1 k = dict_get d2 k)) (dict_keys d1 ++ dict_keys d2).

(** ** Lemmas *)

Lemma dict_get_Some_in (d : dict) (k : string) (v : PyVal) :
  dict_get d k = Some v -> k ∈ dict_keys d.
Proof.
  induction d as [|[k' v'] d IH]; simpl; [discriminate|].
  destruct (String.eqb_spec k k') as [->|_]; intros H; [by left|].
  right. by apply IH.
Qed.

Lemma dict_get_None (d : dict) (k : string) :
  dict_get d k = None <-> k ∉ dict_keys d.
Proof.
  induction d as [|[k' v'] d IH]; simpl.
  - split; [intros _; apply not_elem_of_nil | done].
  - destruct (String.eqb_spec k k') as [->|Hne].
    + split; [discriminate|]. intros H. exfalso. apply H. by left.
    + rewrite IH. rewrite elem_of_cons. naive_solver.
Qed.

Lemma getitem_Ok (d : dict) (k : string) (v : PyVal) :
  getitem d k = Ok v <-> dict_get d k = Some v.
Proof.
  unfold getitem. destruct (dict_get d k); split; intros H; try discriminate; congruence.
Qed.

Lemma getitem_KeyError (d : dict) (k : string) :
  k ∉ dict_keys d -> getitem d k = Err (KeyError k).
Proof. intros H. unfold getitem. apply dict_get_None in H. by rewrite H. Qed.

Lemma getitem_setitem_eq (d : dict) (k : string) (v : PyVal) :
  getitem (setitem d k v) k = Ok v.
Proof.
  unfold getitem. induction d as [|[k' v'] d IH]; simpl.
  - by rewrite String.eqb_refl.
  - destruct (String.eqb_spec k k') as [->|Hne]; simpl.
    + by rewrite String.eqb_refl.
    + apply String.eqb_neq in Hne. rewrite Hne. done.
Qed.

Lemma dict_get_setitem_ne (d : dict) (k k' : string) (v : PyVal) :
  k <> k' -> dict_get (setitem d k v) k' = dict_get d k'.
Proof.
  intros Hne. induction d as [|[k0 v0] d IH]; simpl.
  - apply String.eqb_neq in Hne. by rewrite String.eqb_sym, Hne.
  - destruct (String.eqb_spec k k0) as [->|Hne0]; simpl.
    + destruct (String.eqb_spec k' k0); [congruence|done].
    + by rewrite IH.
Qed.

Lemma dict_keys_setitem (d : dict) (k : string) (v : PyVal) :
  dict_keys (setitem d k v) =
    if decide (k ∈ dict_keys d) then dict_keys d else dict_keys d ++ [k].
Proof.
  induction d as [|[k0 v0] d IH].
  - destruct (decide (k ∈ dict_keys [])) as [H|H]; [by apply not_elem_of_nil in H|done].
  - destruct (decide (k ∈ dict_keys ((k0, v0) :: d))) as [H1|H1];
      destruct (decide (k ∈ dict_keys d)) as [H2|H2];
      simpl in *; rewrite elem_of_cons in H1;
      destruct (String.eqb_spec k k0) as [->|Hne]; simpl; rewrite ?IH; naive_solver.
Qed.

Lemma setitem_wf (d : dict) (k : string) (v : PyVal) :
  dict_wf d -> dict_wf (setitem d k v).
Proof.
  unfold dict_wf. intros Hwf. rewrite dict_keys_setitem.
  case_decide as Hin; [done|].
  apply NoDup_app. split_and!; [done| |by apply NoDup_singleton].
  intros x Hx ->%list_elem_of_singleton. contradiction.
Qed.

Lemma dict_get_in (d : dict) (k : string) :
  k ∈ dict_keys d -> exists v, dict_get d k = Some v.
Proof.
  intros Hk. destruct (dict_get d k) as [v|] eqn:Hg; [eauto|].
  apply dict_get_None in Hg. contradiction.
Qed.

Lemma dict_get_setitem (d : dict) (k k' : string) (v : PyVal) :
  dict_get (setitem d k v) k' = if String.eqb k' k then Some v else dict_get d k'.
Proof.
  destruct (String.eqb_spec k' k) as [->|Hne].
  - by apply getitem_Ok, getitem_setitem_eq.
  - by apply dict_get_setitem_ne.
Qed.

(** ** Dictionary equality *)

Lemma dict_equiv_equivalence : Equivalence dict_equiv.
Proof.
  split.
  - by intros d k.
  - intros d1 d2 H k. by rewrite H.
  - intros d1 d2 d3 H1 H2 k. by rewrite H1, H2.
Qed.
#[export] Existing Instance dict_equiv_equivalence.

Lemma dict_equivb_spec (d1 d2 : dict) : dict_equivb d1 d2 = true <-> dict_equiv d1 d2.
Proof.
  unfold dict_equivb. rewrite forallb_forall. split.
  - intros H k. destruct (decide (k ∈ dict_keys d1 ++ dict_keys d2)) as [Hk|Hk].
    + apply (bool_decide_eq_true _), H. by apply list_elem_of_In.
    + rewrite elem_of_app in Hk. rewrite !(proj2 (dict_get_None _ k)) by tauto. done.
  - intros H k _. by apply (bool_decide_eq_true _).
Qed.

Lemma dict_equiv_dec : RelDecision dict_equiv.
Proof.
  intros d1 d2. destruct (dict_equivb d1 d2) eqn:E.
  - left. by apply dict_equivb_spec.
  - right. intros H%dict_equivb_spec. congruence.
Defined.
#[export] Existing Instance dict_equiv_dec.

Lemma dict_get_proper : Proper (dict_equiv ==> eq ==> eq) dict_get.
Proof. intros d1 d2 Hd k ? ->. apply Hd. Qed.
#[export] Existing Instance dict_get_proper.

Lemma getitem_proper : Proper (dict_equiv ==> eq ==> eq) getitem.
Proof. intros d1 d2 Hd k ? ->. unfold getitem. by rewrite Hd. Qed.
#[export] Existing Instance getitem_proper.

Lemma dict_mem_proper : Proper (dict_equiv ==> eq ==> eq) dict_mem.
Proof. intros d1 d2 Hd k ? ->. unfold dict_mem. by rewrite Hd. Qed.
#[export] Existing Instance dict_mem_proper.

Lemma setitem_proper : Proper (dict_equiv ==> eq ==> eq ==> dict_equiv) setitem.
Proof. intros d1 d2 Hd k ? -> v ? -> k'. by rewrite !dict_get_setitem, Hd. Qed.
#[export] Existing Instance setitem_proper.

(** Assigning the same keys in another order gives an equal dictionary. *)
Lemma setitem_comm (d : dict) (k1 k2 : string) (v1 v2 : PyVal) :
  k1 <> k2 -> dict_equiv (setitem (setitem d k1 v1) k2 v2) (setitem (setitem d k2 v2) k1 v1).
Proof.
  intros Hne k. rewrite !dict_get_setitem.
  destruct (String.eqb_spec k k2), (String.eqb_spec k k1); subst; congruence.
Qed.

