(* ===== verification/Tensor.v ===== *)
(** * Long tensors

    The part of torch the inference core relies on, modelled from torch's
    behaviour (this code is not under src/):
    - a tensor is a shape, a row-major list of int64 values and a device;
    - [torch.tensor(data, dtype=torch.long)] ([torch_tensor]) infers the
      shape by following first elements ([compute_sizes]) and then stores
      every element, checking each sequence length against the inferred
      size ([ValueError]), that a sequence is found where one is expected
      ([TypeError]), and that every integer fits in 64 bits
      ([RuntimeError "Overflow when unpacking long"]); Python [bool]s are
      stored as 0/1;
    - [t[i]] on the first dimension ([tensor_index]);
    - [torch.stack] ([tensor_stack]): equal shapes and devices required;
    - [t.to(device)] ([tensor_to]).
    Well-formedness ([tensor_wf]): the data has exactly as many values as
    the shape says, and every value is in the int64 range. *)

From S2P Require Import Prelude PyData.

Inductive Device : Type := CPU | CUDA.

#[export] Instance Device_eq_dec : EqDecision Device.
Proof. solve_decision. Defined.

Record Tensor : Type := mkTensor {
  t_shape : list nat;
  t_data : list Z;
  t_device : Device
}.

Definition numel (s : list nat) : nat := foldr Nat.mul 1 s.

Definition tensor_wf (t : Tensor) : Prop :=
  length (t_data t) = numel (t_shape t) /\ Forall (fun z => in_int64 z = true) (t_data t).

(** ** torch.tensor(data, dtype=torch.long) *)

(** Sizes inferred from the first element of every nesting level. *)
Fixpoint compute_sizes (v : PyVal) : list nat :=
  match v with
  | PyList [] => [0]
  | PyList (x :: xs) => S (length xs) :: compute_sizes x
  | _ => []
  end.

(** One scalar stored into a long tensor. *)
Definition store_scalar (v : PyVal) : Result (list Z) :=
  match v with
  | PyInt z => if in_int64 z then Ok [z] else Err (RuntimeError "Overflow when unpacking long")
  | PyBool b => Ok [if b then 1%Z else 0%Z]
  | PyList _ => Err (TypeError "an integer is required")
  | _ => Err (TypeError "an integer is required")
  end.

(** Recursive store of [v] at the remaining [sizes]. *)
Fixpoint store (sizes : list nat) (v : PyVal) : Result (list Z) :=
  match sizes with
  | [] => store_scalar v
  | n :: rest =>
      match v with
      | PyList vs =>
          if Nat.eqb (length vs) n then extendM (store rest) vs
          else Err (ValueError "expected sequence of length")
      | _ => Err (TypeError "not a sequence")
      end
  end.

Definition torch_tensor (v : PyVal) : Result Tensor :=
  let sizes := compute_sizes v in
  data ← store sizes v;
  Ok (mkTensor sizes data CPU).

(** ** Indexing, stacking, device transfer *)

(** [t[i]] for [0 <= i]. *)
Definition tensor_index (t : Tensor) (i : nat) : Result Tensor :=
  match t_shape t with
  | [] => Err (IndexError "invalid index of a 0-dim tensor")
  | n :: rest =>
      if Nat.ltb i n then
        let k := numel rest in
        Ok (mkTensor rest (take k (drop (i * k) (t_data t))) (t_device t))
      else Err (IndexError "index out of range")
  end.

(** [torch.stack(ts)] *)
Definition tensor_stack (ts : list Tensor) : Result Tensor :=
  match ts with
  | [] => Err (RuntimeError "stack expects a non-empty TensorList")
  | t0 :: _ =>
      if forallb (fun t => bool_decide (t_shape t = t_shape t0)) ts then
        if forallb (fun t => bool_decide (t_device t = t_device t0)) ts then
          Ok (mkTensor (length ts :: t_shape t0) (concat (map t_data ts)) (t_device t0))
        else Err (RuntimeError "Expected all tensors to be on the same device")
      else Err (RuntimeError "stack expects each tensor to be equal size")
  end.

(** [t.to(device)] *)
Definition tensor_to (dev : Device) (t : Tensor) : Tensor :=
  mkTensor (t_shape t) (t_data t) dev.

(** The leading size of a tensor ([t.size(0)]). *)
Definition size0 (t : Tensor) : Result nat :=
  match t_shape t with
  | [] => Err (IndexError "dimension specified as 0 but tensor has no dimensions")
  | n :: _ => Ok n
  end.

(** The Python ints a value holds, left to right: the integers
    [torch.tensor] has to store ([True] and [False] are stored as 1 and 0
    and cannot overflow). *)
Fixpoint py_ints (v : PyVal) : list Z :=
  match v with
  | PyInt z => [z]
  | PyList vs => concat (map py_ints vs)
  | _ => []
  end.

#[export] Instance Tensor_inhabited : Inhabited Tensor := populate (mkTensor [] [] CPU).

(** A size list as [compute_sizes] produces it: nothing follows a 0. *)
Fixpoint sizes_closed (s : list nat) : Prop :=
  match s with
  | [] => True
  | 0 :: r => r = []
  | _ :: r => sizes_closed r
  end.

(** ** Properties *)

Lemma compute_sizes_closed (v : PyVal) : sizes_closed (compute_sizes v).
Proof.
  revert v. fix IH 1. intros [| | | |[|x xs]|]; simpl; auto.
Qed.

Lemma store_scalar_spec (v : PyVal) (d : list Z) :
  store_scalar v = Ok d -> length d = 1 /\ Forall (fun z => in_int64 z = true) d.
Proof.
  destruct v as [|b|z| | |]; simpl; try discriminate.
  - intros H. injection H as <-. split; [done|]. constructor; [by destruct b|constructor].
  - destruct (in_int64 z) eqn:Hz; [|discriminate].
    intros H. injection H as <-. split; [done|]. by constructor.
Qed.

Lemma store_spec (s : list nat) (v : PyVal) (d : list Z) :
  store s v = Ok d -> length d = numel s /\ Forall (fun z => in_int64 z = true) d.
Proof.
  revert v d. induction s as [|n rest IH]; intros v d; simpl.
  - apply store_scalar_spec.
  - destruct v as [| | | |vs|]; try discriminate.
    destruct (Nat.eqb_spec (length vs) n) as [<-|]; [|discriminate].
    unfold extendM. intros (ds & Hds & ->)%fmap_Ok.
    pose proof (mapM_Forall _ _ _ _ (fun a b H => IH a b H) Hds) as Hall.
    split.
    + rewrite (concat_uniform_length ds (numel rest)).
      * rewrite (mapM_length _ _ _ Hds). lia.
      * eapply Forall_impl; [exact Hall|]. by intros ? [? ?].
    + apply Forall_concat. eapply Forall_impl; [exact Hall|]. by intros ? [? ?].
Qed.

(** Every tensor built by [torch.tensor(..., dtype=torch.long)] is well
    formed: its data matches its shape and fits in 64 bits. *)
Lemma torch_tensor_wf (v : PyVal) (t : Tensor) :
  torch_tensor v = Ok t -> tensor_wf t /\ t_device t = CPU.
Proof.
  unfold torch_tensor. intros (d & Hd & Ht)%bind_Ok. injection Ht as <-.
  apply store_spec in Hd as [? ?]. split; [split|]; done.
Qed.

(** Storing never wraps around: every int a stored value holds is in the
    int64 range. *)
Lemma store_py_ints (s : list nat) (v : PyVal) (d : list Z) :
  store s v = Ok d -> Forall (fun z => in_int64 z = true) (py_ints v).
Proof.
  revert v d. induction s as [|n rest IH]; intros v d.
  - destruct v as [|b|z| | |]; simpl; try by constructor.
    + destruct (in_int64 z) eqn:Hz; [by repeat constructor|discriminate].
    + discriminate.
  - destruct v as [| | | |vs|]; simpl; try discriminate.
    destruct (Nat.eqb (length vs) n); [|discriminate].
    unfold extendM. intros (ds & Hds%mapM_Ok_iff & _)%fmap_Ok.
    apply Forall_concat, Forall_map.
    induction Hds as [|x dx vs' ds' Hx _ IHds]; constructor; [by apply (IH x dx)|done].
Qed.

Lemma torch_tensor_py_ints (v : PyVal) (t : Tensor) :
  torch_tensor v = Ok t -> Forall (fun z => in_int64 z = true) (py_ints v).
Proof. unfold torch_tensor. intros (d & Hd & _)%bind_Ok. by apply store_py_ints in Hd. Qed.

Lemma compute_sizes_cons (x : PyVal) (xs : list PyVal) :
  compute_sizes (PyList (x :: xs)) = S (length xs) :: compute_sizes x.
Proof. reflexivity. Qed.

Lemma store_list (n : nat) (rest : list nat) (vs : list PyVal) :
  store (n :: rest) (PyList vs) =
    if Nat.eqb (length vs) n then extendM (store rest) vs
    else Err (ValueError "expected sequence of length").
Proof. reflexivity. Qed.

Lemma tensor_index_mk (n : nat) (rest : list nat) (d : list Z) (dev : Device) (i : nat) :
  tensor_index (mkTensor (n :: rest) d dev) i =
    if Nat.ltb i n then Ok (mkTensor rest (take (numel rest) (drop (i * numel rest) d)) dev)
    else Err (IndexError "index out of range").
Proof. reflexivity. Qed.

(** A successful store at closed sizes means [v] has exactly that shape. *)
Lemma store_sizes (s : list nat) (v : PyVal) (d : list Z) :
  sizes_closed s -> store s v = Ok d -> compute_sizes v = s.
Proof.
  revert v d. induction s as [|n rest IH]; intros v d Hc; simpl.
  - destruct v as [| | | |vs|]; simpl; try discriminate; done.
  - destruct v as [| | | |vs|]; try discriminate.
    destruct (Nat.eqb_spec (length vs) n) as [<-|]; [|discriminate].
    unfold extendM. intros (ds & Hds & ->)%fmap_Ok.
    destruct vs as [|x xs].
    + simpl in Hc. by subst.
    + destruct (mapM_lookup _ _ _ 0 x Hds eq_refl) as (dx & _ & Hx).
      simpl in Hc |- *. by rewrite (IH x dx Hc Hx).
Qed.

(** The i-th row of [torch.tensor(vs)] is [torch.tensor(vs[i])]. *)
Lemma torch_tensor_index (vs : list PyVal) (t : Tensor) (i : nat) (v : PyVal) :
  torch_tensor (PyList vs) = Ok t -> vs !! i = Some v ->
  tensor_index t i = torch_tensor v.
Proof.
  intros Ht Hv.
  assert (Hc := compute_sizes_closed (PyList vs)).
  unfold torch_tensor in Ht. cbv zeta in Ht.
  apply bind_Ok in Ht as (d & Hd & Ht). injection Ht as <-.
  destruct vs as [|x xs]; [done|].
  rewrite compute_sizes_cons in Hd, Hc. remember (compute_sizes x) as rest eqn:Hrest. cbn [sizes_closed] in Hc.
  rewrite store_list, Nat.eqb_refl in Hd.
  unfold extendM in Hd. apply fmap_Ok in Hd as (ds & Hds & ->).
  destruct (mapM_lookup _ _ _ _ _ Hds Hv) as (dv & Hdv & Hstore).
  assert (Hall := mapM_Forall _ _ _ _ (fun a b H => proj1 (store_spec _ a b H)) Hds).
  rewrite tensor_index_mk.
  assert (Hi : i < S (length xs)) by (apply lookup_lt_Some in Hv; done).
  apply Nat.ltb_lt in Hi. rewrite Hi.
  rewrite (concat_uniform_slice ds _ i dv Hall Hdv).
  unfold torch_tensor. rewrite (store_sizes _ v dv Hc Hstore), Hstore. done.
Qed.

(** Inversion of a successful [torch.stack]: a non-empty list of tensors
    of the first one's shape and device, stacked along a new dimension. *)
Lemma tensor_stack_Ok_inv (ts : list Tensor) (t : Tensor) :
  tensor_stack ts = Ok t ->
  exists t0 ts', ts = t0 :: ts' /\
    Forall (fun u => t_shape u = t_shape t0 /\ t_device u = t_device t0) ts /\
    t = mkTensor (length ts :: t_shape t0) (concat (map t_data ts)) (t_device t0).
Proof.
  destruct ts as [|t0 ts']; [discriminate|]. unfold tensor_stack.
  destruct (forallb _ _) eqn:Hsh; [|discriminate].
  destruct (forallb (fun u => bool_decide (t_device u = t_device t0)) _) eqn:Hdv; [|discriminate].
  intros [= <-]. exists t0, ts'. split_and!; [done| |done].
  apply forallb_Forall in Hsh, Hdv. apply Forall_and. split;
    [eapply Forall_impl; [exact Hsh|]|eapply Forall_impl; [exact Hdv|]];
    intros u Hu; by apply bool_decide_eq_true in Hu.
Qed.

(** Well-formed tensors of one shape have data of one length. *)
Lemma stack_data_uniform (ts : list Tensor) (sh : list nat) :
  Forall tensor_wf ts -> Forall (fun u => t_shape u = sh) ts ->
  Forall (fun l => length l = numel sh) (map t_data ts).
Proof.
  intros Hwf Hsh. apply Forall_map. apply Forall_forall. intros u Hu.
  rewrite <- (proj1 (Forall_forall _ _) Hsh u Hu). apply (proj1 (Forall_forall _ _) Hwf u Hu).
Qed.

(** [torch.stack] then [t[i]] gives back the i-th stacked tensor. *)
Lemma tensor_stack_index (ts : list Tensor) (t x : Tensor) (i : nat) :
  Forall tensor_wf ts -> tensor_stack ts = Ok t -> ts !! i = Some x ->
  tensor_index t i = Ok x.
Proof.
  intros Hwf (t0 & ts' & -> & Hall & ->)%tensor_stack_Ok_inv Hx.
  apply Forall_and in Hall as [Hsh Hdv].
  rewrite tensor_index_mk.
  assert (Hi : i < length (t0 :: ts')) by (apply lookup_lt_Some in Hx; done).
  apply Nat.ltb_lt in Hi. rewrite Hi.
  rewrite (concat_uniform_slice _ _ i (t_data x) (stack_data_uniform _ _ Hwf Hsh))
    by (by apply lookup_map_Some).
  destruct (proj1 (Forall_lookup _ _) Hsh i x Hx), (proj1 (Forall_lookup _ _) Hdv i x Hx).
  by destruct x.
Qed.

Lemma tensor_stack_wf (ts : list Tensor) (t : Tensor) :
  Forall tensor_wf ts -> tensor_stack ts = Ok t -> tensor_wf t.
Proof.
  intros Hwf (t0 & ts' & -> & Hall & ->)%tensor_stack_Ok_inv.
  apply Forall_and in Hall as [Hsh _]. split; cbn [t_data t_shape].
  - change (numel (length (t0 :: ts') :: t_shape t0)) with (length (t0 :: ts') * numel (t_shape t0)).
    rewrite (concat_uniform_length _ _ (stack_data_uniform _ _ Hwf Hsh)). by rewrite length_map.
  - apply Forall_concat, Forall_map. eapply Forall_impl; [exact Hwf|]. by intros u [_ ?].
Qed.

Lemma tensor_to_wf (dev : Device) (t : Tensor) : tensor_wf t -> tensor_wf (tensor_to dev t).
Proof. done. Qed.

(** Moving a tensor to a device commutes with indexing. *)
Lemma tensor_index_to (dev : Device) (t : Tensor) (k : nat) :
  tensor_index (tensor_to dev t) k = tensor_to dev <$> tensor_index t k.
Proof.
  destruct t as [[|n rest] d dv]; [done|]. unfold tensor_to. cbn [t_shape t_data].
  rewrite !tensor_index_mk. by destruct (Nat.ltb k n).
Qed.

Lemma tensor_index_wf (t u : Tensor) (i : nat) :
  tensor_wf t -> tensor_index t i = Ok u -> tensor_wf u.
Proof.
  destruct t as [s d dev]. intros [Hlen Hint]. cbn [t_data t_shape] in *.
  destruct s as [|n rest]; [discriminate|]. rewrite tensor_index_mk.
  destruct (Nat.ltb_spec i n) as [Hi|]; [|discriminate]. intros [= <-].
  split; cbn [t_data t_shape].
  - rewrite length_take, length_drop, Hlen. simpl. nia.
  - by apply Forall_take, Forall_drop.
Qed.

Lemma compute_sizes_ints (vs : list Z) : compute_sizes (PyList (map PyInt vs)) = [length vs].
Proof. destruct vs; simpl; [done|by rewrite length_map]. Qed.

(** Storing a flat list of Python ints: the first one outside int64
    raises, otherwise the values are stored as they are. *)
Lemma store_ints (vs : list Z) :
  extendM (store []) (map PyInt vs) =
    if forallb in_int64 vs then Ok vs else Err (RuntimeError "Overflow when unpacking long").
Proof.
  induction vs as [|v vs IH]; [done|]. cbn [map]. rewrite extendM_cons, IH.
  cbn [store store_scalar forallb]. destruct (in_int64 v); [|done]. by destruct (forallb in_int64 vs).
Qed.

Lemma store_row (m : nat) (r : list Z) :
  forallb in_int64 r = true ->
  store [m] (PyList (map PyInt r)) =
    if Nat.eqb (length r) m then Ok r else Err (ValueError "expected sequence of length").
Proof.
  intros Hr. rewrite store_list, length_map. destruct (Nat.eqb (length r) m); [|done].
  by rewrite store_ints, Hr.
Qed.

(** Storing a list of rows: the first row of another length raises. *)
Lemma store_rows (m : nat) (rs : list (list Z)) :
  Forall (fun r => forallb in_int64 r = true) rs ->
  extendM (store [m]) (map (fun r => PyList (map PyInt r)) rs) =
    if forallb (fun r => Nat.eqb (length r) m) rs then Ok (concat rs)
    else Err (ValueError "expected sequence of length").
Proof.
  induction 1 as [|r rs Hr _ IH]; [done|]. cbn [map]. rewrite extendM_cons, IH, store_row by done.
  cbn [forallb]. destruct (Nat.eqb (length r) m); [|done]. by destruct (forallb _ rs).
Qed.

(** C16: [torch.tensor] on a list of Python ints with [dtype=torch.long]
    (bounds): the result is the one-dimensional tensor of the values when
    every value is within int64, and [RuntimeError] "Overflow when
    unpacking long" otherwise; no value is wrapped around. *)
Theorem torch_tensor_ints (vs : list Z) :
  torch_tensor (PyList (map PyInt vs)) =
    if forallb in_int64 vs then Ok (mkTensor [length vs] vs CPU)
    else Err (RuntimeError "Overflow when unpacking long").
Proof.
  unfold torch_tensor. cbv zeta. rewrite compute_sizes_ints, store_list, length_map, Nat.eqb_refl, store_ints.
  by destruct (forallb in_int64 vs).
Qed.

(** C15: [torch.tensor] on a list of rows of int64 values, as
    [convert_features_to_dataset] builds for a sequence feature: the
    shape is taken from the first row, and the result is the
    two-dimensional tensor of the rows in order when all rows have the
    first row's length, and [ValueError] otherwise (a ragged batch of
    features). *)
Theorem torch_tensor_rows (r0 : list Z) (rs : list (list Z)) :
  Forall (fun r => forallb in_int64 r = true) (r0 :: rs) ->
  torch_tensor (PyList (map (fun r => PyList (map PyInt r)) (r0 :: rs))) =
    if forallb (fun r => Nat.eqb (length r) (length r0)) rs
    then Ok (mkTensor [S (length rs); length r0] (concat (r0 :: rs)) CPU)
    else Err (ValueError "expected sequence of length").
Proof.
  intros Hall. unfold torch_tensor. cbv zeta.
  replace (compute_sizes _) with [S (length rs); length r0]
    by (cbn [map]; by rewrite compute_sizes_cons, compute_sizes_ints, length_map).
  rewrite store_list, length_map. cbn [length]. rewrite Nat.eqb_refl, store_rows by done.
  cbn [forallb]. rewrite Nat.eqb_refl. simpl. by destruct (forallb _ rs).
Qed.

(** Error paths of [torch.stack], in the order they are checked: an empty
    list, then a shape differing from the first tensor's, then (all shapes
    equal) a tensor on another device than the first. *)
Lemma tensor_stack_errors :
  tensor_stack [] = Err (RuntimeError "stack expects a non-empty TensorList") /\
  (forall t0 ts u, u ∈ ts -> t_shape u <> t_shape t0 ->
     tensor_stack (t0 :: ts) = Err (RuntimeError "stack expects each tensor to be equal size")) /\
  (forall t0 ts u, Forall (fun v => t_shape v = t_shape t0) ts -> u ∈ ts -> t_device u <> t_device t0 ->
     tensor_stack (t0 :: ts) = Err (RuntimeError "Expected all tensors to be on the same device")).
Proof.
  split_and!; [done|..]; intros t0 ts u.
  - intros Hu Hne. unfold tensor_stack.
    rewrite (forallb_false_elem _ _ u); [done|by right|by apply bool_decide_eq_false].
  - intros Hsh Hu Hne. unfold tensor_stack.
    rewrite (proj2 (forallb_Forall _ _)).
    + rewrite (forallb_false_elem _ _ u); [done|by right|by apply bool_decide_eq_false].
    + constructor; [by apply bool_decide_eq_true|].
      eapply Forall_impl; [exact Hsh|]. intros v Hv. by apply bool_decide_eq_true.
Qed.

(** C31: round trip of [torch.stack] on well-formed tensors, and of the
    [.to(device)] that follows it in the batch loop: the stacked tensor is
    well formed, has one row per stacked tensor, and its row [i], before
    or after the move to any device, is the [i]-th tensor given to it,
    moved to that device. *)
Theorem tensor_stack_roundtrip (ts : list Tensor) (t : Tensor) :
  Forall tensor_wf ts -> tensor_stack ts = Ok t ->
  tensor_wf t /\ size0 t = Ok (length ts) /\
  (forall i x, ts !! i = Some x -> tensor_index t i = Ok x) /\
  (forall dev i x, ts !! i = Some x -> tensor_index (tensor_to dev t) i = Ok (tensor_to dev x)).
Proof.
  intros Hwf Hst. split_and!.
  - by apply (tensor_stack_wf ts).
  - by destruct (tensor_stack_Ok_inv ts t Hst) as (t0 & ts' & _ & _ & ->).
  - intros i x. by apply tensor_stack_index.
  - intros dev i x Hx. by rewrite tensor_index_to, (tensor_stack_index ts t x i).
Qed.

(** ** Witnesses *)

Lemma torch_tensor_rows_witness :
  torch_tensor (PyList (map (fun r => PyList (map PyInt r)) [[101; 7592; 102]; [101; 102]]%Z)) =
    Err (ValueError "expected sequence of length").
Proof.
  apply (torch_tensor_rows [101; 7592; 102]%Z [[101; 102]%Z]).
  repeat constructor.
Defined.

Lemma tensor_stack_roundtrip_witness :
  exists t, tensor_stack [mkTensor [2] [1; 2]%Z CPU; mkTensor [2] [3; 4]%Z CPU] = Ok t /\
  tensor_wf t /\ size0 t = Ok 2 /\
  tensor_index t 1 = Ok (mkTensor [2] [3; 4]%Z CPU) /\
  tensor_index (tensor_to CUDA t) 0 = Ok (mkTensor [2] [1; 2]%Z CUDA).
Proof.
  eexists. split; [reflexivity|].
  destruct (tensor_stack_roundtrip [mkTensor [2] [1; 2]%Z CPU; mkTensor [2] [3; 4]%Z CPU] _
              ltac:(repeat constructor) eq_refl) as (Hwf & Hs & Hi & Hto).
  split_and!; [exact Hwf|exact Hs|exact (Hi 1 _ eq_refl)|exact (Hto CUDA 0 _ eq_refl)].
Defined.

