(* ===== verification/Dataset.v ===== *)
(** * Feature-to-batch converter: [convert_features_to_dataset]

    [src/farm/data_handler/dataset.py], lines 6-23, and the
    [TensorDataset] of torch it builds (modelled from torch).

    [convert_features_to_dataset features] takes the key order of
    [features[0]] as the tensor names; for each name it collects
    [sample[t_name]] over all samples (a [KeyError] on the first sample
    missing it) and converts the column with
    [torch.tensor(..., dtype=torch.long)].  The results are wrapped in a
    [TensorDataset], whose length is the leading size of its first tensor
    and whose i-th item is the tuple of the i-th rows.  A column is a
    morphism for Python's dictionary equality ([feature_column_proper]),
    so the samples after the first matter only up to [==]. *)

From S2P Require Import Prelude PyData Tensor.

Local Open Scope farm_scope.

Record TensorDataset : Type := mkDataset { ds_tensors : list Tensor }.

(** [all(tensors[0].size(0) == tensor.size(0) for tensor in tensors)],
    evaluated lazily from left to right. *)
Fixpoint all_same_size0 (t0 : Tensor) (ts : list Tensor) : Result bool :=
  match ts with
  | [] => Ok true
  | t :: ts' =>
      a ← size0 t0; b ← size0 t;
      if Nat.eqb a b then all_same_size0 t0 ts' else Ok false
  end.

(** [TensorDataset(t_1, ..., t_k)] *)
Definition TensorDataset_new (tensors : list Tensor) : Result TensorDataset :=
  match tensors with
  | [] => Ok (mkDataset [])
  | t0 :: _ =>
      ok ← all_same_size0 t0 tensors;
      _ ← py_assert ok "Size mismatch between tensors";
      Ok (mkDataset tensors)
  end.

(** [len(dataset)] = [self.tensors[0].size(0)] *)
Definition dataset_len (ds : TensorDataset) : Result nat :=
  t0 ← (ds_tensors ds).[0]; size0 t0.

(** [dataset[index]] = [tuple(tensor[index] for tensor in self.tensors)] *)
Definition dataset_getitem (ds : TensorDataset) (i : nat) : Result (list Tensor) :=
  mapM (fun t => tensor_index t i) (ds_tensors ds).

(** [torch.tensor([sample[t_name] for sample in features], dtype=torch.long)] *)
Definition feature_column (features : list dict) (t_name : string) : Result Tensor :=
  vals ← mapM (fun sample => getitem sample t_name) features;
  torch_tensor (PyList vals).

Definition convert_features_to_dataset (features : list dict)
    : Result (TensorDataset * list string) :=
  first ← features.[0];
  let tensor_names := dict_keys first in
  all_tensors ← mapM (feature_column features) tensor_names;
  dataset ← TensorDataset_new all_tensors;
  Ok (dataset, tensor_names).

(** Restriction of a dictionary to the given keys (used to state that keys
    absent from [features[0]] play no role). *)
Definition dict_restrict (names : list string) (d : dict) : dict :=
  List.filter (fun kv => bool_decide (kv.1 ∈ names)) d.

(** Features used in the witnesses: the second sample has a field the
    first lacks. *)
Definition example_features : list dict :=
  [[("input_ids", PyList [PyInt 7; PyInt 8]); ("label_ids", PyInt 1)];
   [("input_ids", PyList [PyInt 9; PyInt 10]); ("label_ids", PyInt 0); ("extra", PyStr "x")]].

(** ** Lemmas *)

Lemma compute_sizes_list (vs : list PyVal) :
  exists rest, compute_sizes (PyList vs) = length vs :: rest.
Proof. destruct vs; simpl; eauto. Qed.

Lemma feature_column_Ok (features : list dict) (n : string) (t : Tensor) :
  feature_column features n = Ok t ->
  exists vals, mapM (fun sample => getitem sample n) features = Ok vals /\
               torch_tensor (PyList vals) = Ok t.
Proof. unfold feature_column. intros (vals & ? & ?)%bind_Ok. eauto. Qed.

(** A column has one row per sample. *)
Lemma feature_column_size0 (features : list dict) (n : string) (t : Tensor) :
  feature_column features n = Ok t -> size0 t = Ok (length features) /\ tensor_wf t.
Proof.
  intros (vals & Hvals & Ht)%feature_column_Ok.
  split; [|by apply torch_tensor_wf in Ht as [? _]].
  destruct (compute_sizes_list vals) as (rest & Hr).
  unfold torch_tensor in Ht. rewrite Hr in Ht. apply bind_Ok in Ht as (d & _ & Ht).
  injection Ht as <-. unfold size0. cbn [t_shape]. by rewrite (mapM_length _ _ _ Hvals).
Qed.

Lemma all_same_size0_true (t0 : Tensor) (ts : list Tensor) (n : nat) :
  size0 t0 = Ok n -> Forall (fun t => size0 t = Ok n) ts -> all_same_size0 t0 ts = Ok true.
Proof.
  intros H0 Hall. induction Hall as [|t ts Ht _ IH]; simpl; [done|].
  rewrite H0, Ht. simpl. by rewrite Nat.eqb_refl.
Qed.

Lemma TensorDataset_new_Ok (ts : list Tensor) (n : nat) :
  Forall (fun t => size0 t = Ok n) ts -> TensorDataset_new ts = Ok (mkDataset ts).
Proof.
  intros Hall. destruct ts as [|t0 ts']; [done|]. cbn -[all_same_size0].
  assert (H0 : size0 t0 = Ok n) by (by inversion Hall).
  rewrite (all_same_size0_true t0 (t0 :: ts') n H0 Hall). done.
Qed.

Lemma TensorDataset_new_tensors (ts : list Tensor) (ds : TensorDataset) :
  TensorDataset_new ts = Ok ds -> ds_tensors ds = ts.
Proof.
  destruct ts as [|t0 ts']; simpl.
  - by intros [= <-].
  - intros (ok & _ & (u & _ & [= <-])%bind_Ok)%bind_Ok. done.
Qed.

(** The steps of a successful conversion. *)
Lemma convert_features_to_dataset_Ok (features : list dict) (ds : TensorDataset) (names : list string) :
  convert_features_to_dataset features = Ok (ds, names) ->
  exists f0, features !! 0 = Some f0 /\ names = dict_keys f0 /\
    mapM (feature_column features) names = Ok (ds_tensors ds).
Proof.
  unfold convert_features_to_dataset.
  intros (f0 & Hf0 & (ts & Hts & (ds' & Hds & [= <- <-])%bind_Ok)%bind_Ok)%bind_Ok.
  exists f0. split_and!; [|done|].
  - destruct features; [by rewrite py_index_nil in Hf0|]. by injection Hf0 as ->.
  - by rewrite (TensorDataset_new_tensors _ _ Hds).
Qed.

Lemma dict_get_restrict (names : list string) (d : dict) (n : string) :
  n ∈ names -> dict_get (dict_restrict names d) n = dict_get d n.
Proof.
  intros Hn. unfold dict_restrict. induction d as [|[k v] d IH]; [done|].
  cbn [List.filter fst]. destruct (bool_decide (k ∈ names)) eqn:Hk; cbn [dict_get].
  - destruct (String.eqb n k); [done|]. exact IH.
  - apply bool_decide_eq_false in Hk.
    destruct (String.eqb_spec n k) as [->|_]; [contradiction|done].
Qed.

(** Keys of [features[0]] are the whole story: every other key is ignored. *)
Lemma feature_column_restrict (f0 : dict) (rest : list dict) (n : string) :
  n ∈ dict_keys f0 ->
  feature_column (f0 :: map (dict_restrict (dict_keys f0)) rest) n = feature_column (f0 :: rest) n.
Proof.
  intros Hn. unfold feature_column. cbn [mapM].
  rewrite mapM_map_in, (mapM_ext_in (fun a => getitem (dict_restrict _ a) n) (fun a => getitem a n)).
  - done.
  - intros a _. unfold getitem. by rewrite dict_get_restrict.
Qed.

(** A column depends on the samples only up to dictionary equality. *)
Lemma feature_column_proper :
  Proper (Forall2 dict_equiv ==> pointwise_relation string eq) feature_column.
Proof.
  intros fs fs' Hfs n. unfold feature_column. f_equal.
  induction Hfs as [|d d' fs fs' Hd _ IH]; simpl; [done|].
  by rewrite Hd, IH.
Qed.
#[export] Existing Instance feature_column_proper.

(** A column never wraps around: every int of every sample's field is in
    the int64 range once the column is built. *)
Lemma feature_column_py_ints (features : list dict) (n : string) (t : Tensor) (f : dict) (v : PyVal) :
  feature_column features n = Ok t -> f ∈ features -> getitem f n = Ok v ->
  Forall (fun z => in_int64 z = true) (py_ints v).
Proof.
  intros (vals & Hvals%mapM_Ok_iff & Ht%torch_tensor_py_ints)%feature_column_Ok Hf Hv.
  apply list_elem_of_lookup in Hf as [i Hi].
  destruct (Forall2_lookup_l _ _ _ _ _ Hvals Hi) as (v' & Hv' & Hget).
  rewrite Hv in Hget. injection Hget as <-.
  cbn [py_ints] in Ht. rewrite Forall_concat, Forall_map, Forall_lookup in Ht. by apply (Ht i).
Qed.

(** The first sample lacking a field makes its column raise [KeyError]. *)
Lemma feature_column_KeyError (sb sa : list dict) (s : dict) (n : string) :
  Forall (fun s' => n ∈ dict_keys s') sb -> n ∉ dict_keys s ->
  feature_column (sb ++ s :: sa) n = Err (KeyError n).
Proof.
  intros Hsb Hs. unfold feature_column. rewrite mapM_app.
  destruct (mapM_all_ok (fun sample => getitem sample n) sb) as (vs & ->).
  { eapply Forall_impl; [exact Hsb|]. intros s' Hn'.
    destruct (dict_get_in _ _ Hn') as (v & Hv). unfold getitem. by rewrite Hv. }
  simpl. by rewrite getitem_KeyError.
Qed.

(** ** Properties of the converter *)

Lemma convert_shape (features : list dict) (ds : TensorDataset) (names : list string) :
  convert_features_to_dataset features = Ok (ds, names) ->
  (exists f0, features !! 0 = Some f0 /\ names = dict_keys f0) /\
  length (ds_tensors ds) = length names /\
  Forall (fun t => size0 t = Ok (length features) /\ tensor_wf t) (ds_tensors ds) /\
  (names <> [] -> dataset_len ds = Ok (length features)).
Proof.
  intros (f0 & Hf0 & Hnames & Hts)%convert_features_to_dataset_Ok.
  assert (Hall := mapM_Forall _ _ _ _ (feature_column_size0 features) Hts).
  split_and!; [eauto|by apply (mapM_length _ _ _ Hts)|done|].
  intros Hne. unfold dataset_len.
  destruct (ds_tensors ds) as [|t0 ts] eqn:Hds.
  - apply mapM_length in Hts. destruct names; [done|discriminate].
  - inversion Hall as [|? ? [H0 _] _]; subst. simpl. by rewrite H0.
Qed.

Lemma convert_row (features : list dict) (ds : TensorDataset)
    (names : list string) (i : nat) (s : dict) :
  convert_features_to_dataset features = Ok (ds, names) -> features !! i = Some s ->
  dataset_getitem ds i = mapM (fun n => v ← getitem s n; torch_tensor v) names.
Proof.
  intros Hc Hs. apply convert_features_to_dataset_Ok in Hc as (f0 & _ & _ & Hts).
  unfold dataset_getitem. eapply mapM_compose; [exact Hts|].
  intros n t (vals & Hvals & Ht)%feature_column_Ok.
  destruct (mapM_lookup _ _ _ _ _ Hvals Hs) as (v & Hv & Hget).
  rewrite Hget. by apply (torch_tensor_index vals t i v).
Qed.

(** C4: a successful conversion returns the key order of [features[0]] as
    the tensor names, one well-formed long tensor per name, each with one
    row per sample, and a dataset whose length is the number of samples. *)
Theorem convert_features_to_dataset_shape (features : list dict) (ds : TensorDataset) (names : list string) :
  convert_features_to_dataset features = Ok (ds, names) ->
  (exists f0, features !! 0 = Some f0 /\ names = dict_keys f0) /\
  length (ds_tensors ds) = length names /\
  Forall (fun t => size0 t = Ok (length features) /\ tensor_wf t) (ds_tensors ds) /\
  (names <> [] -> dataset_len ds = Ok (length features)).
Proof. apply convert_shape. Qed.

(** C3: round trip.  Row [i] of the converted dataset is sample [i]'s
    fields, in the order of the tensor names, each converted by
    [torch.tensor]: no row is shifted, dropped or mixed with another. *)
Theorem convert_features_to_dataset_row (features : list dict) (ds : TensorDataset)
    (names : list string) (i : nat) (s : dict) :
  convert_features_to_dataset features = Ok (ds, names) -> features !! i = Some s ->
  dataset_getitem ds i = mapM (fun n => v ← getitem s n; torch_tensor v) names.
Proof. apply convert_row. Qed.

(** C24: error order.  Columns are built in the key order of
    [features[0]] and, within a column, samples in order: when every
    column before [n] converts and sample [s] is the first sample lacking
    [n], the conversion raises [KeyError n]. *)
Theorem convert_features_to_dataset_KeyError (f0 : dict) (rest : list dict)
    (pre post : list string) (n : string) (sb sa : list dict) (s : dict) :
  dict_keys f0 = pre ++ n :: post ->
  Forall (fun m => is_ok (feature_column (f0 :: rest) m) = true) pre ->
  f0 :: rest = sb ++ s :: sa ->
  Forall (fun s' => n ∈ dict_keys s') sb -> n ∉ dict_keys s ->
  convert_features_to_dataset (f0 :: rest) = Err (KeyError n).
Proof.
  intros Hkeys Hpre Hsplit Hsb Hs. unfold convert_features_to_dataset.
  rewrite py_index_0. simpl. rewrite Hkeys, mapM_app.
  destruct (mapM_all_ok _ _ Hpre) as (ts & ->). simpl.
  rewrite Hsplit, (feature_column_KeyError sb sa s n Hsb Hs). done.
Qed.

(** C25: keys that are not keys of [features[0]] are ignored: the
    conversion of samples with extra fields is the conversion of the
    samples restricted to the fields of the first one. *)
Theorem convert_features_to_dataset_extra_keys (f0 : dict) (rest : list dict) :
  convert_features_to_dataset (f0 :: map (dict_restrict (dict_keys f0)) rest) =
  convert_features_to_dataset (f0 :: rest).
Proof.
  unfold convert_features_to_dataset.
  rewrite !py_index_0. simpl.
  rewrite (mapM_ext_in _ (feature_column (f0 :: rest))); [done|].
  intros n Hn. by apply feature_column_restrict.
Qed.

(** C34: equivalence.  Only [features[0]] fixes the tensor names (its
    key order); the other samples matter only up to Python's dictionary
    equality: replacing them by equal dicts whose keys were inserted in
    another order gives the same dataset and names. *)
Theorem convert_features_to_dataset_dict_equiv (f0 : dict) (rest rest' : list dict) :
  Forall2 dict_equiv rest rest' ->
  convert_features_to_dataset (f0 :: rest) = convert_features_to_dataset (f0 :: rest').
Proof.
  intros Hrest. unfold convert_features_to_dataset. rewrite !(py_index_nat _ 0 f0) by done.
  rewrite !bind_Ok_l. by setoid_rewrite Hrest.
Qed.

(** C17: bounds.  [torch.tensor(..., dtype=torch.long)] stores 64-bit
    integers and never wraps around: a Python int outside the int64 range
    anywhere in a field named by [features[0]], in any sample, makes the
    conversion fail (with the overflow [RuntimeError], or an error met
    earlier in key order); no dataset is returned. *)
Theorem convert_features_to_dataset_overflow (features : list dict) (f0 f : dict) (n : string)
    (v : PyVal) (z : Z) :
  features !! 0 = Some f0 -> n ∈ dict_keys f0 -> f ∈ features -> getitem f n = Ok v ->
  z ∈ py_ints v -> in_int64 z = false ->
  is_ok (convert_features_to_dataset features) = false.
Proof.
  intros Hf0 Hn Hf Hv Hz Hover.
  destruct (convert_features_to_dataset features) as [[ds names]|e] eqn:Hconv; [|done].
  destruct (convert_features_to_dataset_Ok _ _ _ Hconv) as (f0' & Hf0' & -> & Hcols).
  rewrite Hf0 in Hf0'. injection Hf0' as <-.
  destruct (mapM_elem_Ok _ _ _ n Hcols Hn) as (t & Ht).
  pose proof (feature_column_py_ints _ _ _ _ _ Ht Hf Hv) as Hall.
  rewrite Forall_forall in Hall. by rewrite (Hall z Hz) in Hover.
Qed.

(** ** Witnesses *)

Lemma convert_features_to_dataset_shape_witness :
  exists ds names, convert_features_to_dataset example_features = Ok (ds, names) /\
  ((exists f0, example_features !! 0 = Some f0 /\ names = dict_keys f0) /\
   length (ds_tensors ds) = length names /\
   Forall (fun t => size0 t = Ok (length example_features) /\ tensor_wf t) (ds_tensors ds) /\
   (names <> [] -> dataset_len ds = Ok (length example_features))).
Proof.
  eexists _, _. split; [vm_compute; reflexivity|].
  apply convert_features_to_dataset_shape. vm_compute. reflexivity.
Defined.

Lemma convert_features_to_dataset_row_witness :
  exists ds names, convert_features_to_dataset example_features = Ok (ds, names) /\
  dataset_getitem ds 1 =
    mapM (fun n => v ← getitem [("input_ids", PyList [PyInt 9; PyInt 10]); ("label_ids", PyInt 0); ("extra", PyStr "x")] n;
                   torch_tensor v) names.
Proof.
  eexists _, _. split; [vm_compute; reflexivity|].
  apply (convert_features_to_dataset_row example_features); vm_compute; reflexivity.
Defined.

Lemma convert_features_to_dataset_KeyError_witness :
  convert_features_to_dataset [[("a", PyInt 1); ("b", PyInt 2)]; [("a", PyInt 3)]] = Err (KeyError "b").
Proof.
  apply (convert_features_to_dataset_KeyError [("a", PyInt 1); ("b", PyInt 2)] [[("a", PyInt 3)]]
           ["a"] [] "b" [[("a", PyInt 1); ("b", PyInt 2)]] [] [("a", PyInt 3)]);
    try reflexivity; apply (bool_decide_unpack _); vm_compute; reflexivity.
Defined.

Lemma convert_features_to_dataset_dict_equiv_witness :
  Forall2 dict_equiv [[("label_ids", PyInt 0); ("input_ids", PyList [PyInt 9; PyInt 10])]]
                     [[("input_ids", PyList [PyInt 9; PyInt 10]); ("label_ids", PyInt 0)]] /\
  convert_features_to_dataset
    [[("input_ids", PyList [PyInt 7; PyInt 8]); ("label_ids", PyInt 1)];
     [("label_ids", PyInt 0); ("input_ids", PyList [PyInt 9; PyInt 10])]] =
  convert_features_to_dataset
    [[("input_ids", PyList [PyInt 7; PyInt 8]); ("label_ids", PyInt 1)];
     [("input_ids", PyList [PyInt 9; PyInt 10]); ("label_ids", PyInt 0)]].
Proof.
  assert (H : Forall2 dict_equiv [[("label_ids", PyInt 0); ("input_ids", PyList [PyInt 9; PyInt 10])]]
                                 [[("input_ids", PyList [PyInt 9; PyInt 10]); ("label_ids", PyInt 0)]]).
  { repeat constructor. apply (bool_decide_unpack _). vm_compute. reflexivity. }
  split; [exact H|]. apply convert_features_to_dataset_dict_equiv, H.
Defined.

Lemma convert_features_to_dataset_overflow_witness :
  convert_features_to_dataset
    [[("input_ids", PyList [PyInt 101; PyInt 102])];
     [("input_ids", PyList [PyInt 101; PyInt (2 ^ 63)])]] =
    Err (RuntimeError "Overflow when unpacking long") /\
  is_ok (convert_features_to_dataset
    [[("input_ids", PyList [PyInt 101; PyInt 102])];
     [("input_ids", PyList [PyInt 101; PyInt (2 ^ 63)])]]) = false.
Proof.
  split; [vm_compute; reflexivity|].
  apply (convert_features_to_dataset_overflow _ [("input_ids", PyList [PyInt 101; PyInt 102])]
           [("input_ids", PyList [PyInt 101; PyInt (2 ^ 63)])] "input_ids"
           (PyList [PyInt 101; PyInt (2 ^ 63)]) (2 ^ 63)%Z).
  - reflexivity.
  - by left.
  - by right; left.
  - reflexivity.
  - by right; left.
  - vm_compute. reflexivity.
Defined.

