(* ===== verification/Loader.v ===== *)
(** * Batch loader: [NamedDataLoader] over a [SequentialSampler]

    The code of this component is outside src/ ([farm/data_handler/
    dataloader.py] and torch's [DataLoader], [SequentialSampler],
    [BatchSampler]); it is modelled from the spec (section 4.2) and from
    torch's behaviour:
    - the constructor rejects a batch size that is not a positive int
      ([ValueError], raised by [BatchSampler.__init__]);
    - iteration asks the sampler for [range(len(dataset))]
      ([SequentialSampler]), and [BatchSampler.__iter__] accumulates
      indices and yields a batch whenever it reaches the batch size, then
      the last partial batch ([drop_last=False]) -- [batch_sampler];
    - each batch of indices is fetched item by item ([dataset[i]]) and
      passed to FARM's [collate_fn], which asserts that an item has as many
      tensors as there are names, appends the i-th tensor of every item to
      the list of the i-th name ([zip] semantics) and stacks each list
      ([collate]); the batch is a name-to-tensor dictionary in name order.
    [chunks] is the reference chunking (by well-founded recursion with
    Equations) that [batch_sampler] is proved equal to.  The generator
    protocol of [BatchSampler.__iter__] is modelled as well: its state
    between two [next()] calls ([SamplerGen]), one [next()]
    ([sampler_next]) and the [for] loop that drains it, with fuel
    ([sampler_drain]), whose termination is proved with a decreasing
    measure.  The error paths of a fetch (empty batch, index past the
    end, item of the wrong width) are proved in the order the code meets
    them. *)

From Equations Require Import Equations.
From S2P Require Import Prelude PyData Tensor Dataset.

Local Open Scope farm_scope.

(** A batch as [NamedDataLoader] yields it: tensor name to tensor. *)
Definition NamedBatch := list (string * Tensor).

(** ** Samplers *)

(** [iter(SequentialSampler(ds))] = [iter(range(len(ds)))] *)
Definition sequential_sampler (n : nat) : list nat := seq 0 n.

(** [BatchSampler.__iter__] with [drop_last=False]. *)
Fixpoint batch_sampler_go (bs : nat) (idxs : list nat) (batch : list nat) : list (list nat) :=
  match idxs with
  | [] => if Nat.ltb 0 (length batch) then [batch] else []
  | idx :: rest =>
      let batch' := batch ++ [idx] in
      if Nat.eqb (length batch') bs then batch' :: batch_sampler_go bs rest []
      else batch_sampler_go bs rest batch'
  end.

Definition batch_sampler (bs : nat) (idxs : list nat) : list (list nat) :=
  batch_sampler_go bs idxs [].

(** *** The generator protocol of [BatchSampler.__iter__] *)

(** The state of the generator between two calls of [next()]: the
    indices its [for idx in self.sampler] loop has not consumed yet and
    the batch accumulated so far. *)
Record SamplerGen : Type := mkSamplerGen { sg_rest : list nat; sg_batch : list nat }.

(** [next()]: resume the loop until the batch reaches [bs] (yield it and
    start an empty one) or the indices run out (yield the partial batch
    if any; otherwise [StopIteration], [None]). *)
Fixpoint sampler_resume (bs : nat) (rest batch : list nat) : option (list nat * SamplerGen) :=
  match rest with
  | [] => if Nat.ltb 0 (length batch) then Some (batch, mkSamplerGen [] []) else None
  | idx :: rest' =>
      let batch' := batch ++ [idx] in
      if Nat.eqb (length batch') bs then Some (batch', mkSamplerGen rest' [])
      else sampler_resume bs rest' batch'
  end.

Definition sampler_next (bs : nat) (g : SamplerGen) : option (list nat * SamplerGen) :=
  sampler_resume bs (sg_rest g) (sg_batch g).

(** [for batch in batch_sampler: ...], with at most [fuel] calls of
    [next()]; [None] when the fuel runs out first. *)
Fixpoint sampler_drain (fuel bs : nat) (g : SamplerGen) : option (list (list nat)) :=
  match fuel with
  | 0 => None
  | S fuel' =>
      match sampler_next bs g with
      | None => Some []
      | Some (b, g') => rest ← sampler_drain fuel' bs g'; Some (b :: rest)
      end
  end.

(** What is left to do: the unconsumed indices, and one more yield for
    a non-empty pending batch.  Every [next()] decreases it. *)
Definition sampler_measure (g : SamplerGen) : nat :=
  length (sg_rest g) + match sg_batch g with [] => 0 | _ => 1 end.

(** Reference chunking: consecutive slices of length [bs], the last one
    possibly shorter. *)
Equations? chunks {A} (bs : nat) (xs : list A) : list (list A) by wf (length xs) lt :=
  chunks 0 xs := [xs];
  chunks (S b) [] := [];
  chunks (S b) (x :: xs') := take (S b) (x :: xs') :: chunks (S b) (drop (S b) (x :: xs')).
Proof. rewrite length_drop. simpl. lia. Qed.

(** ** The loader *)

Record NamedDataLoader : Type := mkLoader {
  dl_dataset : TensorDataset;
  dl_batch_size : nat;
  dl_tensor_names : list string
}.

(** [NamedDataLoader(dataset=..., sampler=SequentialSampler(dataset),
    batch_size=..., tensor_names=...)] *)
Definition NamedDataLoader_new (ds : TensorDataset) (batch_size : Z) (names : list string)
    : Result NamedDataLoader :=
  if (batch_size <=? 0)%Z then
    Err (ValueError "batch_size should be a positive integer value")
  else Ok (mkLoader ds (Z.to_nat batch_size) names).

(** [for name, tensor in zip(tensor_names, example): ret[name].append(tensor)] *)
Fixpoint append_zip (acc : list (list Tensor)) (example : list Tensor) : list (list Tensor) :=
  match acc, example with
  | l :: acc', t :: ex' => (l ++ [t]) :: append_zip acc' ex'
  | _, _ => acc
  end.

(** FARM's [collate_fn] of [NamedDataLoader]. *)
Definition collate (tensor_names : list string) (batch : list (list Tensor)) : Result NamedBatch :=
  b0 ← batch.[0];
  _ ← py_assert (Nat.eqb (length b0) (length tensor_names))
        "Dataset contains a different number of tensors than tensor names supplied";
  let lists := foldl append_zip (replicate (length tensor_names) []) batch in
  stacked ← mapM tensor_stack lists;
  Ok (zip tensor_names stacked).

(** [self.collate_fn([self.dataset[i] for i in indices])] *)
Definition fetch_batch (dl : NamedDataLoader) (indices : list nat) : Result NamedBatch :=
  items ← mapM (dataset_getitem (dl_dataset dl)) indices;
  collate (dl_tensor_names dl) items.

(** The index batches an iteration goes through. *)
Definition loader_index_batches (dl : NamedDataLoader) : Result (list (list nat)) :=
  n ← dataset_len (dl_dataset dl);
  Ok (batch_sampler (dl_batch_size dl) (sequential_sampler n)).

(** Row [k] of a named batch: the k-th row of every tensor, in name order. *)
Definition batch_row (nb : NamedBatch) (k : nat) : Result (list Tensor) :=
  mapM (fun p => tensor_index p.2 k) nb.

(** Number of rows of a named batch ([len] of its first tensor). *)
Definition batch_len (nb : NamedBatch) : Result nat :=
  p ← nb.[0]; size0 p.2.

(** What [NamedDataLoader] needs from its dataset: one tensor per name,
    all well formed and with [n] rows. *)
Definition dataset_wf (ds : TensorDataset) (names : list string) (n : nat) : Prop :=
  length (ds_tensors ds) = length names /\
  Forall (fun t => tensor_wf t /\ size0 t = Ok n) (ds_tensors ds).

(** A row of a tensor: its shape is the tensor's without the first
    dimension, on the same device. *)
Definition same_signature (t u : Tensor) : Prop :=
  t_shape u = tail (t_shape t) /\ t_device u = t_device t.

(** ** The reference chunking *)

Lemma chunks_cons {A} (b : nat) (xs : list A) :
  xs <> [] -> chunks (S b) xs = take (S b) xs :: chunks (S b) (drop (S b) xs).
Proof. destruct xs as [|x xs]; [done|]. intros _. by simp chunks. Qed.

Lemma chunks_nil {A} (b : nat) : chunks (S b) (@nil A) = [].
Proof. by simp chunks. Qed.

Lemma chunks_cons_pos {A} (bs : nat) (xs : list A) :
  0 < bs -> xs <> [] -> chunks bs xs = take bs xs :: chunks bs (drop bs xs).
Proof. destruct bs as [|b]; [lia|]. intros _. apply chunks_cons. Qed.

Lemma chunks_nil_pos {A} (bs : nat) : 0 < bs -> chunks bs (@nil A) = [].
Proof. destruct bs as [|b]; [lia|]. intros _. apply chunks_nil. Qed.

Lemma concat_chunks {A} (bs : nat) (xs : list A) : concat (chunks bs xs) = xs.
Proof.
  funelim (chunks bs xs); simp chunks.
  - apply app_nil_r.
  - done.
  - cbn [concat]. match goal with IH : concat (chunks _ _) = _ |- _ => rewrite IH end.
    apply take_drop.
Qed.

Lemma length_chunks {A} (bs : nat) (xs : list A) :
  0 < bs -> length (chunks bs xs) = ceil_div (length xs) bs.
Proof.
  funelim (chunks bs xs); intros Hb; simp chunks.
  - lia.
  - by rewrite ceil_div_0.
  - cbn [length]. match goal with IH : 0 < S _ -> length (chunks _ _) = _ |- _ => rewrite IH by lia end.
    rewrite length_drop. cbn [length].
    destruct (decide (length xs' < S b)) as [Hlt|Hge].
    + replace (S (length xs') - S b) with 0 by lia. rewrite ceil_div_0.
      symmetry. apply ceil_div_small. lia.
    + replace (S (length xs')) with (S b + (S (length xs') - S b)) at 2 by lia.
      rewrite ceil_div_S by lia. done.
Qed.

Lemma lookup_chunks {A} (bs : nat) (xs : list A) (i : nat) (c : list A) :
  0 < bs -> chunks bs xs !! i = Some c ->
  c = take bs (drop (i * bs) xs) /\ 0 < length c <= bs.
Proof.
  revert i c. funelim (chunks bs xs); intros i c Hb Hc; simp chunks in Hc; [lia|done|].
  set (rest := drop (S b) (x :: xs')) in *. set (c0 := take (S b) (x :: xs')) in *.
  destruct i as [|i]; simpl in Hc.
  - injection Hc as <-. rewrite Nat.mul_0_l, drop_0. split; [done|].
    subst c0. rewrite length_take. simpl. lia.
  - match goal with IH : forall _ _, 0 < S _ -> chunks _ _ !! _ = Some _ -> _ |- _ =>
      destruct (IH i c ltac:(lia) Hc) as [-> Hlen] end.
    split; [|exact Hlen]. unfold rest. rewrite drop_drop. f_equal.
Qed.

(** ** torch's BatchSampler is the reference chunking *)

Lemma batch_sampler_go_chunks (bs : nat) (idxs batch : list nat) :
  0 < bs -> length batch < bs -> batch_sampler_go bs idxs batch = chunks bs (batch ++ idxs).
Proof.
  intros Hb. destruct bs as [|b]; [lia|].
  revert batch. induction idxs as [|idx rest IH]; intros batch Hlen; simpl.
  - rewrite app_nil_r. destruct batch as [|x xs]; simpl; [by rewrite chunks_nil|].
    rewrite chunks_cons by done. rewrite take_ge, drop_ge by lia. by rewrite chunks_nil.
  - destruct (Nat.eqb_spec (length (batch ++ [idx])) (S b)) as [Heq|Hne].
    + rewrite IH by (simpl; lia). simpl.
      rewrite (chunks_cons b (batch ++ idx :: rest)) by (by destruct batch).
      replace (batch ++ idx :: rest) with ((batch ++ [idx]) ++ rest) by (by rewrite <- app_assoc).
      rewrite <- Heq, take_app_length, drop_app_length. done.
    + rewrite length_app in Hne. simpl in Hne.
      rewrite IH by (rewrite length_app; simpl; lia). by rewrite <- app_assoc.
Qed.

(** ** The collate function *)

Lemma length_append_zip (acc : list (list Tensor)) (ex : list Tensor) :
  length (append_zip acc ex) = length acc.
Proof. revert ex. induction acc as [|l acc IH]; intros [|t ex]; simpl; auto. Qed.

Lemma append_zip_lookup (acc : list (list Tensor)) (ex : list Tensor) (j : nat) (l : list Tensor) :
  length ex = length acc -> acc !! j = Some l -> append_zip acc ex !! j = Some (l ++ [ex !!! j]).
Proof.
  revert ex j. induction acc as [|l0 acc IH]; intros [|t ex] j Hlen Hj; simpl in *; try done.
  destruct j as [|j]; simpl in *.
  - by injection Hj as ->.
  - apply IH; [lia|done].
Qed.

(** After the loop, the list of name [j] holds the [j]-th tensor of every
    item, in item order. *)
Lemma foldl_append_zip_lookup (items : list (list Tensor)) (acc : list (list Tensor))
    (j : nat) (l : list Tensor) :
  Forall (fun ex => length ex = length acc) items -> acc !! j = Some l ->
  foldl append_zip acc items !! j = Some (l ++ map (fun ex => ex !!! j) items).
Proof.
  intros Hall. revert acc l Hall. induction items as [|ex items IH]; intros acc l Hall Hj; simpl.
  - by rewrite app_nil_r.
  - inversion Hall as [|? ? Hex Hrest]; subst.
    rewrite (IH (append_zip acc ex) (l ++ [ex !!! j])).
    + by rewrite <- app_assoc.
    + eapply Forall_impl; [exact Hrest|]. intros e He. by rewrite length_append_zip.
    + by apply append_zip_lookup.
Qed.

Lemma length_foldl_append_zip (items : list (list Tensor)) (acc : list (list Tensor)) :
  length (foldl append_zip acc items) = length acc.
Proof.
  revert acc. induction items as [|ex items IH]; intros acc; simpl; [done|].
  by rewrite IH, length_append_zip.
Qed.

(** Round trip of [collate]: the names of the batch are the tensor names,
    and row [k] of the batch is item [k]. *)
Lemma collate_row (names : list string) (items : list (list Tensor)) (nb : NamedBatch)
    (k : nat) (ex : list Tensor) :
  Forall (fun e => length e = length names /\ Forall tensor_wf e) items ->
  collate names items = Ok nb -> items !! k = Some ex ->
  batch_row nb k = Ok ex /\ map fst nb = names.
Proof.
  intros Hall Hc Hex. unfold collate in Hc.
  apply bind_Ok in Hc as (b0 & _ & Hc). apply bind_Ok in Hc as (u & _ & Hc).
  apply bind_Ok in Hc as (stacked & Hst & [= <-]).
  set (lists := foldl append_zip (replicate (length names) []) items) in *.
  assert (Hlen : length stacked = length names).
  { rewrite (mapM_length _ _ _ Hst). unfold lists.
    by rewrite length_foldl_append_zip, length_replicate. }
  assert (Hlenall : Forall (fun e => length e = length (replicate (length names) ([] : list Tensor))) items).
  { eapply Forall_impl; [exact Hall|]. intros e [He _]. by rewrite length_replicate. }
  split.
  - unfold batch_row.
    transitivity (mapM (fun t => tensor_index t k) stacked);
      [by apply (mapM_zip_snd (fun t => tensor_index t k))|].
    apply mapM_Ok_iff, Forall2_same_length_lookup_2.
    + rewrite Hlen. by destruct (proj1 (Forall_lookup _ _) Hall k ex Hex).
    + intros j t e Ht He.
      destruct (proj1 (Forall_lookup _ _) Hall k ex Hex) as [Hexlen Hexwf].
      assert (Hj : j < length names) by (rewrite <- Hlen; by eapply lookup_lt_Some).
      destruct (mapM_Ok_iff tensor_stack lists stacked) as [Hf2 _].
      destruct (Forall2_lookup_r _ _ _ _ _ (Hf2 Hst) Ht) as (col & Hcol & Hstack).
      unfold lists in Hcol. rewrite (foldl_append_zip_lookup items _ j []) in Hcol;
        [|done|by apply lookup_replicate_2].
      injection Hcol as <-. simpl in Hstack.
      apply (tensor_stack_index _ _ (ex !!! j) k) in Hstack.
      * rewrite Hstack. f_equal. apply list_lookup_total_correct in He. done.
      * apply Forall_map, Forall_forall. intros e' He'.
        apply (proj1 (Forall_forall _ _) Hall) in He' as [He'len He'wf].
        apply (proj1 (Forall_lookup _ _) He'wf j). apply list_lookup_lookup_total_lt. lia.
      * by apply lookup_map_Some.
  - apply map_fst_zip. lia.
Qed.

(** ** Fetching a batch *)

Lemma dataset_getitem_wf (ds : TensorDataset) (names : list string) (n i : nat) (ex : list Tensor) :
  dataset_wf ds names n -> dataset_getitem ds i = Ok ex ->
  length ex = length names /\ Forall tensor_wf ex.
Proof.
  intros [Hlen Hwf] Hget. unfold dataset_getitem in Hget. split.
  - rewrite (mapM_length _ _ _ Hget). done.
  - apply mapM_Ok_iff in Hget. clear Hlen. revert Hwf.
    induction Hget as [|t u ts us Htu _ IH]; intros Hwf; [constructor|].
    inversion Hwf as [|? ? [Ht _] Hts]; subst.
    constructor; [by apply (tensor_index_wf t u i)|by apply IH].
Qed.

(** Row [i < n] of a tensor with [n] rows exists; it has the remaining
    shape and the same device. *)
Lemma tensor_index_Ok (t : Tensor) (n i : nat) :
  size0 t = Ok n -> i < n ->
  exists u, tensor_index t i = Ok u /\ t_shape u = tail (t_shape t) /\ t_device u = t_device t.
Proof.
  destruct t as [[|n' rest] d dev]; unfold size0; cbn [t_shape]; [discriminate|].
  intros [= ->] Hi. rewrite tensor_index_mk. apply Nat.ltb_lt in Hi. rewrite Hi. eauto.
Qed.

Lemma dataset_getitem_Ok (ds : TensorDataset) (names : list string) (n i : nat) :
  dataset_wf ds names n -> i < n ->
  exists ex, dataset_getitem ds i = Ok ex /\ Forall2 same_signature (ds_tensors ds) ex.
Proof.
  intros [_ Hwf] Hi. unfold dataset_getitem. induction Hwf as [|t ts [_ Ht] _ IH]; simpl.
  - eexists; split; [done|constructor].
  - destruct (tensor_index_Ok t n i Ht Hi) as (u & -> & Hsig). simpl.
    destruct IH as (ex & -> & Hex). simpl. eexists; split; [done|by constructor].
Qed.

Lemma tensor_stack_Ok (us : list Tensor) (sh : list nat) (dev : Device) :
  us <> [] -> Forall (fun u => t_shape u = sh /\ t_device u = dev) us ->
  exists t, tensor_stack us = Ok t.
Proof.
  intros Hne Hall. destruct us as [|u0 us']; [done|]. unfold tensor_stack.
  inversion Hall as [|? ? [Hs0 Hd0] _]; subst.
  rewrite (proj2 (forallb_Forall _ _)), (proj2 (forallb_Forall _ _)); [eauto| |];
    eapply Forall_impl; try exact Hall; intros u [Hs Hd]; apply bool_decide_eq_true; congruence.
Qed.

(** An index past the last row of a dataset with at least one tensor
    raises [IndexError] in the first tensor's indexing. *)
Lemma dataset_getitem_out (ds : TensorDataset) (names : list string) (n i : nat) :
  dataset_wf ds names n -> names <> [] -> n <= i ->
  dataset_getitem ds i = Err (IndexError "index out of range").
Proof.
  intros [Hlen Hwf] Hne Hi. unfold dataset_getitem.
  destruct (ds_tensors ds) as [|[[|n' rest] d dev] ts]; [by destruct names|..];
    inversion Hwf as [|? ? [_ Hs] _]; subst; unfold size0 in Hs; simpl in Hs; [discriminate|].
  injection Hs as ->. simpl. rewrite tensor_index_mk.
  by replace (Nat.ltb i n) with false by (symmetry; apply Nat.ltb_ge; lia).
Qed.

(** A non-empty index batch of a well-formed dataset is always fetched:
    neither the items, the collate assertion nor the stacking fail. *)
Lemma fetch_batch_Ok (ds : TensorDataset) (bs : nat) (names : list string) (n : nat) (c : list nat) :
  dataset_wf ds names n -> c <> [] -> Forall (fun idx => idx < n) c ->
  exists nb, fetch_batch (mkLoader ds bs names) c = Ok nb.
Proof.
  intros Hwf Hne Hc. unfold fetch_batch. cbn [dl_dataset dl_tensor_names].
  destruct (mapM_Ok_Forall (dataset_getitem ds) (Forall2 same_signature (ds_tensors ds)) c)
    as (items & Hitems & Hsig & Hlen_items).
  { eapply Forall_impl; [exact Hc|]. intros idx Hidx. by apply (dataset_getitem_Ok ds names n). }
  rewrite Hitems. simpl. unfold collate.
  destruct items as [|ex0 items']; [by destruct c|].
  rewrite py_index_0.
  set (lists := foldl append_zip (replicate (length names) []) (ex0 :: items')).
  simpl. destruct Hwf as [Hlen Hwf].
  assert (Hexlen : Forall (fun ex => length ex = length names) (ex0 :: items')).
  { eapply Forall_impl; [exact Hsig|]. intros ex Hex. apply Forall2_length in Hex. lia. }
  inversion Hexlen as [|? ? Hex0 _]; subst. rewrite Hex0, Nat.eqb_refl. simpl.
  destruct (mapM_all_ok tensor_stack lists) as (stacked & ->); [|simpl; eauto].
  apply Forall_lookup. intros j col Hcol.
  assert (Hj : j < length names).
  { apply lookup_lt_Some in Hcol. unfold lists in Hcol.
    by rewrite length_foldl_append_zip, length_replicate in Hcol. }
  unfold lists in Hcol.
  rewrite (foldl_append_zip_lookup _ _ j []) in Hcol;
    [|by rewrite length_replicate|by apply lookup_replicate_2].
  injection Hcol as <-.
  change (ex0 !!! j :: map (fun ex => ex !!! j) items')
    with (map (fun ex : list Tensor => ex !!! j) (ex0 :: items')).
  destruct (lookup_lt_is_Some_2 (ds_tensors ds) j) as [tj Htj]; [lia|].
  destruct (tensor_stack_Ok (map (fun ex => ex !!! j) (ex0 :: items')) (tail (t_shape tj)) (t_device tj))
    as (t & ->); [done| |done].
  apply Forall_map. eapply Forall_impl; [exact Hsig|]. intros ex Hex.
  destruct (Forall2_lookup_l _ _ _ _ _ Hex Htj) as (u & Hu & [Hus Hud]).
  by rewrite (list_lookup_total_correct _ _ _ Hu).
Qed.

(** ** Properties of the loader *)

(** Equivalence.  torch's [BatchSampler], which accumulates indices
    and yields a batch each time it reaches the batch size and then the
    remaining partial batch, computes the reference chunking [chunks]. *)
Theorem batch_sampler_chunks (bs : nat) (idxs : list nat) :
  0 < bs -> batch_sampler bs idxs = chunks bs idxs.
Proof. intros Hb. unfold batch_sampler. apply batch_sampler_go_chunks; simpl; lia. Qed.

(** C7: one pass of a [NamedDataLoader] over a dataset of [n] rows visits
    [ceil(n / bs)] index batches that cover the rows [0..n-1] once each,
    in order; batch [i] is the slice [[i*bs, (i+1)*bs)] of the rows, is
    non-empty, and holds at most [bs] indices. *)
Theorem loader_index_batches_spec (ds : TensorDataset) (b : Z) (names : list string)
    (dl : NamedDataLoader) (n : nat) :
  NamedDataLoader_new ds b names = Ok dl -> dataset_len ds = Ok n ->
  exists bl, loader_index_batches dl = Ok bl /\
    concat bl = seq 0 n /\ length bl = ceil_div n (Z.to_nat b) /\
    forall i c, bl !! i = Some c ->
      c = take (Z.to_nat b) (drop (i * Z.to_nat b) (seq 0 n)) /\ 0 < length c <= Z.to_nat b.
Proof.
  unfold NamedDataLoader_new. destruct (Z.leb_spec b 0) as [|Hb]; [discriminate|].
  intros [= <-] Hn. unfold loader_index_batches. cbn [dl_dataset dl_batch_size]. rewrite Hn.
  simpl. unfold batch_sampler. rewrite batch_sampler_go_chunks by (simpl; lia). cbn [app].
  unfold sequential_sampler.
  eexists. split_and!; [done|apply concat_chunks| |].
  - rewrite length_chunks by lia. by rewrite length_seq.
  - intros i c Hc. apply lookup_chunks; [lia|done].
Qed.

Lemma fetch_batch_row_ex (ds : TensorDataset) (bs : nat) (names : list string) (n : nat)
    (c : list nat) (nb : NamedBatch) (k idx : nat) :
  dataset_wf ds names n -> fetch_batch (mkLoader ds bs names) c = Ok nb -> c !! k = Some idx ->
  (exists ex, dataset_getitem ds idx = Ok ex /\ batch_row nb k = Ok ex) /\ map fst nb = names.
Proof.
  intros Hwf Hf Hk. unfold fetch_batch in Hf. cbn [dl_dataset dl_tensor_names] in Hf.
  apply bind_Ok in Hf as (items & Hitems & Hc).
  destruct (mapM_lookup _ _ _ _ _ Hitems Hk) as (ex & Hex & Hget).
  assert (Hall : Forall (fun e => length e = length names /\ Forall tensor_wf e) items)
    by exact (mapM_Forall _ _ _ _ (fun i e H => dataset_getitem_wf ds names n i e Hwf H) Hitems).
  destruct (collate_row names items nb k ex Hall Hc Hex) as [Hrow Hnames].
  split; [eauto|done].
Qed.

(** C8: round trip of a fetched batch.  Fetching index batch [c] of a
    well-formed dataset never fails, and the batch is keyed by the tensor
    names with row [k] equal to the dataset item [c[k]]. *)
Theorem fetch_batch_row (ds : TensorDataset) (bs : nat) (names : list string) (n : nat)
    (c : list nat) (k idx : nat) :
  dataset_wf ds names n -> c <> [] -> Forall (fun i => i < n) c -> c !! k = Some idx ->
  exists nb ex, fetch_batch (mkLoader ds bs names) c = Ok nb /\ map fst nb = names /\
    dataset_getitem ds idx = Ok ex /\ batch_row nb k = Ok ex.
Proof.
  intros Hwf Hne Hc Hk.
  destruct (fetch_batch_Ok ds bs names n c Hwf Hne Hc) as (nb & Hnb).
  destruct (fetch_batch_row_ex ds bs names n c nb k idx Hwf Hnb Hk) as [(ex & ? & ?) ?].
  eauto 10.
Qed.

(** ** Witnesses *)

(** C30: error paths of a batch fetch on a well-formed dataset.  An empty
    index batch raises [IndexError] at [batch[0]] of the collate function;
    the first index past the end raises [IndexError] when its row is read,
    before anything is collated; an item whose tensor count differs from
    the tensor names fails the collate assertion. *)
Theorem fetch_batch_errors (ds : TensorDataset) (bs : nat) (names : list string) (n : nat) :
  dataset_wf ds names n -> names <> [] ->
  fetch_batch (mkLoader ds bs names) [] = Err (IndexError "list index out of range") /\
  (forall c1 i c2, Forall (fun idx => idx < n) c1 -> n <= i ->
     fetch_batch (mkLoader ds bs names) (c1 ++ i :: c2) = Err (IndexError "index out of range")) /\
  (forall ex items, length ex <> length names ->
     collate names (ex :: items) =
       Err (AssertionError "Dataset contains a different number of tensors than tensor names supplied")).
Proof.
  intros Hwf Hne. split_and!; [reflexivity| |].
  - intros c1 i c2 Hc1 Hi. unfold fetch_batch. cbn [dl_dataset dl_tensor_names].
    replace (mapM _ _) with (@Err (list (list Tensor)) (IndexError "index out of range")); [done|].
    symmetry. apply mapM_first_Err; [|by apply (dataset_getitem_out ds names n i)].
    eapply Forall_impl; [exact Hc1|]. intros idx Hidx.
    by destruct (dataset_getitem_Ok ds names n idx Hwf Hidx) as (ex & -> & _).
  - intros ex items Hex. unfold collate. rewrite py_index_0. simpl.
    by destruct (Nat.eqb_spec (length ex) (length names)).
Qed.

Lemma loader_index_batches_spec_witness :
  exists bl, loader_index_batches (mkLoader (mkDataset [mkTensor [3] [1; 2; 3]%Z CPU]) 2 ["x"]) = Ok bl /\
    concat bl = seq 0 3 /\ length bl = ceil_div 3 2 /\
    forall i c, bl !! i = Some c -> c = take 2 (drop (i * 2) (seq 0 3)) /\ 0 < length c <= 2.
Proof.
  apply (loader_index_batches_spec (mkDataset [mkTensor [3] [1; 2; 3]%Z CPU]) 2 ["x"]); vm_compute; reflexivity.
Defined.

Lemma fetch_batch_row_witness :
  exists nb ex, fetch_batch (mkLoader (mkDataset [mkTensor [3] [1; 2; 3]%Z CPU]) 2 ["x"]) [2; 0] = Ok nb /\
    map fst nb = ["x"] /\ dataset_getitem (mkDataset [mkTensor [3] [1; 2; 3]%Z CPU]) 0 = Ok ex /\
    batch_row nb 1 = Ok ex.
Proof.
  apply (fetch_batch_row (mkDataset [mkTensor [3] [1; 2; 3]%Z CPU]) 2 ["x"] 3 [2; 0] 1 0).
  - split; [reflexivity|]. repeat constructor.
  - discriminate.
  - repeat constructor; lia.
  - reflexivity.
Defined.

(** ** Termination of the iteration over the sampler *)

(** The list form of the sampler unrolls the generator. *)
Lemma batch_sampler_go_resume (bs : nat) (rest batch : list nat) :
  batch_sampler_go bs rest batch =
    match sampler_resume bs rest batch with
    | None => []
    | Some (b, g) => b :: batch_sampler_go bs (sg_rest g) (sg_batch g)
    end.
Proof.
  revert batch. induction rest as [|idx rest IH]; intros batch; simpl.
  - by destruct (Nat.ltb 0 (length batch)).
  - destruct (Nat.eqb (length (batch ++ [idx])) bs); [done|apply IH].
Qed.

Lemma sampler_resume_measure (bs : nat) (rest batch b : list nat) (g : SamplerGen) :
  sampler_resume bs rest batch = Some (b, g) ->
  sampler_measure g < sampler_measure (mkSamplerGen rest batch).
Proof.
  unfold sampler_measure. revert batch. induction rest as [|idx rest IH]; intros batch; simpl.
  - destruct (Nat.ltb_spec 0 (length batch)); [|discriminate]. intros [= _ <-].
    destruct batch; simpl in *; lia.
  - destruct (Nat.eqb (length (batch ++ [idx])) bs).
    + intros [= _ <-]. simpl. lia.
    + intros Hr%IH. destruct (batch ++ [idx]) eqn:E; [by destruct batch|]. simpl in *. lia.
Qed.

Lemma sampler_drain_go (fuel bs : nat) (g : SamplerGen) :
  sampler_measure g < fuel ->
  sampler_drain fuel bs g = Some (batch_sampler_go bs (sg_rest g) (sg_batch g)).
Proof.
  revert g. induction fuel as [|fuel IH]; intros g Hg; [lia|]. simpl.
  rewrite batch_sampler_go_resume. unfold sampler_next.
  destruct (sampler_resume bs (sg_rest g) (sg_batch g)) as [[b g']|] eqn:E; [|done].
  rewrite IH; [done|]. apply sampler_resume_measure in E. destruct g. simpl in *. lia.
Qed.

(** C14: termination of [for batch in batch_sampler].  The generator of
    [BatchSampler.__iter__] is exhausted after at most one [next()] per
    index plus the final [StopIteration]: with that much fuel, draining it
    from a fresh start on the sampler's indices returns, and returns
    exactly the batches of the list model, which for a positive batch
    size are the reference chunks. *)
Theorem batch_sampler_iter_terminates (fuel bs : nat) (idxs : list nat) :
  length idxs < fuel ->
  sampler_drain fuel bs (mkSamplerGen idxs []) = Some (batch_sampler bs idxs) /\
  (0 < bs -> batch_sampler bs idxs = chunks bs idxs).
Proof.
  intros Hf. split.
  - apply sampler_drain_go. unfold sampler_measure. simpl. lia.
  - intros Hb. apply batch_sampler_go_chunks; simpl; lia.
Qed.

Lemma batch_sampler_iter_terminates_witness :
  sampler_drain 6 2 (mkSamplerGen [0; 1; 2; 3; 4] []) = Some (batch_sampler 2 [0; 1; 2; 3; 4]) /\
  (0 < 2 -> batch_sampler 2 [0; 1; 2; 3; 4] = chunks 2 [0; 1; 2; 3; 4]).
Proof. apply batch_sampler_iter_terminates. simpl. lia. Defined.


Lemma fetch_batch_errors_witness :
  fetch_batch (mkLoader (mkDataset [mkTensor [3] [1; 2; 3]%Z CPU]) 2 ["x"]) [] =
    Err (IndexError "list index out of range") /\
  fetch_batch (mkLoader (mkDataset [mkTensor [3] [1; 2; 3]%Z CPU]) 2 ["x"]) ([2] ++ 3 :: [0]) =
    Err (IndexError "index out of range") /\
  collate ["x"] [[]] =
    Err (AssertionError "Dataset contains a different number of tensors than tensor names supplied").
Proof.
  destruct (fetch_batch_errors (mkDataset [mkTensor [3] [1; 2; 3]%Z CPU]) 2 ["x"] 3)
    as (H0 & H1 & H2).
  - split; [reflexivity|]. repeat constructor.
  - discriminate.
  - split_and!; [exact H0|apply H1; [repeat constructor; lia|lia]|apply H2; discriminate].
Defined.
