(* ===== verification/Collab.v ===== *)
(** * Contracts of the collaborators of the inferencer

    The [Processor] and the [AdaptiveModel] are external collaborators
    (their code is not in the repository excerpt).  Each is a record of
    the attributes and methods [infer.py] uses, over abstract types of
    samples, label maps, tokenizers, logits and predictions:
    - [Processor]: [label_maps], [tokenizer], [dataset_from_dicts],
      [_dict_to_samples];
    - [AdaptiveModel]: [language_model] (its [language] and
      [formatted_preds]), [prediction_heads] (each with its [model_type]),
      [forward], [formatted_preds].
    What one component promises another is stated as a type class over
    such a record: [ProcessorLaws] (the dataset rows are the featurised
    samples, in order), [ModelPointwise] and [LMPointwise] (a forward pass
    and formatting on a batch yield one prediction per sample, computed
    from that sample and its own row).  The inferencer's theorems are
    proved against these classes; [Instances] gives instances. *)

From S2P Require Import Prelude PyData Tensor Dataset Loader.

Section Collaborators.
Context {Sample LabelMap Tokenizer Logits Pred : Type}.

Record Processor : Type := mkProcessor {
  label_maps : list LabelMap;
  tokenizer : Tokenizer;
  dataset_from_dicts : list dict -> Result (TensorDataset * list string);
  _dict_to_samples : dict -> Result (list Sample)
}.

Record PredictionHead : Type := mkHead { model_type : string }.

Record LanguageModel : Type := mkLM {
  language : string;
  (** [formatted_preds(extraction_strategy=..., samples=..., tokenizer=..., **batch)] *)
  lm_formatted_preds : string -> list Sample -> Tokenizer -> NamedBatch -> Result (list Pred)
}.

Record AdaptiveModel : Type := mkModel {
  language_model : LanguageModel;
  prediction_heads : list PredictionHead;
  (** [forward( **batch)] *)
  forward : NamedBatch -> Result Logits;
  (** [formatted_preds(logits=..., label_maps=..., samples=..., tokenizer=..., **batch)] *)
  formatted_preds : Logits -> list LabelMap -> list Sample -> Tokenizer -> NamedBatch -> Result (list Pred)
}.

(** [samples = []; for dict in dicts: samples.extend(self.processor._dict_to_samples(dict))] *)
Definition samples_of_dicts (p : Processor) (dicts : list dict) : Result (list Sample) :=
  extendM (_dict_to_samples p) dicts.

(** The processor's promise: the dataset it builds from [dicts] has one
    row per sample of [samples_of_dicts], in the same order, each row
    being the featurisation of its sample, and the dataset has one
    well-formed tensor per name. *)
Class ProcessorLaws (p : Processor) : Type := {
  featurize : Sample -> list Tensor;
  dataset_aligned : forall dicts ds names samples,
    dataset_from_dicts p dicts = Ok (ds, names) ->
    samples_of_dicts p dicts = Ok samples ->
    dataset_wf ds names (length samples) /\ dataset_len ds = Ok (length samples) /\
    forall i s, samples !! i = Some s -> dataset_getitem ds i = Ok (featurize s)
}.

(** The model's promise for down-stream inference: on a batch with as many
    rows as samples, a forward pass followed by [formatted_preds] gives one
    prediction per sample, computed from the sample and its row. *)
Class ModelPointwise (m : AdaptiveModel) (lms : list LabelMap) (tok : Tokenizer) : Type := {
  pred_of : Sample -> list Tensor -> Pred;
  forward_format_pointwise : forall nb samples rows,
    mapM (batch_row nb) (seq 0 (length samples)) = Ok rows ->
    (logits ← forward m nb; formatted_preds m logits lms samples tok nb) =
      Ok (zip_with pred_of samples rows)
}.

(** The same promise for the language model's vector extraction with a
    given strategy. *)
Class LMPointwise (lm : LanguageModel) (strategy : string) (tok : Tokenizer) : Type := {
  vec_of : Sample -> list Tensor -> Pred;
  lm_format_pointwise : forall nb samples rows,
    mapM (batch_row nb) (seq 0 (length samples)) = Ok rows ->
    lm_formatted_preds lm strategy samples tok nb = Ok (zip_with vec_of samples rows)
}.

End Collaborators.

Arguments Processor : clear implicits.
Arguments LanguageModel : clear implicits.
Arguments AdaptiveModel : clear implicits.
