(* ===== verification/Inferencer.v ===== *)
(** * The [Inferencer] of [src/farm/infer.py]

    State.  Besides the [Inferencer] object itself (a record of the
    attributes [__init__] sets), the methods touch process-wide state,
    modelled as a [World]: the random seeds ([set_all_seeds]), the
    [training] flag of the shared [AdaptiveModel] ([model.eval()]), torch's
    grad mode ([torch.no_grad()]), the CUDA facts [initialize_device_settings]
    reads, and a trace of the calls made to the model (each forward pass
    records the grad mode, the training flag and the batch it was given).

    Effects.  A method is a function [World -> Result A * World] ([M A]):
    the world is threaded through every call and an exception ([Err])
    aborts the method but keeps the world as it was at the raise (the
    model stays in eval mode, calls already made stay in the trace).

    Methods: [Inferencer_init] ([__init__], lines 36-71),
    [Inferencer_load] ([load], lines 73-97), [run_inference] (lines
    99-141) with its batch loop [inference_loop] (lines 126-141),
    [extract_vectors] (lines 143-179) with [extraction_loop]
    (lines 166-179). *)

From Stdlib Require Import Ascii.
From S2P Require Import Prelude PyData Tensor Dataset Loader Collab.

Local Open Scope farm_scope.

Section Inferencer.
Context {Sample LabelMap Tokenizer Logits Pred : Type}.

Abbreviation Processor := (Processor Sample LabelMap Tokenizer).
Abbreviation AdaptiveModel := (AdaptiveModel Sample LabelMap Tokenizer Logits Pred).

(** ** The world and its monad *)

Inductive Event : Type :=
| EvForward (grad training : bool) (nb : NamedBatch)
| EvFormat (grad : bool) (nsamples : nat)
| EvLMFormat (grad : bool) (strategy : string) (nsamples : nat) (nb : NamedBatch).

Record World : Type := mkWorld {
  w_seed : option Z;
  w_cuda_seed : option Z;
  w_training : bool;
  w_grad_enabled : bool;
  w_cuda_available : bool;
  w_device_count : nat;
  w_trace : list Event
}.

Definition M (A : Type) : Type := World -> Result A * World.

#[export] Instance M_ret : MRet M := fun A a w => (Ok a, w).
#[export] Instance M_bind : MBind M :=
  fun A B f m w => match m w with (Ok a, w') => f a w' | (Err e, w') => (Err e, w') end.

(** A pure Python step that may raise. *)
Definition lift {A} (r : Result A) : M A := fun w => (r, w).

Definition record (ev : Event) : M unit :=
  fun w => (Ok tt, mkWorld (w_seed w) (w_cuda_seed w) (w_training w) (w_grad_enabled w)
                          (w_cuda_available w) (w_device_count w) (w_trace w ++ [ev])).

Definition get_world : M World := fun w => (Ok w, w).

(** [with torch.no_grad(): body]: grad mode is off inside and restored on
    exit, whether the body returns or raises. *)
Definition no_grad {A} (body : M A) : M A :=
  fun w =>
    let '(r, w') := body (mkWorld (w_seed w) (w_cuda_seed w) (w_training w) false
                                  (w_cuda_available w) (w_device_count w) (w_trace w)) in
    (r, mkWorld (w_seed w') (w_cuda_seed w') (w_training w') (w_grad_enabled w)
                (w_cuda_available w') (w_device_count w') (w_trace w')).

(** [self.model.eval()] *)
Definition model_eval : M unit :=
  fun w => (Ok tt, mkWorld (w_seed w) (w_cuda_seed w) false (w_grad_enabled w)
                          (w_cuda_available w) (w_device_count w) (w_trace w)).

(** [set_all_seeds(seed, n_gpu)] (farm/utils.py): python, numpy and torch
    seeds, and the CUDA seeds when there is a GPU. *)
Definition set_all_seeds (seed : Z) (n_gpu : nat) : M unit :=
  fun w => (Ok tt, mkWorld (Some seed)
                          (if Nat.ltb 0 n_gpu then Some seed else w_cuda_seed w)
                          (w_training w) (w_grad_enabled w)
                          (w_cuda_available w) (w_device_count w) (w_trace w)).

(** [initialize_device_settings(use_cuda, local_rank, fp16)] (farm/utils.py). *)
Definition initialize_device_settings (use_cuda : bool) (local_rank : Z) (fp16 : bool)
    : M (Device * nat) :=
  fun w =>
    (Ok (if negb use_cuda then (CPU, 0)
         else if (local_rank =? -1)%Z then
           ((if w_cuda_available w then CUDA else CPU), w_device_count w)
         else (CUDA, 1)), w).

(** ** Python calls *)

(** [f(a=..., b=..., **batch)] raises [TypeError] when a key of [batch]
    repeats an explicit keyword. *)
Definition check_kwargs (explicit : list string) (nb : NamedBatch) : Result unit :=
  if existsb (fun p => bool_decide (p.1 ∈ explicit)) nb
  then Err (TypeError "got multiple values for keyword argument")
  else Ok tt.

(** [{key: batch[key].to(self.device) for key in batch}] *)
Definition batch_to_device (dev : Device) (nb : NamedBatch) : NamedBatch :=
  map (fun p => (p.1, tensor_to dev p.2)) nb.

(** [self.model.forward( **batch)] *)
Definition call_forward (m : AdaptiveModel) (nb : NamedBatch) : M Logits :=
  w ← get_world;
  record (EvForward (w_grad_enabled w) (w_training w) nb);;
  lift (forward m nb).

(** [self.model.formatted_preds(logits=logits, label_maps=..., samples=...,
    tokenizer=..., **batch)] *)
Definition call_formatted_preds (m : AdaptiveModel) (logits : Logits) (lms : list LabelMap)
    (samples : list Sample) (tok : Tokenizer) (nb : NamedBatch) : M (list Pred) :=
  lift (check_kwargs ["logits"; "label_maps"; "samples"; "tokenizer"] nb);;
  w ← get_world;
  record (EvFormat (w_grad_enabled w) (length samples));;
  lift (formatted_preds m logits lms samples tok nb).

(** [self.model.language_model.formatted_preds(extraction_strategy=...,
    samples=..., tokenizer=..., **batch)] *)
Definition call_lm_formatted_preds (m : AdaptiveModel) (strategy : string)
    (samples : list Sample) (tok : Tokenizer) (nb : NamedBatch) : M (list Pred) :=
  lift (check_kwargs ["extraction_strategy"; "samples"; "tokenizer"] nb);;
  w ← get_world;
  record (EvLMFormat (w_grad_enabled w) strategy (length samples) nb);;
  lift (lm_formatted_preds (language_model m) strategy samples tok nb).

(** ** The Inferencer object *)

(** The attributes set by [__init__].  [inf_prediction_type] is [None]
    when [__init__] never assigns [self.prediction_type] (more than one
    prediction head); reading it then raises [AttributeError]. *)
Record Inferencer : Type := mkInferencer {
  inf_processor : Processor;
  inf_model : AdaptiveModel;
  inf_batch_size : Z;
  inf_device : Device;
  inf_language : string;
  inf_prediction_type : option string;
  inf_label_map : option LabelMap;
  inf_name : string
}.

(** [self.prediction_type] *)
Definition get_prediction_type (self : Inferencer) : Result string :=
  match inf_prediction_type self with
  | Some t => Ok t
  | None => Err (AttributeError "prediction_type")
  end.

(** Lines 64-69: the prediction type and label map from the heads. *)
Definition prediction_type_of (model : AdaptiveModel) (processor : Processor)
    : Result (option string * option LabelMap) :=
  if Nat.eqb (length (prediction_heads model)) 1 then
    h ← (prediction_heads model).[0];
    lm ← (label_maps processor).[0];
    Ok (Some (model_type h), Some lm)
  else if Nat.eqb (length (prediction_heads model)) 0 then Ok (Some "embedder", None)
  else Ok (None, None).

(** Line 70: [name if name != None else f"anonymous-{self.prediction_type}"] *)
Definition display_name (name : option string) (pt : option string) : Result string :=
  match name with
  | Some n => Ok n
  | None =>
      match pt with
      | Some t => Ok ("anonymous-" ++ t)%string
      | None => Err (AttributeError "prediction_type")
      end
  end.

(** [Inferencer.__init__(model, processor, batch_size, gpu, name)] *)
Definition Inferencer_init (model : AdaptiveModel) (processor : Processor) (batch_size : Z)
    (gpu : bool) (name : option string) : M Inferencer :=
  '(device, n_gpu) ← initialize_device_settings gpu (-1) false;
  model_eval;;
  let language := language (language_model model) in
  '(pt, lmap) ← lift (prediction_type_of model processor);
  nm ← lift (display_name name pt);
  set_all_seeds 42 n_gpu;;
  mret (mkInferencer processor model batch_size device language pt lmap nm).

Fixpoint has_slash (p : string) : bool :=
  match p with
  | EmptyString => false
  | String c rest => Ascii.eqb c "/"%char || has_slash rest
  end.

(** [os.path.basename(p)] = [p[p.rfind('/') + 1:]]: what follows the last
    ["/"]. *)
Fixpoint basename (p : string) : string :=
  match p with
  | EmptyString => EmptyString
  | String c rest =>
      if has_slash rest then basename rest
      else if Ascii.eqb c "/"%char then rest else p
  end.

(** [Inferencer.load(load_dir, batch_size, gpu, embedder_only)], given the
    loaders [AdaptiveModel.load], [Processor.load_from_dir] and
    [InferenceProcessor.load_from_dir]. *)
Definition Inferencer_load
    (AdaptiveModel_load : string -> Device -> Result AdaptiveModel)
    (Processor_load_from_dir InferenceProcessor_load_from_dir : string -> Result Processor)
    (load_dir : string) (batch_size : Z) (gpu : bool) (embedder_only : bool) : M Inferencer :=
  '(device, n_gpu) ← initialize_device_settings gpu (-1) false;
  model ← lift (AdaptiveModel_load load_dir device);
  processor ← lift (if embedder_only then InferenceProcessor_load_from_dir load_dir
                    else Processor_load_from_dir load_dir);
  let name := basename load_dir in
  Inferencer_init model processor batch_size gpu (Some name).


(** ** Down-stream inference *)

(** The [TypeError] message of line 108. *)
Definition run_inference_msg (name : string) : string :=
  ("You have called run_inference for a model without any prediction head! " ++
   "If you want to: " ++
   "a) ... extract vectors from the language model: call `Inferencer.extract_vectors(...)`" ++
   "b) ... run inference on a downstream task: make sure your model path " ++ name ++
   " contains a saved prediction head")%string.

(** [samples[i * self.batch_size : (i + 1) * self.batch_size]] *)
Definition batch_samples_of (bs : Z) (i : nat) (samples : list Sample) : list Sample :=
  samples.[Z.of_nat i * bs : (Z.of_nat i + 1) * bs].

(** Lines 126-139: [for i, batch in enumerate(data_loader): ...]; [i] is
    the index of the current batch, [ibs] the index batches left. *)
Fixpoint inference_loop (self : Inferencer) (dl : NamedDataLoader) (samples : list Sample)
    (i : nat) (ibs : list (list nat)) : M (list Pred) :=
  match ibs with
  | [] => mret []
  | c :: ibs' =>
      batch ← lift (fetch_batch dl c);
      let batch := batch_to_device (inf_device self) batch in
      let batch_samples := batch_samples_of (inf_batch_size self) i samples in
      preds ← no_grad (
        logits ← call_forward (inf_model self) batch;
        call_formatted_preds (inf_model self) logits (label_maps (inf_processor self))
          batch_samples (tokenizer (inf_processor self)) batch);
      preds_rest ← inference_loop self dl samples (S i) ibs';
      mret (preds ++ preds_rest)
  end.

(** [Inferencer.run_inference(dicts)] *)
Definition run_inference (self : Inferencer) (dicts : list dict) : M (list Pred) :=
  pt ← lift (get_prediction_type self);
  if String.eqb pt "embedder" then lift (Err (TypeError (run_inference_msg (inf_name self))))
  else
    '(dataset, tensor_names) ← lift (dataset_from_dicts (inf_processor self) dicts);
    samples ← lift (samples_of_dicts (inf_processor self) dicts);
    dl ← lift (NamedDataLoader_new dataset (inf_batch_size self) tensor_names);
    ibs ← lift (loader_index_batches dl);
    inference_loop self dl samples 0 ibs.

(** ** Vector extraction *)

(** Lines 166-177. *)
Fixpoint extraction_loop (self : Inferencer) (strategy : string) (dl : NamedDataLoader)
    (samples : list Sample) (i : nat) (ibs : list (list nat)) : M (list Pred) :=
  match ibs with
  | [] => mret []
  | c :: ibs' =>
      batch ← lift (fetch_batch dl c);
      let batch := batch_to_device (inf_device self) batch in
      let batch_samples := batch_samples_of (inf_batch_size self) i samples in
      preds ← no_grad (
        call_lm_formatted_preds (inf_model self) strategy batch_samples
          (tokenizer (inf_processor self)) batch);
      preds_rest ← extraction_loop self strategy dl samples (S i) ibs';
      mret (preds ++ preds_rest)
  end.

(** [Inferencer.extract_vectors(dicts, extraction_strategy)] *)
Definition extract_vectors (self : Inferencer) (dicts : list dict) (strategy : string)
    : M (list Pred) :=
  '(dataset, tensor_names) ← lift (dataset_from_dicts (inf_processor self) dicts);
  samples ← lift (samples_of_dicts (inf_processor self) dicts);
  dl ← lift (NamedDataLoader_new dataset (inf_batch_size self) tensor_names);
  ibs ← lift (loader_index_batches dl);
  extraction_loop self strategy dl samples 0 ibs.

End Inferencer.
