(* ===== verification/Instances.v ===== *)
(** * Concrete collaborators

    A processor and models that implement the contracts of [Collab], used
    to run the inferencer on concrete inputs:
    - [toy_processor_with key]: a sample is the ["text"] of a dict; its
      features are an ["input_ids"] pair (the text length modulo 1000,
      then 101) and a pair named [key] ([toy_processor] uses
      ["padding_mask"]); [dataset_from_dicts] converts them with
      [convert_features_to_dataset], as FARM's processors do.  Its
      [ProcessorLaws] instance is discharged by the converter's lemmas.
    - [toy_model heads]: [forward] passes the batch through as logits;
      [formatted_preds] and the language model's [formatted_preds] pair
      each sample with its row.  Its [ModelPointwise] and [LMPointwise]
      instances hold by construction.
    - [toy_classifier], [toy_clash_classifier] (whose second tensor is
      named ["samples"]), [toy_embedder], three input dicts and a fresh
      world, used by the witnesses. *)

From S2P Require Import Prelude PyData Tensor Dataset Loader Collab Inferencer.

Definition toy_len (s : string) : Z := (Z.of_nat (String.length s) mod 1000)%Z.

(** The features of a sample; [key] names the second feature. *)
Definition toy_features (key : string) (s : string) : dict :=
  [("input_ids", PyList [PyInt (toy_len s); PyInt 101]);
   (key, PyList [PyInt 1; PyInt 1])].

Definition toy_dict_to_samples (d : dict) : Result (list string) :=
  v ← getitem d "text";
  match v with
  | PyStr s => Ok [s]
  | _ => Err (TypeError "text must be a str")
  end.

Definition toy_dataset_from_dicts (key : string) (dicts : list dict)
    : Result (TensorDataset * list string) :=
  samples ← extendM toy_dict_to_samples dicts;
  convert_features_to_dataset (map (toy_features key) samples).

Definition toy_processor_with (key : string) : Processor string (list string) unit :=
  mkProcessor [["negative"; "positive"]] tt (toy_dataset_from_dicts key) toy_dict_to_samples.

Definition toy_processor : Processor string (list string) unit := toy_processor_with "padding_mask".

(** The rows: with [key = "input_ids"] both names read the first field. *)
Definition toy_featurize (key : string) (s : string) : list Tensor :=
  [mkTensor [2] [toy_len s; 101%Z] CPU;
   if String.eqb key "input_ids" then mkTensor [2] [toy_len s; 101%Z] CPU
   else mkTensor [2] [1%Z; 1%Z] CPU].

Definition toy_rows (nb : NamedBatch) (n : nat) : Result (list (list Tensor)) :=
  mapM (batch_row nb) (seq 0 n).

Definition toy_pred (s : string) (row : list Tensor) : string * list Tensor := (s, row).

Definition toy_lm : LanguageModel string unit (string * list Tensor) :=
  mkLM "english" (fun strategy samples tok nb =>
    rows ← toy_rows nb (length samples); Ok (zip_with toy_pred samples rows)).

Definition toy_model (heads : list PredictionHead)
    : AdaptiveModel string (list string) unit NamedBatch (string * list Tensor) :=
  mkModel toy_lm heads (fun nb => Ok nb)
    (fun logits lms samples tok nb =>
       rows ← toy_rows logits (length samples); Ok (zip_with toy_pred samples rows)).

(** ** The contracts hold *)

#[export] Instance toy_processor_laws (key : string) : ProcessorLaws (toy_processor_with key).
Proof.
  refine {| featurize := toy_featurize key |}.
  intros dicts ds names samples Hd Hs.
  change (toy_dataset_from_dicts key dicts = Ok (ds, names)) in Hd.
  change (extendM toy_dict_to_samples dicts = Ok samples) in Hs.
  apply bind_Ok in Hd as (samples' & Hs' & Hconv). rewrite Hs in Hs'. injection Hs' as <-.
  destruct (convert_shape _ _ _ Hconv) as ((f0 & Hf0 & Hnames) & Hlen & Hall & Hdlen).
  rewrite length_map in Hall, Hdlen.
  destruct samples as [|s0 samples'']; [done|]. injection Hf0 as <-. simpl in Hnames.
  split_and!.
  - split; [done|]. eapply Forall_impl; [exact Hall|]. by intros t [? ?].
  - by apply Hdlen; rewrite Hnames.
  - intros i s Hi. rewrite (convert_row _ _ _ i (toy_features key s) Hconv) by by apply lookup_map_Some.
    rewrite Hnames.
    assert (Hlen64 : in_int64 (toy_len s) = true).
    { unfold in_int64, toy_len, int64_min, int64_max.
      pose proof (Z.mod_pos_bound (Z.of_nat (String.length s)) 1000 ltac:(lia)).
      apply andb_true_iff. split; apply Z.leb_le; lia. }
    unfold toy_featurize, toy_features, getitem. cbn [mapM dict_get].
    destruct (String.eqb_spec key "input_ids") as [->|Hk].
    + cbn. by rewrite Hlen64.
    + rewrite String.eqb_refl. cbn. by rewrite Hlen64.
Defined.

#[export] Instance toy_model_pointwise (heads : list PredictionHead) (lms : list (list string)) (tok : unit)
    : ModelPointwise (toy_model heads) lms tok.
Proof.
  refine {| pred_of := toy_pred |}.
  intros nb samples rows H. cbn. unfold toy_rows. by rewrite H.
Defined.

#[export] Instance toy_lm_pointwise (strategy : string) (tok : unit) : LMPointwise toy_lm strategy tok.
Proof.
  refine {| vec_of := toy_pred |}.
  intros nb samples rows H. cbn. unfold toy_rows. by rewrite H.
Defined.

(** ** Concrete inferencers and inputs *)

Definition toy_dicts : list dict :=
  [[("text", PyStr "hello world")]; [("text", PyStr "guten tag")]; [("text", PyStr "ok")]].

(** A fresh interpreter: no seed set, training mode, grad enabled, no GPU. *)
Definition toy_world : World := mkWorld None None true true false 0 [].

Definition toy_classifier : @Inferencer string (list string) unit NamedBatch (string * list Tensor) :=
  mkInferencer toy_processor (toy_model [mkHead "text_classification"]) 2 CPU "english"
    (Some "text_classification") (Some ["negative"; "positive"]) "anonymous-text_classification".

Definition toy_clash_classifier : @Inferencer string (list string) unit NamedBatch (string * list Tensor) :=
  mkInferencer (toy_processor_with "samples") (toy_model [mkHead "text_classification"]) 2 CPU "english"
    (Some "text_classification") (Some ["negative"; "positive"]) "anonymous-text_classification".

Definition toy_embedder : @Inferencer string (list string) unit NamedBatch (string * list Tensor) :=
  mkInferencer toy_processor (toy_model []) 2 CPU "english" (Some "embedder") None "saved_models/lm".
