(* ===== verification/MonadFacts.v ===== *)
(** * Facts about the world monad [M]

    Predicates on computations of [M] (see [Inferencer]) and their
    compositional lemmas, used by the theorems on the [Inferencer]:
    - [returns m a]: [m] yields [a] from every world; [raises m e]: [m]
      raises [e] from every world;
    - [keeps_grad m]: [m] leaves torch's grad mode as it found it;
    - [emits Q m]: [m] only appends trace events satisfying [Q] and keeps
      the training flag, the grad mode and the seed;
    - [logs m a cs nf]: [m] yields [a] and appends events whose
      [formatted_preds] sample counts are [cs] and with [nf] forward calls.
    Each comes with lemmas for [mret], [lift], [≫=], [record], reading the
    world and [no_grad], registered in the [farm] hint database. *)

From S2P Require Import Prelude PyData Tensor Dataset Loader Collab Inferencer.

(** ** Definitions *)

(** [m] yields [a] from every world. *)
Definition returns {A} (m : M A) (a : A) : Prop := forall w, fst (m w) = Ok a.

(** [m] raises [e] from every world. *)
Definition raises {A} (m : M A) (e : Exc) : Prop := forall w, fst (m w) = Err e.

(** [m] leaves torch's grad mode as it found it. *)
Definition keeps_grad {A} (m : M A) : Prop := forall w, w_grad_enabled (snd (m w)) = w_grad_enabled w.

Definition on_device (dev : Device) (nb : NamedBatch) : Prop :=
  Forall (fun p => t_device p.2 = dev) nb.

(** A call event made with grad mode [g], training flag [tr] and batches
    on [dev]. *)
Definition event_ok (dev : Device) (tr g : bool) (ev : Event) : Prop :=
  match ev with
  | EvForward g' tr' nb => g' = g /\ tr' = tr /\ on_device dev nb
  | EvFormat g' _ => g' = g
  | EvLMFormat g' _ _ nb => g' = g /\ on_device dev nb
  end.

(** [m] only appends events satisfying [Q] (read at the flags [m] starts
    with) and leaves the training flag, the grad mode and the seed
    unchanged. *)
Definition emits (Q : bool -> bool -> Event -> Prop) {A} (m : M A) : Prop :=
  forall w, exists evs, w_trace (snd (m w)) = w_trace w ++ evs /\
    Forall (Q (w_training w) (w_grad_enabled w)) evs /\
    w_training (snd (m w)) = w_training w /\ w_grad_enabled (snd (m w)) = w_grad_enabled w /\
    w_seed (snd (m w)) = w_seed w.

(** The number of samples a formatting call was given. *)
Definition ev_count (ev : Event) : option nat :=
  match ev with
  | EvForward _ _ _ => None
  | EvFormat _ n => Some n
  | EvLMFormat _ _ n _ => Some n
  end.

Definition is_forward (ev : Event) : bool :=
  match ev with EvForward _ _ _ => true | _ => false end.

Definition formatted_counts (evs : list Event) : list nat := omap ev_count evs.

Definition forward_count (evs : list Event) : nat := length (List.filter is_forward evs).

(** [m] yields [a] from every world and appends events with formatting
    counts [cs] and [nf] forward calls. *)
Definition logs {A} (m : M A) (a : A) (cs : list nat) (nf : nat) : Prop :=
  forall w, fst (m w) = Ok a /\ exists evs, w_trace (snd (m w)) = w_trace w ++ evs /\
    formatted_counts evs = cs /\ forward_count evs = nf.

(** ** Running a bind *)

Lemma M_bind_run {A B} (m : M A) (f : A -> M B) (w : World) :
  (m ≫= f) w = match m w with (Ok a, w') => f a w' | (Err e, w') => (Err e, w') end.
Proof. reflexivity. Qed.

Lemma lift_bind_Ok {A B} (a : A) (f : A -> M B) (w : World) : (lift (Ok a) ≫= f) w = f a w.
Proof. reflexivity. Qed.

Lemma lift_bind_Err {A B} (e : Exc) (f : A -> M B) (w : World) : (lift (Err e) ≫= f) w = (Err e, w).
Proof. reflexivity. Qed.

(** ** [returns] *)

Lemma returns_mret {A} (a : A) : returns (mret a) a.
Proof. done. Qed.

Lemma returns_lift {A} (r : Result A) (a : A) : r = Ok a -> returns (lift r) a.
Proof. by intros -> w. Qed.

Lemma returns_bind {A B} (m : M A) (f : A -> M B) (a : A) (b : B) :
  returns m a -> returns (f a) b -> returns (m ≫= f) b.
Proof.
  intros Hm Hf w. specialize (Hm w). rewrite M_bind_run.
  destruct (m w) as [[a'|e] w']; simpl in Hm; [|done].
  injection Hm as ->. apply Hf.
Qed.

(** A bind whose first step yields some value from every world and whose
    continuation yields [b] from every value. *)
Lemma returns_bind_any {A B} (m : M A) (f : A -> M B) (b : B) :
  (forall w, exists a, fst (m w) = Ok a) -> (forall a, returns (f a) b) -> returns (m ≫= f) b.
Proof.
  intros Hm Hf w. destruct (Hm w) as [a Ha]. rewrite M_bind_run. destruct (m w) as [[a'|e] w']; simpl in Ha; [|done].
  apply Hf.
Qed.

Lemma returns_no_grad {A} (m : M A) (a : A) : returns m a -> returns (no_grad m) a.
Proof.
  intros Hm w. unfold no_grad.
  specialize (Hm (mkWorld (w_seed w) (w_cuda_seed w) (w_training w) false
                          (w_cuda_available w) (w_device_count w) (w_trace w))).
  destruct (m _). by simpl in *.
Qed.

Lemma returns_record (ev : Event) : returns (record ev) tt.
Proof. done. Qed.

Lemma returns_get_world_bind {A} (f : World -> M A) (a : A) :
  (forall w, returns (f w) a) -> returns (get_world ≫= f) a.
Proof. intros Hf. apply returns_bind_any; [intros w; eexists; reflexivity|done]. Qed.

(** ** [raises] *)

Lemma raises_bind_l {A B} (m : M A) (f : A -> M B) (e : Exc) : raises m e -> raises (m ≫= f) e.
Proof.
  intros Hm w. rewrite M_bind_run. specialize (Hm w).
  destruct (m w) as [[a|e'] w']; simpl in *; congruence.
Qed.

Lemma raises_bind_r {A B} (m : M A) (f : A -> M B) (a : A) (e : Exc) :
  returns m a -> raises (f a) e -> raises (m ≫= f) e.
Proof.
  intros Hm Hf w. rewrite M_bind_run. specialize (Hm w).
  destruct (m w) as [[a'|e'] w']; simpl in *; [injection Hm as ->; apply Hf|discriminate].
Qed.

Lemma raises_no_grad {A} (m : M A) (e : Exc) : raises m e -> raises (no_grad m) e.
Proof.
  intros Hm w. unfold no_grad.
  specialize (Hm (mkWorld (w_seed w) (w_cuda_seed w) (w_training w) false
                          (w_cuda_available w) (w_device_count w) (w_trace w))).
  by destruct (m _).
Qed.

(** ** [keeps_grad] *)

Lemma keeps_grad_mret {A} (a : A) : keeps_grad (mret a).
Proof. done. Qed.

Lemma keeps_grad_lift {A} (r : Result A) : keeps_grad (lift r).
Proof. done. Qed.

Lemma keeps_grad_bind {A B} (m : M A) (f : A -> M B) :
  keeps_grad m -> (forall a, keeps_grad (f a)) -> keeps_grad (m ≫= f).
Proof.
  intros Hm Hf w. specialize (Hm w). rewrite M_bind_run.
  destruct (m w) as [[a|e] w'] eqn:Hmw; simpl in *.
  - by rewrite Hf.
  - done.
Qed.

Lemma keeps_grad_no_grad {A} (m : M A) : keeps_grad (no_grad m).
Proof. intros w. unfold no_grad. by destruct (m _). Qed.

Lemma keeps_grad_record (ev : Event) : keeps_grad (record ev).
Proof. done. Qed.

Lemma keeps_grad_get_world : keeps_grad get_world.
Proof. done. Qed.

#[export] Hint Resolve keeps_grad_mret keeps_grad_lift keeps_grad_bind keeps_grad_no_grad
  keeps_grad_record keeps_grad_get_world : farm.

(** ** [emits] *)

Lemma emits_pure {A} (Q : bool -> bool -> Event -> Prop) (m : M A) :
  (forall w, snd (m w) = w) -> emits Q m.
Proof. intros Hm w. rewrite Hm. exists []. rewrite app_nil_r. by split_and!. Qed.

Lemma emits_bind {A B} (Q : bool -> bool -> Event -> Prop) (m : M A) (f : A -> M B) :
  emits Q m -> (forall a, emits Q (f a)) -> emits Q (m ≫= f).
Proof.
  intros Hm Hf w. destruct (Hm w) as (evs & Htr & Hq & Htrain & Hgrad & Hseed).
  rewrite M_bind_run. destruct (m w) as [[a|e] w'] eqn:Hmw; simpl in *.
  - destruct (Hf a w') as (evs' & Htr' & Hq' & Htrain' & Hgrad' & Hseed').
    exists (evs ++ evs'). rewrite Htr', Htr, app_assoc, Htrain', Hgrad', Hseed'.
    split_and!; try done. apply Forall_app. split; [done|]. by rewrite <- Htrain, <- Hgrad.
  - exists evs. by split_and!.
Qed.

Lemma emits_record (Q : bool -> bool -> Event -> Prop) (ev : Event) :
  (forall w, Q (w_training w) (w_grad_enabled w) ev) -> emits Q (record ev).
Proof. intros Hq w. exists [ev]. split_and!; try done. constructor; [apply Hq|constructor]. Qed.

Lemma emits_no_grad (Q : bool -> bool -> Event -> Prop) {A} (m : M A) :
  emits Q m -> emits (fun tr _ => Q tr false) (no_grad m).
Proof.
  intros Hm w. unfold no_grad.
  destruct (Hm (mkWorld (w_seed w) (w_cuda_seed w) (w_training w) false
                        (w_cuda_available w) (w_device_count w) (w_trace w)))
    as (evs & Htr & Hq & Htrain & Hgrad & Hseed).
  destruct (m _) as [r w'] eqn:Hmw. simpl in *. exists evs. by split_and!.
Qed.

Lemma emits_weaken (Q Q' : bool -> bool -> Event -> Prop) {A} (m : M A) :
  (forall tr g ev, Q tr g ev -> Q' tr g ev) -> emits Q m -> emits Q' m.
Proof.
  intros HQ Hm w. destruct (Hm w) as (evs & ? & Hq & ? & ? & ?). exists evs.
  split_and!; try done. eapply Forall_impl; [exact Hq|]. auto.
Qed.

Lemma emits_read (Q : bool -> bool -> Event -> Prop) {A} (f : World -> M A) :
  (forall u, emits (fun tr g ev => w_training u = tr -> w_grad_enabled u = g -> Q tr g ev) (f u)) ->
  emits Q (get_world ≫= f).
Proof.
  intros Hf w. rewrite M_bind_run. simpl.
  destruct (Hf w w) as (evs & ? & Hq & ? & ? & ?). exists evs. split_and!; try done.
  eapply Forall_impl; [exact Hq|]. auto.
Qed.

(** ** [logs] *)

Lemma returns_of_logs {A} (m : M A) (a : A) (cs : list nat) (nf : nat) :
  logs m a cs nf -> returns m a.
Proof. intros Hm w. apply Hm. Qed.

Lemma logs_mret {A} (a : A) : logs (mret a) a [] 0.
Proof. intros w. split; [done|]. exists []. by rewrite app_nil_r. Qed.

Lemma logs_lift {A} (r : Result A) (a : A) : r = Ok a -> logs (lift r) a [] 0.
Proof. intros -> w. split; [done|]. exists []. by rewrite app_nil_r. Qed.

Lemma formatted_counts_app (e1 e2 : list Event) :
  formatted_counts (e1 ++ e2) = formatted_counts e1 ++ formatted_counts e2.
Proof. apply omap_app. Qed.

Lemma forward_count_app (e1 e2 : list Event) :
  forward_count (e1 ++ e2) = forward_count e1 + forward_count e2.
Proof. unfold forward_count. by rewrite List.filter_app, length_app. Qed.

Lemma logs_bind {A B} (m : M A) (f : A -> M B) (a : A) (b : B) (c1 c2 cs : list nat)
    (n1 n2 nf : nat) :
  logs m a c1 n1 -> logs (f a) b c2 n2 -> cs = c1 ++ c2 -> nf = n1 + n2 -> logs (m ≫= f) b cs nf.
Proof.
  intros Hm Hf -> -> w. destruct (Hm w) as [Ha (e1 & Htr1 & Hc1 & Hn1)].
  rewrite M_bind_run. destruct (m w) as [[a'|e] w']; simpl in Ha; [|done].
  injection Ha as ->. destruct (Hf w') as [Hb (e2 & Htr2 & Hc2 & Hn2)].
  split; [done|]. exists (e1 ++ e2). simpl in Htr1.
  by rewrite Htr2, Htr1, app_assoc, formatted_counts_app, forward_count_app, Hc1, Hc2, Hn1, Hn2.
Qed.

Lemma logs_no_grad {A} (m : M A) (a : A) (cs : list nat) (nf : nat) :
  logs m a cs nf -> logs (no_grad m) a cs nf.
Proof.
  intros Hm w. unfold no_grad.
  destruct (Hm (mkWorld (w_seed w) (w_cuda_seed w) (w_training w) false
                        (w_cuda_available w) (w_device_count w) (w_trace w))) as [Ha (evs & Htr & Hc)].
  destruct (m _) as [r w']. simpl in *. split; [done|]. by exists evs.
Qed.

Lemma logs_record (ev : Event) :
  logs (record ev) tt (formatted_counts [ev]) (forward_count [ev]).
Proof. intros w. split; [done|]. by exists [ev]. Qed.

Lemma logs_get_world_bind {A} (f : World -> M A) (a : A) (cs : list nat) (nf : nat) :
  (forall w, logs (f w) a cs nf) -> logs (get_world ≫= f) a cs nf.
Proof. intros Hf w. apply Hf. Qed.
