(* ===== verification/Pipeline.v ===== *)
(** * The batched pipeline of [run_inference] and [extract_vectors]

    Both methods build the dataset and the samples, wrap the dataset in a
    [NamedDataLoader] and loop over its batches; [batch_loop] is that loop
    with the per-batch work as a parameter [body], and both loops are
    shown equal to it ([inference_loop_batch_loop],
    [extraction_loop_batch_loop]).  The section [Loop] proves by
    induction on the index batches that, for a [body] computing one
    prediction per sample of its batch, the loop computes the per-sample
    map and records one formatting call per batch ([batch_loop_logs]).
    The theorems: refinement of both methods by a per-sample map, the
    number of model calls and samples they pass, independence from the
    batch size, the errors of [run_inference] (embedder, batch size,
    keyword collisions), and both methods on an input yielding no
    sample. *)

From S2P Require Import Prelude PyData Tensor Dataset Loader Collab Inferencer Instances MonadFacts.

Section Pipeline.
Context {Sample LabelMap Tokenizer Logits Pred : Type}.

Local Abbreviation Inferencer := (@Inferencer Sample LabelMap Tokenizer Logits Pred).

(** ** Definitions *)

(** The batch loop shared by [run_inference] and [extract_vectors]: both
    loops are shown equal to it with their own [body]. *)
Fixpoint batch_loop (self : Inferencer) (body : list Sample -> NamedBatch -> M (list Pred))
    (dl : NamedDataLoader) (samples : list Sample) (i : nat) (ibs : list (list nat))
    : M (list Pred) :=
  match ibs with
  | [] => mret []
  | c :: ibs' =>
      batch ← lift (fetch_batch dl c);
      preds ← body (batch_samples_of (inf_batch_size self) i samples)
                   (batch_to_device (inf_device self) batch);
      preds_rest ← batch_loop self body dl samples (S i) ibs';
      mret (preds ++ preds_rest)
  end.

Definition inference_body (self : Inferencer) (bsm : list Sample) (b : NamedBatch) : M (list Pred) :=
  no_grad (
    logits ← call_forward (inf_model self) b;
    call_formatted_preds (inf_model self) logits (label_maps (inf_processor self)) bsm
      (tokenizer (inf_processor self)) b).

Definition extraction_body (self : Inferencer) (strategy : string) (bsm : list Sample)
    (b : NamedBatch) : M (list Pred) :=
  no_grad (call_lm_formatted_preds (inf_model self) strategy bsm (tokenizer (inf_processor self)) b).

(** [self] with another batch size. *)
Definition with_batch_size (self : Inferencer) (b : Z) : Inferencer :=
  mkInferencer (inf_processor self) (inf_model self) b (inf_device self) (inf_language self)
    (inf_prediction_type self) (inf_label_map self) (inf_name self).

(** ** Batches on the device *)

Lemma get_prediction_type_Some (self : Inferencer) (t : string) :
  inf_prediction_type self = Some t -> get_prediction_type self = Ok t.
Proof. unfold get_prediction_type. by intros ->. Qed.

Lemma batch_row_to_device (dev : Device) (nb : NamedBatch) (k : nat) :
  batch_row (batch_to_device dev nb) k = map (tensor_to dev) <$> batch_row nb k.
Proof.
  unfold batch_row, batch_to_device. induction nb as [|[n t] nb IH]; [done|]. simpl.
  rewrite tensor_index_to. destruct (tensor_index t k); simpl; [|done].
  rewrite IH. by destruct (mapM _ nb).
Qed.

Lemma batch_to_device_names (dev : Device) (nb : NamedBatch) :
  map fst (batch_to_device dev nb) = map fst nb.
Proof. unfold batch_to_device. rewrite map_map. done. Qed.

(** [samples[i*bs:(i+1)*bs]] for a positive batch size. *)
Lemma batch_samples_of_slice (bs : Z) (i : nat) (samples : list Sample) :
  (0 < bs)%Z -> batch_samples_of bs i samples = take (Z.to_nat bs) (drop (i * Z.to_nat bs) samples).
Proof.
  intros Hbs. unfold batch_samples_of.
  replace (Z.of_nat i * bs)%Z with (Z.of_nat (i * Z.to_nat bs)) by lia.
  replace ((Z.of_nat i + 1) * bs)%Z with (Z.of_nat (S i * Z.to_nat bs)) by lia.
  rewrite py_slice_nat by nia. f_equal. lia.
Qed.

Lemma chunks_eq_nil {A} (bs : nat) (xs : list A) : 0 < bs -> chunks bs xs = [] -> xs = [].
Proof.
  intros Hb. destruct bs as [|b]; [lia|]. destruct xs as [|x xs]; [done|].
  rewrite chunks_cons by done. discriminate.
Qed.

Lemma inference_loop_batch_loop (self : Inferencer) (dl : NamedDataLoader)
    (samples : list Sample) (i : nat) (ibs : list (list nat)) :
  inference_loop self dl samples i ibs = batch_loop self (inference_body self) dl samples i ibs.
Proof. revert i. induction ibs as [|c ibs IH]; intros i; [done|]. simpl. by rewrite IH. Qed.

Lemma extraction_loop_batch_loop (self : Inferencer) (strategy : string) (dl : NamedDataLoader)
    (samples : list Sample) (i : nat) (ibs : list (list nat)) :
  extraction_loop self strategy dl samples i ibs =
  batch_loop self (extraction_body self strategy) dl samples i ibs.
Proof. revert i. induction ibs as [|c ibs IH]; intros i; [done|]. simpl. by rewrite IH. Qed.

(** ** The batch loop computes a per-sample map *)

Section Loop.
Context (self : Inferencer) (body : list Sample -> NamedBatch -> M (list Pred))
  (h : Sample -> list Tensor -> Pred) (feat : Sample -> list Tensor)
  (ds : TensorDataset) (names : list string) (samples : list Sample) (nfb : nat).

Hypothesis Hwf : dataset_wf ds names (length samples).
Hypothesis Hrows : forall i s, samples !! i = Some s -> dataset_getitem ds i = Ok (feat s).
Hypothesis Hbs : (0 < inf_batch_size self)%Z.
(** [body] predicts per sample, with one formatting call and [nfb]
    forward calls. *)
Hypothesis Hbody : forall bsm nb rows,
  map fst nb = names -> mapM (batch_row nb) (seq 0 (length bsm)) = Ok rows ->
  logs (body bsm nb) (zip_with h bsm rows) [length bsm] nfb.

Local Abbreviation bs := (Z.to_nat (inf_batch_size self)).
Local Abbreviation N := (length samples).
Local Abbreviation F := (fun s => h s (map (tensor_to (inf_device self)) (feat s))).

(** One step: the [i]-th batch is fetched, and its rows are the
    featurised samples of the [i]-th slice, on the device. *)
Lemma batch_step_rows (i : nat) :
  i * bs < N ->
  exists nb, fetch_batch (mkLoader ds bs names) (take bs (drop (i * bs) (seq 0 N))) = Ok nb /\
    map fst nb = names /\
    let slice := take bs (drop (i * bs) samples) in
    mapM (batch_row (batch_to_device (inf_device self) nb)) (seq 0 (length slice)) =
      Ok (map (fun s => map (tensor_to (inf_device self)) (feat s)) slice).
Proof.
  intros Hi. set (c := take bs (drop (i * bs) (seq 0 N))).
  assert (Hc : c = seq (i * bs) (bs `min` (N - i * bs))) by (unfold c; by rewrite drop_seq, take_seq).
  destruct (fetch_batch_Ok ds bs names N c Hwf) as (nb & Hnb).
  { rewrite Hc. destruct (bs `min` (N - i * bs)) eqn:Hm; [lia|done]. }
  { rewrite Hc. apply Forall_forall. intros x Hx%elem_of_seq. lia. }
  exists nb. split; [done|].
  assert (Hnames : map fst nb = names).
  { destruct (lookup_lt_is_Some_2 c 0) as [idx Hidx]; [rewrite Hc, length_seq; lia|].
    by destruct (fetch_batch_row_ex ds bs names N c nb 0 idx Hwf Hnb Hidx). }
  split; [done|]. cbv zeta.
  apply mapM_Ok_iff, Forall2_same_length_lookup_2.
  { by rewrite length_seq, length_map. }
  intros k k' r Hk Hr. apply lookup_seq in Hk as [-> Hk]. rewrite Nat.add_0_l.
  apply lookup_map_Some_inv in Hr as (s & -> & Hs).
  rewrite batch_row_to_device.
  assert (Hidx : c !! k = Some (i * bs + k)).
  { rewrite Hc. apply lookup_seq_lt. rewrite length_take, length_drop in Hk. lia. }
  destruct (fetch_batch_row_ex ds bs names N c nb k (i * bs + k) Hwf Hnb Hidx) as [(ex & Hex & ->) _].
  rewrite length_take, length_drop in Hk. rewrite lookup_take_lt, lookup_drop in Hs by lia.
  rewrite (Hrows _ _ Hs) in Hex. by injection Hex as ->.
Qed.

Lemma batch_loop_logs (ibs : list (list nat)) (i : nat) :
  ibs = chunks bs (drop (i * bs) (seq 0 N)) ->
  logs (batch_loop self body (mkLoader ds bs names) samples i ibs) (map F (drop (i * bs) samples))
    (map length (chunks bs (drop (i * bs) samples))) (nfb * length (chunks bs (drop (i * bs) samples))).
Proof.
  assert (Hb : 0 < bs) by lia.
  revert i. induction ibs as [|c ibs IH]; intros i Hibs; simpl.
  - symmetry in Hibs. apply chunks_eq_nil in Hibs; [|done].
    rewrite drop_seq in Hibs. apply (f_equal length) in Hibs. rewrite length_seq in Hibs.
    rewrite drop_ge by (simpl in Hibs; lia). rewrite chunks_nil_pos by done.
    rewrite Nat.mul_0_r. apply logs_mret.
  - destruct (decide (i * bs < N)) as [Hi|Hi].
    2:{ rewrite drop_ge in Hibs by (rewrite length_seq; lia).
        by rewrite chunks_nil_pos in Hibs. }
    rewrite chunks_cons_pos in Hibs
      by (done || (rewrite drop_seq; intros Hn%(f_equal length); rewrite length_seq in Hn; simpl in Hn; lia)).
    injection Hibs as Hc Hibs.
    destruct (batch_step_rows i Hi) as (nb & Hnb & Hnames & Hrows_nb).
    rewrite <- Hc in Hnb.
    assert (Hnext : drop bs (drop (i * bs) samples) = drop (S i * bs) samples)
      by (rewrite drop_drop; f_equal; lia).
    rewrite (chunks_cons_pos bs (drop (i * bs) samples)), Hnext
      by (done || (intros Hn%(f_equal length); rewrite length_drop in Hn; simpl in Hn; lia)).
    replace (map F (drop (i * bs) samples))
      with (map F (take bs (drop (i * bs) samples)) ++ map F (drop (S i * bs) samples))
      by (by rewrite <- map_app, <- Hnext, take_drop).
    eapply (logs_bind _ _ nb); [by apply logs_lift| |reflexivity|reflexivity].
    rewrite batch_samples_of_slice by done.
    eapply (logs_bind _ _ (map F (take bs (drop (i * bs) samples)))).
    + specialize (Hbody _ _ _ (eq_trans (batch_to_device_names _ _) Hnames) Hrows_nb).
      by rewrite zip_with_map_r in Hbody.
    + eapply (logs_bind _ _ (map F (drop (S i * bs) samples))); [|apply logs_mret|reflexivity|reflexivity].
      apply IH. rewrite Hibs. f_equal. rewrite drop_drop. f_equal. lia.
    + simpl. by rewrite app_nil_r.
    + simpl. rewrite Nat.mul_succ_r. lia.
Qed.

End Loop.

(** ** Calls to the model *)

Lemma check_kwargs_Ok (explicit : list string) (nb : NamedBatch) :
  Forall (fun n => n ∉ explicit) (map fst nb) -> check_kwargs explicit nb = Ok tt.
Proof.
  intros Hall. unfold check_kwargs.
  replace (existsb _ nb) with false; [done|]. symmetry.
  induction nb as [|[n t] nb IH]; simpl in *; [done|]. inversion Hall; subst.
  rewrite bool_decide_eq_false_2 by done. simpl. by apply IH.
Qed.

Lemma check_kwargs_Err (explicit : list string) (nb : NamedBatch) (n : string) :
  n ∈ map fst nb -> n ∈ explicit ->
  check_kwargs explicit nb = Err (TypeError "got multiple values for keyword argument").
Proof.
  intros Hn Hx. unfold check_kwargs.
  change (n ∈ fst <$> nb) in Hn. apply list_elem_of_fmap in Hn as ([n' t] & -> & Hin).
  replace (existsb _ nb) with true; [done|]. symmetry. apply existsb_exists.
  exists (n', t). split; [by apply list_elem_of_In|]. by apply bool_decide_eq_true.
Qed.

Lemma logs_record_forward (g tr : bool) (nb : NamedBatch) : logs (record (EvForward g tr nb)) tt [] 1.
Proof. apply logs_record. Qed.

Lemma logs_record_format (g : bool) (n : nat) : logs (record (EvFormat g n)) tt [n] 0.
Proof. apply logs_record. Qed.

Lemma logs_record_lm_format (g : bool) (s : string) (n : nat) (nb : NamedBatch) :
  logs (record (EvLMFormat g s n nb)) tt [n] 0.
Proof. apply logs_record. Qed.

Lemma inference_body_logs (self : Inferencer) (bsm : list Sample) (nb : NamedBatch)
    (ps : list Pred) :
  check_kwargs ["logits"; "label_maps"; "samples"; "tokenizer"] nb = Ok tt ->
  (logits ← forward (inf_model self) nb;
   formatted_preds (inf_model self) logits (label_maps (inf_processor self)) bsm
     (tokenizer (inf_processor self)) nb) = Ok ps ->
  logs (inference_body self bsm nb) ps [length bsm] 1.
Proof.
  intros Hk (logits & Hfw & Hfmt)%bind_Ok. unfold inference_body. apply logs_no_grad.
  apply (logs_bind _ _ logits ps [] [length bsm] [length bsm] 1 0 1); [| |reflexivity|reflexivity].
  - unfold call_forward. apply logs_get_world_bind. intros w.
    eapply logs_bind; [apply logs_record_forward|by apply logs_lift|reflexivity|reflexivity].
  - unfold call_formatted_preds. eapply (logs_bind _ _ tt); [by apply logs_lift| |reflexivity|reflexivity].
    apply logs_get_world_bind. intros w.
    eapply logs_bind; [apply logs_record_format|by apply logs_lift|reflexivity|reflexivity].
Qed.

Lemma extraction_body_logs (self : Inferencer) (strategy : string) (bsm : list Sample)
    (nb : NamedBatch) (ps : list Pred) :
  check_kwargs ["extraction_strategy"; "samples"; "tokenizer"] nb = Ok tt ->
  lm_formatted_preds (language_model (inf_model self)) strategy bsm (tokenizer (inf_processor self)) nb = Ok ps ->
  logs (extraction_body self strategy bsm nb) ps [length bsm] 0.
Proof.
  intros Hk Hfmt. unfold extraction_body. apply logs_no_grad.
  unfold call_lm_formatted_preds. eapply (logs_bind _ _ tt); [by apply logs_lift| |reflexivity|reflexivity].
  apply logs_get_world_bind. intros w.
  eapply logs_bind; [apply logs_record_lm_format|by apply logs_lift|reflexivity|reflexivity].
Qed.

Lemma inference_body_kwargs (self : Inferencer) (bsm : list Sample) (nb : NamedBatch) (n : string) :
  (forall nb', is_ok (forward (inf_model self) nb') = true) ->
  n ∈ map fst nb -> n ∈ ["logits"; "label_maps"; "samples"; "tokenizer"]%string ->
  raises (inference_body self bsm nb) (TypeError "got multiple values for keyword argument").
Proof.
  intros Hfw Hn Hx. unfold inference_body. apply raises_no_grad.
  specialize (Hfw nb). destruct (forward (inf_model self) nb) as [logits|] eqn:Hf; [|discriminate].
  apply (raises_bind_r _ _ logits).
  - unfold call_forward. apply returns_get_world_bind. intros w.
    apply (returns_bind _ _ tt); [done|]. by apply returns_lift.
  - unfold call_formatted_preds. apply raises_bind_l. intros w. simpl.
    by rewrite (check_kwargs_Err _ _ n Hn Hx).
Qed.

(** The set-up shared by both methods: dataset, samples, loader and index
    batches. *)
Lemma loader_setup (ds : TensorDataset) (names : list string) (bsz : Z) (n : nat) :
  (0 < bsz)%Z -> dataset_len ds = Ok n ->
  NamedDataLoader_new ds bsz names = Ok (mkLoader ds (Z.to_nat bsz) names) /\
  loader_index_batches (mkLoader ds (Z.to_nat bsz) names) =
    Ok (chunks (Z.to_nat bsz) (drop (0 * Z.to_nat bsz) (seq 0 n))).
Proof.
  intros Hbs Hn. unfold NamedDataLoader_new. destruct (Z.leb_spec bsz 0); [lia|]. split; [done|].
  unfold loader_index_batches. cbn [dl_dataset dl_batch_size]. rewrite Hn. simpl.
  unfold batch_sampler. rewrite batch_sampler_go_chunks by (simpl; lia). done.
Qed.

(** ** Refinement: the batched pipeline computes a per-sample map *)

Section Refinement.
Context (self : Inferencer).
Context {PL : ProcessorLaws (inf_processor self)}.

Lemma pipeline_logs (body : list Sample -> NamedBatch -> M (list Pred))
    (loop : NamedDataLoader -> list Sample -> nat -> list (list nat) -> M (list Pred))
    (h : Sample -> list Tensor -> Pred) (nfb : nat) (dicts : list dict) (ds : TensorDataset)
    (names : list string) (samples : list Sample) :
  (forall dl sm i ibs, loop dl sm i ibs = batch_loop self body dl sm i ibs) ->
  (0 < inf_batch_size self)%Z ->
  dataset_from_dicts (inf_processor self) dicts = Ok (ds, names) ->
  samples_of_dicts (inf_processor self) dicts = Ok samples ->
  (forall bsm nb rows, map fst nb = names -> mapM (batch_row nb) (seq 0 (length bsm)) = Ok rows ->
     logs (body bsm nb) (zip_with h bsm rows) [length bsm] nfb) ->
  logs (
    '(dataset, tensor_names) ← lift (dataset_from_dicts (inf_processor self) dicts);
    samples ← lift (samples_of_dicts (inf_processor self) dicts);
    dl ← lift (NamedDataLoader_new dataset (inf_batch_size self) tensor_names);
    ibs ← lift (loader_index_batches dl);
    loop dl samples 0 ibs)
  (map (fun s => h s (map (tensor_to (inf_device self)) (featurize s))) samples)
  (map length (chunks (Z.to_nat (inf_batch_size self)) samples))
  (nfb * length (chunks (Z.to_nat (inf_batch_size self)) samples)).
Proof.
  intros Hloop_eq Hbs Hds Hsm Hbody.
  destruct (dataset_aligned dicts ds names samples Hds Hsm) as (Hwf & Hlen & Hrows).
  destruct (loader_setup ds names (inf_batch_size self) (length samples) Hbs Hlen) as [Hdl Hibs].
  eapply (logs_bind _ _ (ds, names)); [by apply logs_lift| |reflexivity|reflexivity].
  eapply (logs_bind _ _ samples); [by apply logs_lift| |reflexivity|reflexivity].
  eapply (logs_bind _ _ (mkLoader ds (Z.to_nat (inf_batch_size self)) names));
    [by apply logs_lift| |reflexivity|reflexivity].
  eapply logs_bind; [by apply logs_lift, Hibs| |reflexivity|reflexivity].
  pose proof (batch_loop_logs self body h featurize ds names samples nfb Hwf Hrows Hbs Hbody
                _ 0 eq_refl) as Hloop.
  rewrite Nat.mul_0_l, !drop_0 in Hloop. intros w. rewrite Hloop_eq. apply Hloop.
Qed.

End Refinement.

Section Claims.
Context (self : Inferencer).
Context {PL : ProcessorLaws (inf_processor self)}.

Lemma run_inference_logs
    {MP : ModelPointwise (inf_model self) (label_maps (inf_processor self)) (tokenizer (inf_processor self))}
    (dicts : list dict) (ds : TensorDataset) (names : list string) (samples : list Sample)
    (t : string) :
  inf_prediction_type self = Some t -> t <> "embedder"%string -> (0 < inf_batch_size self)%Z ->
  dataset_from_dicts (inf_processor self) dicts = Ok (ds, names) ->
  samples_of_dicts (inf_processor self) dicts = Ok samples ->
  Forall (fun n => n ∉ ["logits"; "label_maps"; "samples"; "tokenizer"]%string) names ->
  logs (run_inference self dicts)
    (map (fun s => pred_of s (map (tensor_to (inf_device self)) (featurize s))) samples)
    (map length (chunks (Z.to_nat (inf_batch_size self)) samples))
    (length (chunks (Z.to_nat (inf_batch_size self)) samples)).
Proof.
  intros Hpt Ht Hbs Hds Hsm Hnames.
  eapply (logs_bind _ _ t); [apply logs_lift; unfold get_prediction_type; by rewrite Hpt| |reflexivity|reflexivity].
  apply String.eqb_neq in Ht. rewrite Ht.
  rewrite <- (Nat.mul_1_l (length (chunks _ samples))).
  apply (pipeline_logs self _ _ pred_of 1 dicts ds names samples
           (inference_loop_batch_loop self) Hbs Hds Hsm).
  intros bsm nb rows Hnb Hrows. apply inference_body_logs.
  - apply check_kwargs_Ok. by rewrite Hnb.
  - by apply forward_format_pointwise.
Qed.

Lemma extract_vectors_logs (strategy : string)
    {LP : LMPointwise (language_model (inf_model self)) strategy (tokenizer (inf_processor self))}
    (dicts : list dict) (ds : TensorDataset) (names : list string) (samples : list Sample) :
  (0 < inf_batch_size self)%Z ->
  dataset_from_dicts (inf_processor self) dicts = Ok (ds, names) ->
  samples_of_dicts (inf_processor self) dicts = Ok samples ->
  Forall (fun n => n ∉ ["extraction_strategy"; "samples"; "tokenizer"]%string) names ->
  logs (extract_vectors self dicts strategy)
    (map (fun s => vec_of s (map (tensor_to (inf_device self)) (featurize s))) samples)
    (map length (chunks (Z.to_nat (inf_batch_size self)) samples)) 0.
Proof.
  intros Hbs Hds Hsm Hnames.
  apply (pipeline_logs self _ _ vec_of 0 dicts ds names samples
           (extraction_loop_batch_loop self strategy) Hbs Hds Hsm).
  intros bsm nb rows Hnb Hrows. apply extraction_body_logs.
  - apply check_kwargs_Ok. by rewrite Hnb.
  - by apply lm_format_pointwise.
Qed.

(** C1: refinement of down-stream inference.  For a processor whose
    dataset rows are its featurised samples and a model that predicts per
    sample, [run_inference] returns one prediction per sample, in input
    order, each computed from that sample and its own row on the device:
    batching, the [samples[i*bs:(i+1)*bs]] slicing and the loader
    together pair every sample with its row. *)
Theorem run_inference_refines
    {MP : ModelPointwise (inf_model self) (label_maps (inf_processor self)) (tokenizer (inf_processor self))}
    (dicts : list dict) (ds : TensorDataset) (names : list string) (samples : list Sample)
    (t : string) (w : World) :
  inf_prediction_type self = Some t -> t <> "embedder"%string -> (0 < inf_batch_size self)%Z ->
  dataset_from_dicts (inf_processor self) dicts = Ok (ds, names) ->
  samples_of_dicts (inf_processor self) dicts = Ok samples ->
  Forall (fun n => n ∉ ["logits"; "label_maps"; "samples"; "tokenizer"]%string) names ->
  fst (run_inference self dicts w) =
    Ok (map (fun s => pred_of s (map (tensor_to (inf_device self)) (featurize s))) samples).
Proof. intros. by eapply returns_of_logs, run_inference_logs. Qed.

(** C2: refinement of vector extraction.  Whatever the prediction type
    (also when it was never set), [extract_vectors] returns one record per
    sample, in input order, each computed by the language model from that
    sample and its own row on the device. *)
Theorem extract_vectors_refines (strategy : string)
    {LP : LMPointwise (language_model (inf_model self)) strategy (tokenizer (inf_processor self))}
    (dicts : list dict) (ds : TensorDataset) (names : list string) (samples : list Sample)
    (w : World) :
  (0 < inf_batch_size self)%Z ->
  dataset_from_dicts (inf_processor self) dicts = Ok (ds, names) ->
  samples_of_dicts (inf_processor self) dicts = Ok samples ->
  Forall (fun n => n ∉ ["extraction_strategy"; "samples"; "tokenizer"]%string) names ->
  fst (extract_vectors self dicts strategy w) =
    Ok (map (fun s => vec_of s (map (tensor_to (inf_device self)) (featurize s))) samples).
Proof. intros. by eapply returns_of_logs, extract_vectors_logs. Qed.

(** C6: every sample is passed to the model (a progress property of the
    batch loop).  A successful [run_inference] appends to the trace
    exactly [ceil(N / batch_size)] forward passes, and its
    [formatted_preds] calls receive the batches' sample counts in order:
    [batch_size] each but the last, [N] in total. *)
Theorem run_inference_processes_all_samples
    {MP : ModelPointwise (inf_model self) (label_maps (inf_processor self)) (tokenizer (inf_processor self))}
    (dicts : list dict) (ds : TensorDataset) (names : list string) (samples : list Sample)
    (t : string) (w : World) :
  inf_prediction_type self = Some t -> t <> "embedder"%string -> (0 < inf_batch_size self)%Z ->
  dataset_from_dicts (inf_processor self) dicts = Ok (ds, names) ->
  samples_of_dicts (inf_processor self) dicts = Ok samples ->
  Forall (fun n => n ∉ ["logits"; "label_maps"; "samples"; "tokenizer"]%string) names ->
  exists evs, w_trace (snd (run_inference self dicts w)) = w_trace w ++ evs /\
    formatted_counts evs = map length (chunks (Z.to_nat (inf_batch_size self)) samples) /\
    sum_list (formatted_counts evs) = length samples /\
    forward_count evs = ceil_div (length samples) (Z.to_nat (inf_batch_size self)).
Proof.
  intros Hpt Ht Hbs Hds Hsm Hnames.
  destruct (run_inference_logs dicts ds names samples t Hpt Ht Hbs Hds Hsm Hnames w)
    as [_ (evs & Htr & Hc & Hn)].
  exists evs. rewrite Hc, Hn, sum_list_length_concat, concat_chunks, length_chunks by lia.
  by split_and!.
Qed.

(** C32: vector extraction passes every sample to the language model
    and never calls the adaptive model's forward pass: a successful
    [extract_vectors] appends one language-model formatting call per
    batch, with the batches' sample counts in order ([batch_size] each but
    the last, [N] in total), and no forward event. *)
Theorem extract_vectors_processes_all_samples (strategy : string)
    {LP : LMPointwise (language_model (inf_model self)) strategy (tokenizer (inf_processor self))}
    (dicts : list dict) (ds : TensorDataset) (names : list string) (samples : list Sample)
    (w : World) :
  (0 < inf_batch_size self)%Z ->
  dataset_from_dicts (inf_processor self) dicts = Ok (ds, names) ->
  samples_of_dicts (inf_processor self) dicts = Ok samples ->
  Forall (fun n => n ∉ ["extraction_strategy"; "samples"; "tokenizer"]%string) names ->
  exists evs, w_trace (snd (extract_vectors self dicts strategy w)) = w_trace w ++ evs /\
    formatted_counts evs = map length (chunks (Z.to_nat (inf_batch_size self)) samples) /\
    sum_list (formatted_counts evs) = length samples /\
    forward_count evs = 0.
Proof.
  intros Hbs Hds Hsm Hnames.
  destruct (extract_vectors_logs strategy dicts ds names samples Hbs Hds Hsm Hnames w)
    as [_ (evs & Htr & Hc & Hn)].
  exists evs. rewrite Hc, Hn, sum_list_length_concat, concat_chunks. by split_and!.
Qed.

End Claims.

Section Invariance.
Context (self : Inferencer) {PL : ProcessorLaws (inf_processor self)}.

(** C13: equivalence.  For a per-sample model, the output of
    [run_inference] does not depend on the batch size. *)
Theorem run_inference_batch_size_invariant
    {MP : ModelPointwise (inf_model self) (label_maps (inf_processor self)) (tokenizer (inf_processor self))}
    (dicts : list dict) (ds : TensorDataset) (names : list string) (samples : list Sample)
    (t : string) (b1 b2 : Z) (w1 w2 : World) :
  inf_prediction_type self = Some t -> t <> "embedder"%string -> (0 < b1)%Z -> (0 < b2)%Z ->
  dataset_from_dicts (inf_processor self) dicts = Ok (ds, names) ->
  samples_of_dicts (inf_processor self) dicts = Ok samples ->
  Forall (fun n => n ∉ ["logits"; "label_maps"; "samples"; "tokenizer"]%string) names ->
  fst (run_inference (with_batch_size self b1) dicts w1) =
  fst (run_inference (with_batch_size self b2) dicts w2).
Proof.
  intros Hpt Ht Hb1 Hb2 Hds Hsm Hnames.
  rewrite (returns_of_logs _ _ _ _ (run_inference_logs (with_batch_size self b1) dicts ds names samples t
             Hpt Ht Hb1 Hds Hsm Hnames)),
          (returns_of_logs _ _ _ _ (run_inference_logs (with_batch_size self b2) dicts ds names samples t
             Hpt Ht Hb2 Hds Hsm Hnames)).
  done.
Qed.

(** C33: equivalence.  The vectors [extract_vectors] returns do not depend
    on the batch size either, for a per-sample language model, and for
    any prediction type. *)
Theorem extract_vectors_batch_size_invariant (strategy : string)
    {LP : LMPointwise (language_model (inf_model self)) strategy (tokenizer (inf_processor self))}
    (dicts : list dict) (ds : TensorDataset) (names : list string) (samples : list Sample)
    (b1 b2 : Z) (w1 w2 : World) :
  (0 < b1)%Z -> (0 < b2)%Z ->
  dataset_from_dicts (inf_processor self) dicts = Ok (ds, names) ->
  samples_of_dicts (inf_processor self) dicts = Ok samples ->
  Forall (fun n => n ∉ ["extraction_strategy"; "samples"; "tokenizer"]%string) names ->
  fst (extract_vectors (with_batch_size self b1) dicts strategy w1) =
  fst (extract_vectors (with_batch_size self b2) dicts strategy w2).
Proof.
  intros Hb1 Hb2 Hds Hsm Hnames.
  rewrite (returns_of_logs _ _ _ _ (extract_vectors_logs (with_batch_size self b1) strategy dicts ds names
             samples Hb1 Hds Hsm Hnames)),
          (returns_of_logs _ _ _ _ (extract_vectors_logs (with_batch_size self b2) strategy dicts ds names
             samples Hb2 Hds Hsm Hnames)).
  done.
Qed.

End Invariance.

(** ** Errors of [run_inference] *)

(** C22: usage error.  On an embedder ([prediction_type == "embedder"]),
    [run_inference] raises the [TypeError] of line 108, naming the model
    path, before touching the processor or the model: the world, and so
    the trace of model calls, is unchanged. *)
Theorem run_inference_embedder (self : Inferencer) (dicts : list dict) (w : World) :
  inf_prediction_type self = Some "embedder"%string ->
  run_inference self dicts w = (Err (TypeError (run_inference_msg (inf_name self))), w).
Proof. intros Hpt. unfold run_inference, get_prediction_type. by rewrite Hpt. Qed.

(** C23: bounds on the batch size.  A batch size [<= 0] makes the
    [NamedDataLoader] raise [ValueError] once the dataset and samples are
    built, before any batch is fetched or any model call is made. *)
Theorem run_inference_batch_size_nonpositive (self : Inferencer) (dicts : list dict)
    (ds : TensorDataset) (names : list string) (samples : list Sample) (t : string) (w : World) :
  inf_prediction_type self = Some t -> t <> "embedder"%string -> (inf_batch_size self <= 0)%Z ->
  dataset_from_dicts (inf_processor self) dicts = Ok (ds, names) ->
  samples_of_dicts (inf_processor self) dicts = Ok samples ->
  run_inference self dicts w =
    (Err (ValueError "batch_size should be a positive integer value"), w).
Proof.
  intros Hpt Ht Hbs Hds Hsm. unfold run_inference.
  rewrite (get_prediction_type_Some _ _ Hpt), lift_bind_Ok.
  apply String.eqb_neq in Ht. rewrite Ht.
  rewrite Hds, lift_bind_Ok. cbv beta iota. rewrite Hsm, lift_bind_Ok.
  unfold NamedDataLoader_new. destruct (Z.leb_spec (inf_batch_size self) 0); [|lia].
  by rewrite lift_bind_Err.
Qed.

(** C35: composition with the feature converter at the empty boundary.
    For a processor that, as FARM's processors do, builds its dataset by
    [convert_features_to_dataset] over the features of its samples, input
    dicts yielding no sample make both [run_inference] (of a model that is
    not an embedder) and [extract_vectors] raise the converter's
    [IndexError] ([features[0]]) instead of returning no prediction, with
    the world, and so the trace of model calls, unchanged. *)
Theorem inference_no_samples (self : Inferencer) (feat : Sample -> dict) (dicts : list dict)
    (t strategy : string) (w : World) :
  inf_prediction_type self = Some t -> t <> "embedder"%string ->
  (forall ds, dataset_from_dicts (inf_processor self) ds =
     (samples ← samples_of_dicts (inf_processor self) ds;
      convert_features_to_dataset (map feat samples))) ->
  samples_of_dicts (inf_processor self) dicts = Ok [] ->
  run_inference self dicts w = (Err (IndexError "list index out of range"), w) /\
  extract_vectors self dicts strategy w = (Err (IndexError "list index out of range"), w).
Proof.
  intros Hpt Ht Hdfd Hsm.
  assert (Hds : dataset_from_dicts (inf_processor self) dicts = Err (IndexError "list index out of range"))
    by (by rewrite Hdfd, Hsm).
  split.
  - unfold run_inference. rewrite (get_prediction_type_Some _ _ Hpt), lift_bind_Ok.
    apply String.eqb_neq in Ht. rewrite Ht. by rewrite Hds, lift_bind_Err.
  - unfold extract_vectors. by rewrite Hds, lift_bind_Err.
Qed.

Section Collision.
Context (self : Inferencer) {PL : ProcessorLaws (inf_processor self)}.

(** C12: keyword collision (a case the spec leaves open).  The batch is
    passed as [**batch] next to the explicit keywords [logits],
    [label_maps], [samples] and [tokenizer] of [formatted_preds]: when a
    tensor name is one of them, the first batch raises [TypeError] after
    its forward pass, whatever the model, and [run_inference] returns no
    prediction. *)
Theorem run_inference_kwargs_collision (dicts : list dict) (ds : TensorDataset) (names : list string)
    (samples : list Sample) (t n : string) (w : World) :
  inf_prediction_type self = Some t -> t <> "embedder"%string -> (0 < inf_batch_size self)%Z ->
  dataset_from_dicts (inf_processor self) dicts = Ok (ds, names) ->
  samples_of_dicts (inf_processor self) dicts = Ok samples -> samples <> [] ->
  n ∈ names -> n ∈ ["logits"; "label_maps"; "samples"; "tokenizer"]%string ->
  (forall nb, is_ok (forward (inf_model self) nb) = true) ->
  fst (run_inference self dicts w) = Err (TypeError "got multiple values for keyword argument").
Proof.
  intros Hpt Ht Hbs Hds Hsm Hne Hn Hx Hfw. revert w.
  destruct (dataset_aligned dicts ds names samples Hds Hsm) as (Hwf & Hlen & Hrows).
  destruct (loader_setup ds names (inf_batch_size self) (length samples) Hbs Hlen) as [Hdl Hibs].
  rewrite Nat.mul_0_l, drop_0, chunks_cons_pos in Hibs
    by (lia || (intros Hs%(f_equal length); rewrite length_seq in Hs; by destruct samples)).
  unfold run_inference.
  apply (raises_bind_r _ _ t); [apply returns_lift; unfold get_prediction_type; by rewrite Hpt|].
  apply String.eqb_neq in Ht. rewrite Ht.
  apply (raises_bind_r _ _ (ds, names)); [by apply returns_lift|].
  apply (raises_bind_r _ _ samples); [by apply returns_lift|].
  apply (raises_bind_r _ _ (mkLoader ds (Z.to_nat (inf_batch_size self)) names));
    [by apply returns_lift, Hdl|].
  eapply raises_bind_r; [by apply returns_lift, Hibs|].
  rewrite inference_loop_batch_loop. simpl batch_loop.
  destruct (batch_step_rows self featurize ds names samples Hwf Hrows Hbs 0) as (nb & Hnb & Hnames & _).
  { destruct samples; [done|simpl; lia]. }
  rewrite Nat.mul_0_l, drop_0 in Hnb.
  apply (raises_bind_r _ _ nb); [by apply returns_lift|].
  apply raises_bind_l, (inference_body_kwargs _ _ _ n Hfw); [|done].
  by rewrite batch_to_device_names, Hnames.
Qed.

End Collision.

End Pipeline.

(** ** Witnesses: the claims at the concrete collaborators of [Instances] *)

Lemma run_inference_refines_witness :
  fst (run_inference toy_classifier toy_dicts toy_world) =
    Ok (map (fun s => toy_pred s (map (tensor_to CPU) (toy_featurize "padding_mask" s))) ["hello world"; "guten tag"; "ok"]%string).
Proof.
  eapply (run_inference_refines toy_classifier (PL := toy_processor_laws "padding_mask") (MP := toy_model_pointwise _ _ _)
            toy_dicts _ _ ["hello world"; "guten tag"; "ok"]%string "text_classification" toy_world).
  - reflexivity.
  - discriminate.
  - vm_compute. reflexivity.
  - reflexivity.
  - reflexivity.
  - apply (bool_decide_unpack _). vm_compute. reflexivity.
Defined.

Lemma extract_vectors_refines_witness :
  fst (extract_vectors toy_classifier toy_dicts "reduce_mean" toy_world) =
    Ok (map (fun s => toy_pred s (map (tensor_to CPU) (toy_featurize "padding_mask" s))) ["hello world"; "guten tag"; "ok"]%string).
Proof.
  eapply (extract_vectors_refines toy_classifier "reduce_mean" (PL := toy_processor_laws "padding_mask") (LP := toy_lm_pointwise "reduce_mean" tt)
            toy_dicts _ _ ["hello world"; "guten tag"; "ok"]%string toy_world).
  - vm_compute. reflexivity.
  - reflexivity.
  - reflexivity.
  - apply (bool_decide_unpack _). vm_compute. reflexivity.
Defined.

Lemma run_inference_processes_all_samples_witness :
  exists evs, w_trace (snd (run_inference toy_classifier toy_dicts toy_world)) = w_trace toy_world ++ evs /\
    formatted_counts evs = map length (chunks 2 ["hello world"; "guten tag"; "ok"]%string) /\
    sum_list (formatted_counts evs) = 3 /\ forward_count evs = ceil_div 3 2.
Proof.
  eapply (run_inference_processes_all_samples toy_classifier (PL := toy_processor_laws "padding_mask")
           (MP := toy_model_pointwise _ _ _) toy_dicts _ _ ["hello world"; "guten tag"; "ok"]%string
           "text_classification" toy_world).
  - reflexivity.
  - discriminate.
  - reflexivity.
  - vm_compute. reflexivity.
  - reflexivity.
  - apply (bool_decide_unpack _). vm_compute. reflexivity.
Defined.

Lemma run_inference_batch_size_invariant_witness :
  fst (run_inference (with_batch_size toy_classifier 1) toy_dicts toy_world) =
  fst (run_inference (with_batch_size toy_classifier 3) toy_dicts toy_world).
Proof.
  eapply (run_inference_batch_size_invariant toy_classifier (PL := toy_processor_laws "padding_mask")
            (MP := toy_model_pointwise _ _ _) toy_dicts _ _ ["hello world"; "guten tag"; "ok"]%string
            "text_classification" 1 3 toy_world toy_world).
  - reflexivity.
  - discriminate.
  - lia.
  - lia.
  - vm_compute. reflexivity.
  - reflexivity.
  - apply (bool_decide_unpack _). vm_compute. reflexivity.
Defined.

Lemma run_inference_embedder_witness :
  run_inference toy_embedder toy_dicts toy_world =
    (Err (TypeError (run_inference_msg "saved_models/lm")), toy_world).
Proof. apply (run_inference_embedder toy_embedder toy_dicts toy_world). reflexivity. Defined.

Lemma run_inference_batch_size_nonpositive_witness :
  run_inference (with_batch_size toy_classifier 0) toy_dicts toy_world =
    (Err (ValueError "batch_size should be a positive integer value"), toy_world).
Proof.
  eapply (run_inference_batch_size_nonpositive (with_batch_size toy_classifier 0) toy_dicts _ _
            ["hello world"; "guten tag"; "ok"]%string "text_classification" toy_world).
  - reflexivity.
  - discriminate.
  - simpl. lia.
  - vm_compute. reflexivity.
  - reflexivity.
Defined.

Lemma run_inference_kwargs_collision_witness :
  fst (run_inference toy_clash_classifier toy_dicts toy_world) =
    Err (TypeError "got multiple values for keyword argument").
Proof.
  eapply (run_inference_kwargs_collision toy_clash_classifier (PL := toy_processor_laws "samples")
            toy_dicts _ _ ["hello world"; "guten tag"; "ok"]%string "text_classification" "samples"
            toy_world).
  - reflexivity.
  - discriminate.
  - reflexivity.
  - vm_compute. reflexivity.
  - reflexivity.
  - discriminate.
  - apply (bool_decide_unpack _). vm_compute. reflexivity.
  - apply (bool_decide_unpack _). vm_compute. reflexivity.
  - reflexivity.
Defined.

Lemma extract_vectors_processes_all_samples_witness :
  exists evs, w_trace (snd (extract_vectors toy_classifier toy_dicts "reduce_mean" toy_world)) =
      w_trace toy_world ++ evs /\
    formatted_counts evs = map length (chunks 2 ["hello world"; "guten tag"; "ok"]%string) /\
    sum_list (formatted_counts evs) = 3 /\ forward_count evs = 0.
Proof.
  eapply (extract_vectors_processes_all_samples toy_classifier "reduce_mean"
            (PL := toy_processor_laws "padding_mask") (LP := toy_lm_pointwise "reduce_mean" tt)
            toy_dicts _ _ ["hello world"; "guten tag"; "ok"]%string toy_world).
  - vm_compute. reflexivity.
  - reflexivity.
  - reflexivity.
  - apply (bool_decide_unpack _). vm_compute. reflexivity.
Defined.

Lemma inference_no_samples_witness :
  run_inference toy_classifier [] toy_world = (Err (IndexError "list index out of range"), toy_world) /\
  extract_vectors toy_classifier [] "reduce_mean" toy_world =
    (Err (IndexError "list index out of range"), toy_world).
Proof.
  apply (inference_no_samples toy_classifier (toy_features "padding_mask") [] "text_classification"
           "reduce_mean" toy_world).
  - reflexivity.
  - discriminate.
  - intros ds. reflexivity.
  - reflexivity.
Defined.

Lemma extract_vectors_batch_size_invariant_witness :
  fst (extract_vectors (with_batch_size toy_embedder 1) toy_dicts "reduce_mean" toy_world) =
  fst (extract_vectors (with_batch_size toy_embedder 3) toy_dicts "reduce_mean" toy_world).
Proof.
  eapply (extract_vectors_batch_size_invariant toy_embedder "reduce_mean"
            (PL := toy_processor_laws "padding_mask") (LP := toy_lm_pointwise "reduce_mean" tt)
            toy_dicts _ _ ["hello world"; "guten tag"; "ok"]%string 1 3 toy_world toy_world).
  - lia.
  - lia.
  - vm_compute. reflexivity.
  - reflexivity.
  - apply (bool_decide_unpack _). vm_compute. reflexivity.
Defined.

