(* ===== verification/Construction.v ===== *)
(** * Construction and loading of an [Inferencer]

    [Inferencer_init] ([__init__], infer.py 36-71) and [Inferencer_load]
    ([load], 73-97): the prediction type, label map and name chosen for
    zero, one and several prediction heads, the effects on the world
    (eval mode, reseed, no model call), [load] as the constructor with
    the directory's [os.path.basename] as name, and the errors of [load]
    in the order it loads the model and the processor. *)

From Stdlib Require Import Ascii.
From S2P Require Import Prelude PyData Tensor Dataset Loader Collab Inferencer Instances MonadFacts.

Section Construction.
Context {Sample LabelMap Tokenizer Logits Pred : Type}.

Local Abbreviation Inferencer := (@Inferencer Sample LabelMap Tokenizer Logits Pred).

(** ** Definitions *)

(** The device [initialize_device_settings(use_cuda=gpu, local_rank=-1)]
    picks. *)
Definition device_for (gpu : bool) (w : World) : Device :=
  if gpu && w_cuda_available w then CUDA else CPU.

(** ** The world after construction *)

(** Whatever the heads, a successful construction leaves the model in
    eval mode, the grad mode and the trace as they were, and the seed at
    42; the inferencer holds the model it was given. *)
Lemma Inferencer_init_world (model : AdaptiveModel Sample LabelMap Tokenizer Logits Pred)
    (processor : Processor Sample LabelMap Tokenizer) (bs : Z) (gpu : bool) (name : option string)
    (w w1 : World) (self : Inferencer) :
  Inferencer_init model processor bs gpu name w = (Ok self, w1) ->
  w_training w1 = false /\ w_grad_enabled w1 = w_grad_enabled w /\ w_seed w1 = Some 42%Z /\
  w_trace w1 = w_trace w /\ inf_model self = model /\ inf_processor self = processor.
Proof.
  intros H. destruct w as [sd csd tr gr cav dc trace].
  unfold Inferencer_init, mbind, M_bind, initialize_device_settings, model_eval, lift,
    set_all_seeds, mret, M_ret in H. cbn in H.
  destruct (prediction_type_of model processor) as [[pt lm]|e]; cbn in H;
    [destruct (display_name name pt) as [nm|e]|]; destruct gpu, cav; cbn in H; try discriminate;
    injection H as <- <-; cbn; by split_and!.
Qed.

(** ** Loading *)

(** A successful [load] is a successful construction from the model and
    processor it loaded, named after the directory, in the same world. *)
Lemma Inferencer_load_Ok_inv
    (AL : string -> Device -> Result (AdaptiveModel Sample LabelMap Tokenizer Logits Pred))
    (PLd IPLd : string -> Result (Processor Sample LabelMap Tokenizer))
    (dir : string) (bs : Z) (gpu eo : bool) (w w1 : World) (self : Inferencer) :
  Inferencer_load AL PLd IPLd dir bs gpu eo w = (Ok self, w1) ->
  exists m p, Inferencer_init m p bs gpu (Some (basename dir)) w = (Ok self, w1).
Proof.
  unfold Inferencer_load, mbind, M_bind, initialize_device_settings, lift. cbn.
  destruct (if negb gpu then _ else _) as [dev n_gpu]. cbn.
  destruct (AL dir dev) as [m|e]; cbn; [|discriminate].
  destruct (if eo then IPLd dir else PLd dir) as [p|e]; cbn; [eauto|discriminate].
Qed.

Lemma has_slash_app_slash (a b : string) : has_slash (a ++ String "/"%char b) = true.
Proof. induction a as [|c a IH]; simpl; [done|]. by rewrite IH, orb_true_r. Qed.

Lemma basename_no_slash (b : string) : has_slash b = false -> basename b = b.
Proof.
  destruct b as [|c b]; [done|]. simpl. intros [Hc Hb]%orb_false_iff. by rewrite Hb, Hc.
Qed.

(** ** Claims *)

(** C21: an [AdaptiveModel] without prediction heads gives an embedder:
    [prediction_type] is ["embedder"], no label map, the name defaults to
    ["anonymous-embedder"]; construction puts the shared model in eval
    mode, reseeds with 42 and makes no model call. *)
Theorem Inferencer_init_embedder (model : AdaptiveModel Sample LabelMap Tokenizer Logits Pred)
    (processor : Processor Sample LabelMap Tokenizer) (bs : Z) (gpu : bool) (name : option string)
    (w : World) :
  prediction_heads model = [] ->
  exists inf w', Inferencer_init model processor bs gpu name w = (Ok inf, w') /\
    inf_prediction_type inf = Some "embedder"%string /\ inf_label_map inf = None /\
    inf_name inf = match name with Some n => n | None => "anonymous-embedder"%string end /\
    inf_device inf = device_for gpu w /\ inf_batch_size inf = bs /\
    w_training w' = false /\ w_seed w' = Some 42%Z /\ w_trace w' = w_trace w.
Proof.
  intros Hh. destruct w as [sd csd tr gr cav dc trace]. unfold Inferencer_init, prediction_type_of, device_for.
  rewrite Hh. destruct name, gpu, cav; cbn; eauto 20.
Qed.

(** C20: with exactly one prediction head, [prediction_type] is that
    head's [model_type] and [label_map] is the processor's first label
    map; the name defaults to ["anonymous-" ++ model_type]; the model is
    put in eval mode and the seeds set to 42.  Without any label map,
    [label_maps[0]] raises [IndexError] after [model.eval()] and before
    the reseed. *)
Theorem Inferencer_init_single_head (model : AdaptiveModel Sample LabelMap Tokenizer Logits Pred)
    (processor : Processor Sample LabelMap Tokenizer) (bs : Z) (gpu : bool) (name : option string)
    (h : PredictionHead) (w : World) :
  prediction_heads model = [h] ->
  (forall lm lms, label_maps processor = lm :: lms ->
    exists inf w', Inferencer_init model processor bs gpu name w = (Ok inf, w') /\
      inf_prediction_type inf = Some (model_type h) /\ inf_label_map inf = Some lm /\
      inf_name inf = match name with Some n => n | None => ("anonymous-" ++ model_type h)%string end /\
      w_training w' = false /\ w_seed w' = Some 42%Z /\ w_trace w' = w_trace w) /\
  (label_maps processor = [] ->
    exists w', Inferencer_init model processor bs gpu name w =
                 (Err (IndexError "list index out of range"), w') /\
      w_training w' = false /\ w_seed w' = w_seed w).
Proof.
  intros Hh. destruct w as [sd csd tr gr cav dc trace].
  unfold Inferencer_init, prediction_type_of. rewrite Hh. split.
  - intros lm lms Hlm. rewrite Hlm. destruct name, gpu, cav; cbn; eauto 20.
  - intros Hlm. rewrite Hlm. destruct gpu, cav; cbn; eauto 20.
Qed.

(** C11: more than one prediction head (the case the code leaves open):
    [prediction_type] is never assigned.  Without a name, building
    ["anonymous-{self.prediction_type}"] raises [AttributeError] after
    the model was switched to eval mode and before the reseed; with a
    name, construction succeeds and every later [run_inference] raises
    [AttributeError] without calling the model. *)
Theorem Inferencer_init_multi_head (model : AdaptiveModel Sample LabelMap Tokenizer Logits Pred)
    (processor : Processor Sample LabelMap Tokenizer) (bs : Z) (gpu : bool) (w : World) :
  2 <= length (prediction_heads model) ->
  (exists w', Inferencer_init model processor bs gpu None w =
                (Err (AttributeError "prediction_type"), w') /\
     w_training w' = false /\ w_seed w' = w_seed w /\ w_trace w' = w_trace w) /\
  (forall n, exists inf w', Inferencer_init model processor bs gpu (Some n) w = (Ok inf, w') /\
     inf_prediction_type inf = None /\ inf_name inf = n /\
     forall dicts w'', run_inference inf dicts w'' = (Err (AttributeError "prediction_type"), w'')).
Proof.
  intros Hh. destruct w as [sd csd tr gr cav dc trace].
  unfold Inferencer_init, prediction_type_of.
  destruct (prediction_heads model) as [|h1 [|h2 hs]]; simpl in Hh; [lia|lia|]. cbn.
  split.
  - destruct gpu, cav; cbn; eauto 20.
  - intros n. destruct gpu, cav; cbn; (eexists _, _; split_and!; [reflexivity|done|done|done]).
Qed.

(** C28: [os.path.basename].  The name [load] gives is what follows the
    last ["/"] of the directory: a path without ["/"] is its own name, and
    [a/b] with [b] free of ["/"] is named [b], so a directory given with a
    trailing ["/"] gets the empty name. *)
Theorem basename_spec (b : string) :
  has_slash b = false ->
  basename b = b /\ forall a, basename (a ++ String "/"%char b) = b.
Proof.
  intros Hb. split; [by apply basename_no_slash|].
  intros a. induction a as [|c a IH]; simpl.
  - by rewrite Hb.
  - by rewrite has_slash_app_slash.
Qed.

(** C26: refinement of [Inferencer.load].  Once the model is loaded on
    the device [initialize_device_settings] picks and the processor (the
    inference processor when [embedder_only]) from the same directory,
    [load] is the constructor called with the batch size and GPU flag it
    was given and the directory's basename as name, in the same world. *)
Theorem Inferencer_load_spec
    (AL : string -> Device -> Result (AdaptiveModel Sample LabelMap Tokenizer Logits Pred))
    (PLd IPLd : string -> Result (Processor Sample LabelMap Tokenizer))
    (dir : string) (bs : Z) (gpu eo : bool)
    (m : AdaptiveModel Sample LabelMap Tokenizer Logits Pred) (p : Processor Sample LabelMap Tokenizer)
    (w : World) :
  AL dir (device_for gpu w) = Ok m ->
  (if eo then IPLd dir else PLd dir) = Ok p ->
  Inferencer_load AL PLd IPLd dir bs gpu eo w = Inferencer_init m p bs gpu (Some (basename dir)) w.
Proof.
  intros Hm Hp. unfold Inferencer_load, device_for in *. unfold mbind, M_bind at 1. simpl.
  destruct gpu; simpl in Hm |- *; [destruct (w_cuda_available w)|]; unfold M_bind, lift;
    rewrite Hm; by rewrite Hp.
Qed.

(** C27: errors of [Inferencer.load], in the order of the code.  A model
    that fails to load raises its error before any processor is read; a
    processor (the inference processor when [embedder_only]) that fails
    to load raises its error; either way the constructor is never reached,
    so the world is unchanged: no eval mode, no reseed, no model call. *)
Theorem Inferencer_load_errors
    (AL : string -> Device -> Result (AdaptiveModel Sample LabelMap Tokenizer Logits Pred))
    (PLd IPLd : string -> Result (Processor Sample LabelMap Tokenizer))
    (dir : string) (bs : Z) (gpu eo : bool) (w : World) (e : Exc) :
  (AL dir (device_for gpu w) = Err e ->
     Inferencer_load AL PLd IPLd dir bs gpu eo w = (Err e, w)) /\
  (forall m, AL dir (device_for gpu w) = Ok m -> (if eo then IPLd dir else PLd dir) = Err e ->
     Inferencer_load AL PLd IPLd dir bs gpu eo w = (Err e, w)).
Proof.
  unfold Inferencer_load, device_for, mbind, M_bind, initialize_device_settings, lift. cbn.
  split; [intros Hm|intros m Hm Hp];
    destruct gpu, (w_cuda_available w); cbn in Hm |- *; rewrite Hm; cbn; rewrite ?Hp; done.
Qed.

End Construction.

(** ** Witnesses *)

Lemma Inferencer_init_embedder_witness :
  exists inf w', Inferencer_init (toy_model []) toy_processor 2 false None toy_world = (Ok inf, w') /\
    inf_prediction_type inf = Some "embedder"%string /\ inf_label_map inf = None /\
    inf_name inf = "anonymous-embedder"%string /\
    inf_device inf = device_for false toy_world /\ inf_batch_size inf = 2%Z /\
    w_training w' = false /\ w_seed w' = Some 42%Z /\ w_trace w' = w_trace toy_world.
Proof. apply (Inferencer_init_embedder (toy_model []) toy_processor 2 false None toy_world). reflexivity. Defined.

Lemma Inferencer_init_single_head_witness :
  exists inf w', Inferencer_init (toy_model [mkHead "ner"]) toy_processor 2 true None toy_world = (Ok inf, w') /\
    inf_prediction_type inf = Some "ner"%string /\ inf_label_map inf = Some ["negative"; "positive"]%string /\
    inf_name inf = "anonymous-ner"%string /\
    w_training w' = false /\ w_seed w' = Some 42%Z /\ w_trace w' = w_trace toy_world.
Proof.
  apply (proj1 (Inferencer_init_single_head (toy_model [mkHead "ner"]) toy_processor 2 true None
                  (mkHead "ner") toy_world eq_refl) ["negative"; "positive"]%string []).
  reflexivity.
Defined.

Lemma Inferencer_init_multi_head_witness :
  (exists w', Inferencer_init (toy_model [mkHead "text_classification"; mkHead "ner"]) toy_processor 2 false
                None toy_world = (Err (AttributeError "prediction_type"), w') /\
     w_training w' = false /\ w_seed w' = w_seed toy_world /\ w_trace w' = w_trace toy_world) /\
  (forall n, exists inf w', Inferencer_init (toy_model [mkHead "text_classification"; mkHead "ner"])
                              toy_processor 2 false (Some n) toy_world = (Ok inf, w') /\
     inf_prediction_type inf = None /\ inf_name inf = n /\
     forall dicts w'', run_inference inf dicts w'' = (Err (AttributeError "prediction_type"), w'')).
Proof.
  apply (Inferencer_init_multi_head (toy_model [mkHead "text_classification"; mkHead "ner"])
           toy_processor 2 false toy_world).
  simpl. lia.
Defined.

Lemma basename_spec_witness :
  basename ("saved_models/ner" ++ String "/"%char "") = ""%string.
Proof. apply (proj2 (basename_spec "" eq_refl)). Defined.

Lemma Inferencer_load_spec_witness :
  Inferencer_load (fun _ _ => Ok (toy_model [mkHead "text_classification"]))
    (fun _ => Ok toy_processor) (fun _ => Ok toy_processor) "saved_models/ner/" 2 false false toy_world =
  Inferencer_init (toy_model [mkHead "text_classification"]) toy_processor 2 false
    (Some (basename "saved_models/ner/")) toy_world.
Proof. apply Inferencer_load_spec; reflexivity. Defined.

Lemma Inferencer_load_errors_witness :
  Inferencer_load (fun _ _ => @Err (AdaptiveModel string (list string) unit NamedBatch (string * list Tensor))
                                 (LoadError "no model file")) (fun _ => Ok toy_processor)
    (fun _ => Ok toy_processor) "saved_models/none" 4 false false toy_world =
    (Err (LoadError "no model file"), toy_world) /\
  Inferencer_load (fun _ _ => Ok (toy_model [])) (fun _ => Err (LoadError "no processor config"))
    (fun _ => Ok toy_processor) "saved_models/lm" 4 false false toy_world =
    (Err (LoadError "no processor config"), toy_world).
Proof.
  split.
  - apply (Inferencer_load_errors _ _ _ _ _ _ _ _ _). reflexivity.
  - apply (proj2 (Inferencer_load_errors _ _ _ _ _ _ _ _ _) (toy_model [])); reflexivity.
Defined.

