(* ===== verification/Effects.v ===== *)
(** * Effects of the [Inferencer] methods on the world

    What [run_inference] and [extract_vectors] do to the state they
    share with the rest of the process: torch's grad mode (restored by
    the [no_grad] scope), the trace of model calls (each made without
    gradients, in the training mode found, on the inferencer's device),
    and the seed (untouched).  A session of an inferencer is modelled as a
    step relation: [session self w0 w] holds when [w] is reached from
    [w0] by constructing [self] (with [__init__] or [load]) and then
    calling its methods in any order; the invariant of a session is
    proved by induction on it. *)

From S2P Require Import Prelude PyData Tensor Dataset Loader Collab Inferencer Instances MonadFacts Pipeline Construction.

Section Effects.
Context {Sample LabelMap Tokenizer Logits Pred : Type}.

Local Abbreviation Inferencer := (@Inferencer Sample LabelMap Tokenizer Logits Pred).

(** ** Sessions *)

(** The worlds reachable from [w0] by constructing [self] with
    [Inferencer.__init__] and then calling [run_inference] and
    [extract_vectors] any number of times, in any order, returning or
    raising. *)
Inductive session (self : Inferencer) (w0 : World) : World -> Prop :=
| session_init (model : AdaptiveModel Sample LabelMap Tokenizer Logits Pred)
    (processor : Processor Sample LabelMap Tokenizer) (bs : Z) (gpu : bool) (name : option string)
    (w1 : World) :
    Inferencer_init model processor bs gpu name w0 = (Ok self, w1) -> session self w0 w1
| session_load (AL : string -> Device -> Result (AdaptiveModel Sample LabelMap Tokenizer Logits Pred))
    (PLd IPLd : string -> Result (Processor Sample LabelMap Tokenizer))
    (dir : string) (bs : Z) (gpu eo : bool) (w1 : World) :
    Inferencer_load AL PLd IPLd dir bs gpu eo w0 = (Ok self, w1) -> session self w0 w1
| session_run (w : World) (dicts : list dict) :
    session self w0 w -> session self w0 (snd (run_inference self dicts w))
| session_extract (w : World) (dicts : list dict) (strategy : string) :
    session self w0 w -> session self w0 (snd (extract_vectors self dicts strategy w)).

(** ** Grad mode and independence from the world *)

Lemma keeps_grad_batch_loop (self : Inferencer) (body : list Sample -> NamedBatch -> M (list Pred))
    (dl : NamedDataLoader) (samples : list Sample) (i : nat) (ibs : list (list nat)) :
  (forall bsm nb, keeps_grad (body bsm nb)) -> keeps_grad (batch_loop self body dl samples i ibs).
Proof.
  intros Hbody. revert i. induction ibs as [|c ibs IH]; intros i; simpl; [done|].
  apply keeps_grad_bind; [done|intros nb]. apply keeps_grad_bind; [done|intros preds].
  apply keeps_grad_bind; [done|intros rest]. done.
Qed.

(** The set-up of both methods followed by a grad-preserving loop. *)
Lemma keeps_grad_pipeline (self : Inferencer) (dicts : list dict)
    (loop : NamedDataLoader -> list Sample -> nat -> list (list nat) -> M (list Pred)) :
  (forall dl sm i ibs, keeps_grad (loop dl sm i ibs)) ->
  keeps_grad (
    '(dataset, tensor_names) ← lift (dataset_from_dicts (inf_processor self) dicts);
    samples ← lift (samples_of_dicts (inf_processor self) dicts);
    dl ← lift (NamedDataLoader_new dataset (inf_batch_size self) tensor_names);
    ibs ← lift (loader_index_batches dl);
    loop dl samples 0 ibs).
Proof.
  intros Hloop. apply keeps_grad_bind; [done|intros [ds names]].
  apply keeps_grad_bind; [done|intros samples].
  apply keeps_grad_bind; [done|intros dl].
  apply keeps_grad_bind; [done|intros ibs]. apply Hloop.
Qed.

(** ** Model calls recorded in the trace *)

Lemma emits_batch_loop (Q : bool -> bool -> Event -> Prop) (self : Inferencer)
    (body : list Sample -> NamedBatch -> M (list Pred)) (dl : NamedDataLoader)
    (samples : list Sample) (i : nat) (ibs : list (list nat)) :
  (forall bsm nb, on_device (inf_device self) nb -> emits Q (body bsm nb)) ->
  emits Q (batch_loop self body dl samples i ibs).
Proof.
  intros Hbody. revert i. induction ibs as [|c ibs IH]; intros i; simpl; [by apply emits_pure|].
  apply emits_bind; [by apply emits_pure|intros nb].
  apply emits_bind; [|intros preds; apply emits_bind; [done|intros rest; by apply emits_pure]].
  apply Hbody. unfold on_device, batch_to_device. apply Forall_map, Forall_forall. done.
Qed.

Lemma emits_inference_body (self : Inferencer) (bsm : list Sample) (nb : NamedBatch) :
  on_device (inf_device self) nb ->
  emits (fun tr _ => event_ok (inf_device self) tr false) (inference_body self bsm nb).
Proof.
  intros Hdev. unfold inference_body. apply emits_no_grad.
  apply emits_bind; [|intros logits].
  - unfold call_forward. apply emits_read. intros u.
    apply emits_bind; [apply emits_record; intros w ? ?; by subst|intros []; by apply emits_pure].
  - unfold call_formatted_preds. apply emits_bind; [by apply emits_pure|intros []].
    apply emits_read. intros u.
    apply emits_bind; [apply emits_record; intros w ? ?; by subst|intros []; by apply emits_pure].
Qed.

Lemma emits_extraction_body (self : Inferencer) (strategy : string) (bsm : list Sample)
    (nb : NamedBatch) :
  on_device (inf_device self) nb ->
  emits (fun tr _ => event_ok (inf_device self) tr false) (extraction_body self strategy bsm nb).
Proof.
  intros Hdev. unfold extraction_body. apply emits_no_grad.
  unfold call_lm_formatted_preds. apply emits_bind; [by apply emits_pure|intros []].
  apply emits_read. intros u.
  apply emits_bind; [apply emits_record; intros w ? ?; by subst|intros []; by apply emits_pure].
Qed.

Lemma emits_pipeline (Q : bool -> bool -> Event -> Prop) (self : Inferencer) (dicts : list dict)
    (loop : NamedDataLoader -> list Sample -> nat -> list (list nat) -> M (list Pred)) :
  (forall dl sm i ibs, emits Q (loop dl sm i ibs)) ->
  emits Q (
    '(dataset, tensor_names) ← lift (dataset_from_dicts (inf_processor self) dicts);
    samples ← lift (samples_of_dicts (inf_processor self) dicts);
    dl ← lift (NamedDataLoader_new dataset (inf_batch_size self) tensor_names);
    ibs ← lift (loader_index_batches dl);
    loop dl samples 0 ibs).
Proof.
  intros Hloop. apply emits_bind; [by apply emits_pure|intros [ds names]].
  apply emits_bind; [by apply emits_pure|intros samples].
  apply emits_bind; [by apply emits_pure|intros dl].
  apply emits_bind; [by apply emits_pure|intros ibs]. apply Hloop.
Qed.

Lemma emits_run_inference (self : Inferencer) (dicts : list dict) :
  emits (fun tr _ => event_ok (inf_device self) tr false) (run_inference self dicts).
Proof.
  unfold run_inference. apply emits_bind; [by apply emits_pure|intros pt].
  destruct (String.eqb pt "embedder"); [by apply emits_pure|].
  apply emits_pipeline. intros dl sm i ibs. rewrite inference_loop_batch_loop.
  apply emits_batch_loop. apply emits_inference_body.
Qed.

Lemma emits_extract_vectors (self : Inferencer) (dicts : list dict) (strategy : string) :
  emits (fun tr _ => event_ok (inf_device self) tr false) (extract_vectors self dicts strategy).
Proof.
  unfold extract_vectors. apply emits_pipeline. intros dl sm i ibs.
  rewrite extraction_loop_batch_loop.
  apply emits_batch_loop. apply emits_extraction_body.
Qed.

(** One method call preserves the invariant of a session. *)
(** The invariant holds right after a successful construction. *)
Lemma session_inv_init (model : AdaptiveModel Sample LabelMap Tokenizer Logits Pred)
    (processor : Processor Sample LabelMap Tokenizer) (bs : Z) (gpu : bool) (name : option string)
    (self : Inferencer) (w0 w1 : World) :
  Inferencer_init model processor bs gpu name w0 = (Ok self, w1) ->
  w_training w1 = false /\ w_grad_enabled w1 = w_grad_enabled w0 /\ w_seed w1 = Some 42%Z /\
  exists evs, w_trace w1 = w_trace w0 ++ evs /\ Forall (event_ok (inf_device self) false false) evs.
Proof.
  intros Hinit. destruct (Inferencer_init_world _ _ _ _ _ _ _ _ Hinit) as (Htr & Hg & Hs & Htrace & _).
  split_and!; [done..|]. exists []. by rewrite Htrace, app_nil_r.
Qed.

Lemma session_inv_step {A} (self : Inferencer) (m : M A) (w0 w : World) :
  emits (fun tr _ => event_ok (inf_device self) tr false) m ->
  w_training w = false /\ w_grad_enabled w = w_grad_enabled w0 /\ w_seed w = Some 42%Z /\
  (exists evs, w_trace w = w_trace w0 ++ evs /\ Forall (event_ok (inf_device self) false false) evs) ->
  let w' := snd (m w) in
  w_training w' = false /\ w_grad_enabled w' = w_grad_enabled w0 /\ w_seed w' = Some 42%Z /\
  exists evs, w_trace w' = w_trace w0 ++ evs /\ Forall (event_ok (inf_device self) false false) evs.
Proof.
  intros Hm (Htr & Hg & Hs & evs & Htrace & Hevs). cbv zeta.
  destruct (Hm w) as (evs' & Htrace' & Hevs' & Htr' & Hg' & Hs'). cbv beta in Hevs'.
  rewrite Htr in Hevs'. split_and!; [congruence..|].
  exists (evs ++ evs'). rewrite Htrace', Htrace, app_assoc. split; [done|]. by apply Forall_app.
Qed.

(** ** Claims *)

(** C10: [with torch.no_grad()] is scoped: after [run_inference] or
    [extract_vectors], returned or raised, torch's grad mode is what it
    was before the call. *)
Theorem inference_restores_grad_mode (self : Inferencer) (dicts : list dict) (strategy : string)
    (w : World) :
  w_grad_enabled (snd (run_inference self dicts w)) = w_grad_enabled w /\
  w_grad_enabled (snd (extract_vectors self dicts strategy w)) = w_grad_enabled w.
Proof.
  split; revert w.
  - unfold run_inference. apply keeps_grad_bind; [done|intros pt].
    destruct (String.eqb pt "embedder"); [done|].
    apply keeps_grad_pipeline. intros dl sm i ibs. rewrite inference_loop_batch_loop.
    apply keeps_grad_batch_loop. intros; apply keeps_grad_no_grad.
  - unfold extract_vectors. apply keeps_grad_pipeline. intros dl sm i ibs.
    rewrite extraction_loop_batch_loop.
    apply keeps_grad_batch_loop. intros; apply keeps_grad_no_grad.
Qed.

(** C9: safety of the model calls.  Whatever the outcome, every call
    [run_inference] and [extract_vectors] make to the model ([forward],
    [formatted_preds], [language_model.formatted_preds]) happens with
    gradients disabled, with the model's training flag as it was before
    the call (eval mode after construction), and on a batch whose tensors
    all are on the inferencer's device; nothing else is appended to the
    trace. *)
Theorem model_calls_no_grad_on_device (self : Inferencer) (dicts : list dict) (strategy : string)
    (w : World) :
  (exists evs, w_trace (snd (run_inference self dicts w)) = w_trace w ++ evs /\
     Forall (event_ok (inf_device self) (w_training w) false) evs) /\
  (exists evs, w_trace (snd (extract_vectors self dicts strategy w)) = w_trace w ++ evs /\
     Forall (event_ok (inf_device self) (w_training w) false) evs).
Proof.
  split; [destruct (emits_run_inference self dicts w) as (evs & ? & ? & _)
         |destruct (emits_extract_vectors self dicts strategy w) as (evs & ? & ? & _)]; eauto.
Qed.

(** C5: the invariant of a session.  In every world reachable by
    constructing an inferencer (with [__init__] or with [load]) and
    calling [run_inference] and [extract_vectors] in any order, with any
    outcome: the model is in eval mode, the grad mode is the one the
    session started with, the seed is 42, and every event appended to the trace since the start is
    a model call made without gradients, in eval mode, on the
    inferencer's device; construction and loading call no model. *)
Theorem session_invariant (self : Inferencer) (w0 w : World) :
  session self w0 w ->
  w_training w = false /\ w_grad_enabled w = w_grad_enabled w0 /\ w_seed w = Some 42%Z /\
  exists evs, w_trace w = w_trace w0 ++ evs /\ Forall (event_ok (inf_device self) false false) evs.
Proof.
  induction 1 as [model processor bs gpu name w1 Hinit|AL PLd IPLd dir bs gpu eo w1 Hload
                  |w dicts _ IH|w dicts strategy _ IH].
  - by apply (session_inv_init model processor bs gpu name).
  - destruct (Inferencer_load_Ok_inv _ _ _ _ _ _ _ _ _ _ Hload) as (m & p & Hinit).
    by apply (session_inv_init m p bs gpu (Some (basename dir))).
  - by apply session_inv_step; [apply emits_run_inference|].
  - by apply session_inv_step; [apply emits_extract_vectors|].
Qed.

End Effects.

(** ** Witnesses *)

Lemma session_invariant_witness :
  let w1 := snd (Inferencer_init (toy_model [mkHead "text_classification"]) toy_processor 2 false None
                   toy_world) in
  let w := snd (extract_vectors toy_classifier toy_dicts "cls_token" (snd (run_inference toy_classifier toy_dicts w1))) in
  w_training w = false /\ w_grad_enabled w = w_grad_enabled toy_world /\ w_seed w = Some 42%Z /\
  exists evs, w_trace w = w_trace toy_world ++ evs /\ Forall (event_ok CPU false false) evs.
Proof.
  intros w1 w. apply (session_invariant toy_classifier toy_world w).
  unfold w. apply session_extract, session_run. unfold w1.
  apply (session_init _ _ (toy_model [mkHead "text_classification"]) toy_processor 2 false None).
  reflexivity.
Defined.
