(* ===== verification/Fasttext.v ===== *)
(** * The [FasttextInferencer] of [src/farm/infer.py] (lines 182-212)

    A tensor-free embedding backend: the [fasttext] model object is an
    external collaborator, given by its [get_sentence_vector] method
    ([FastTextModel]).  The inferencer keeps no state between calls, so
    its methods are functions in the [Result] monad:
    - [FasttextInferencer_init] ([__init__]) and [FasttextInferencer_load]
      ([load], which ignores [batch_size], [gpu] and [embedder_only] and
      never passes a name);
    - [ft_extract_one] is the body of the loop of [extract_vectors]:
      [pred["context"] = d["text"]] (a [KeyError] first), then the strategy
      test ([NotImplementedError] for anything but ["reduce_mean"]), then
      [pred["vec"] = self.model.get_sentence_vector(d["text"])];
      [ft_extract_vectors] runs it over [dicts], the first exception
      discarding the records already built.
    The docstring of [extract_vectors] (infer.py 197) lists ['reduce_max']
    and ['CLS'] among the strategy choices; the code implements only
    ['reduce_mean'], and the theorems are about what the code does. *)

From S2P Require Import Prelude PyData.

Record FastTextModel : Type := mkFastTextModel {
  get_sentence_vector : PyVal -> Result PyVal
}.

Record FasttextInferencer : Type := mkFasttextInferencer {
  ft_model : FastTextModel;
  ft_name : string;
  ft_prediction_type : string
}.

(** [FasttextInferencer.__init__(model, name=None)] *)
Definition FasttextInferencer_init (model : FastTextModel) (name : option string) : FasttextInferencer :=
  mkFasttextInferencer model
    (match name with Some n => n | None => "anonymous-fasttext"%string end)
    "embedder".

(** [FasttextInferencer.load(load_dir, batch_size, gpu, embedder_only)],
    given [fasttext.load_model]. *)
Definition FasttextInferencer_load (load_model : string -> Result FastTextModel)
    (load_dir : string) (batch_size : Z) (gpu embedder_only : bool) : Result FasttextInferencer :=
  model ← load_model load_dir;
  Ok (FasttextInferencer_init model None).

(** One iteration of [for d in dicts: ...] *)
Definition ft_extract_one (self : FasttextInferencer) (strategy : string) (d : dict) : Result dict :=
  text ← getitem d "text";
  let pred := setitem [] "context" text in
  if String.eqb strategy "reduce_mean" then
    text' ← getitem d "text";
    vec ← get_sentence_vector (ft_model self) text';
    Ok (setitem pred "vec" vec)
  else Err NotImplementedError.

(** [FasttextInferencer.extract_vectors(dicts, extraction_strategy)] *)
Definition ft_extract_vectors (self : FasttextInferencer) (dicts : list dict) (strategy : string)
    : Result (list dict) :=
  mapM (ft_extract_one self strategy) dicts.

(** The record of one dict for ["reduce_mean"]. *)
Definition ft_record (text vec : PyVal) : dict := [("context", text); ("vec", vec)].

(** A model whose sentence vector is constant, used in the witnesses. *)
Definition example_ft : FasttextInferencer :=
  FasttextInferencer_init (mkFastTextModel (fun v => Ok (PyList [PyInt 1; PyInt 2]))) None.

(** ** Lemmas *)

Lemma ft_extract_one_reduce_mean (self : FasttextInferencer) (d : dict) (p : dict) :
  ft_extract_one self "reduce_mean" d = Ok p <->
  exists text vec, getitem d "text" = Ok text /\ get_sentence_vector (ft_model self) text = Ok vec /\
    p = ft_record text vec.
Proof.
  unfold ft_extract_one. split.
  - intros (text & Ht & H)%bind_Ok. rewrite String.eqb_refl in H.
    apply bind_Ok in H as (text' & Ht' & H). rewrite Ht in Ht'. injection Ht' as <-.
    apply bind_Ok in H as (vec & Hv & [= <-]). eauto.
  - intros (text & vec & Ht & Hv & ->). rewrite Ht. simpl.
    by rewrite Hv.
Qed.

Lemma ft_extract_one_other (self : FasttextInferencer) (strategy : string) (d : dict) :
  strategy <> "reduce_mean"%string ->
  ft_extract_one self strategy d =
    match getitem d "text" with Ok _ => Err NotImplementedError | Err e => Err e end.
Proof.
  intros Hs. apply String.eqb_neq in Hs. unfold ft_extract_one.
  destruct (getitem d "text"); simpl; [by rewrite Hs|done].
Qed.

(** ** Properties *)

(** C18: functional behaviour of ["reduce_mean"].  [extract_vectors]
    succeeds exactly when every dict has a ["text"] the model embeds, and
    then returns, in input order, one record per dict whose keys are
    ["context"] then ["vec"], with the text echoed under ["context"] and
    its sentence vector under ["vec"]. *)
Theorem ft_extract_vectors_reduce_mean (self : FasttextInferencer) (dicts preds : list dict) :
  ft_extract_vectors self dicts "reduce_mean" = Ok preds <->
  Forall2 (fun d p => exists text vec, getitem d "text" = Ok text /\
             get_sentence_vector (ft_model self) text = Ok vec /\ p = ft_record text vec)
          dicts preds.
Proof.
  unfold ft_extract_vectors. rewrite mapM_Ok_iff.
  split; intros H; (eapply Forall2_impl; [exact H|]); intros d p; apply ft_extract_one_reduce_mean.
Qed.

(** C19: every strategy but ["reduce_mean"] is rejected, including the
    ['reduce_max'] and ['CLS'] the docstring lists as choices, and only
    inside the loop: an empty input returns no record without any error;
    otherwise the call fails on the first dict, with [KeyError "text"]
    when it has no ["text"] (the key is read before the strategy is
    tested) and [NotImplementedError] when it has one. *)
Theorem ft_extract_vectors_unsupported (self : FasttextInferencer) (strategy : string) :
  strategy <> "reduce_mean"%string ->
  ft_extract_vectors self [] strategy = Ok [] /\
  forall d dicts, ft_extract_vectors self (d :: dicts) strategy =
    if dict_mem d "text" then Err NotImplementedError else Err (KeyError "text").
Proof.
  intros Hs. split; [done|]. intros d dicts.
  unfold ft_extract_vectors. simpl. rewrite ft_extract_one_other by done.
  unfold dict_mem, getitem. by destruct (dict_get d "text").
Qed.

(** C29: [load] ignores [batch_size], [gpu] and [embedder_only] and never
    names the inferencer: a loaded [FasttextInferencer] is always called
    ["anonymous-fasttext"] and has prediction type ["embedder"]. *)
Theorem FasttextInferencer_load_spec (load_model : string -> Result FastTextModel)
    (load_dir : string) (bs : Z) (gpu eo : bool) (m : FastTextModel) :
  load_model load_dir = Ok m ->
  FasttextInferencer_load load_model load_dir bs gpu eo =
    Ok (mkFasttextInferencer m "anonymous-fasttext" "embedder").
Proof. intros Hm. unfold FasttextInferencer_load. by rewrite Hm. Qed.

(** ** Witnesses *)

Lemma ft_extract_vectors_unsupported_witness :
  ft_extract_vectors example_ft [] "reduce_max" = Ok [] /\
  ft_extract_vectors example_ft [[("text", PyStr "hi")]] "reduce_max" = Err NotImplementedError /\
  ft_extract_vectors example_ft [[("text", PyStr "hi")]; [("context", PyStr "x")]] "CLS" =
    Err NotImplementedError /\
  ft_extract_vectors example_ft [[("title", PyStr "hi")]] "CLS" = Err (KeyError "text").
Proof.
  destruct (ft_extract_vectors_unsupported example_ft "reduce_max" ltac:(discriminate)) as [H0 Hmax].
  destruct (ft_extract_vectors_unsupported example_ft "CLS" ltac:(discriminate)) as [_ Hcls].
  split_and!; [exact H0|apply Hmax|apply Hcls|apply Hcls].
Defined.

Lemma FasttextInferencer_load_spec_witness :
  FasttextInferencer_load (fun _ => Ok (ft_model example_ft)) "models/ft.bin" 8 true true =
    Ok (mkFasttextInferencer (ft_model example_ft) "anonymous-fasttext" "embedder").
Proof. apply FasttextInferencer_load_spec. reflexivity. Defined.
