(* ===== verification/Banners.v ===== *)
(** * The ASCII banners of [src/farm/ascii/text.py]

    Six module-level string constants, printed by FARM at start-up.  Each
    is a Python triple-quoted string whose value (after Python's escape
    processing: every backslash in them is kept, none starts an escape)
    is written here as the list of its lines joined by newlines, the
    first element being the empty line that follows the opening quotes.
    A double quote inside a line is the character [dq] (code 34), and a
    run of [n] equal punctuation characters is written [rep n c].  The
    theorem bounds the banners' width and character set. *)

From Stdlib Require Import Ascii.
From S2P Require Import Prelude.

Local Open Scope string_scope.

Definition nl : string := String "010"%char EmptyString.
Definition dq : string := String "034"%char EmptyString.

(** [s * n] for a one-character string [s]. *)
Definition rep (n : nat) (s : string) : string := String.concat EmptyString (repeat s n).

(** A multi-line string literal, given by its lines. *)
Definition py_lines (ls : list string) : string := String.concat nl ls.

(** [str.split("\n")] *)
Fixpoint split_lines (s : string) : list string :=
  match s with
  | EmptyString => [EmptyString]
  | String c rest =>
      if Ascii.eqb c "010"%char then EmptyString :: split_lines rest
      else match split_lines rest with
           | [] => [String c EmptyString]
           | l :: ls => String c l :: ls
           end
  end.

(** Printable ASCII or a newline. *)
Definition printable (s : string) : bool :=
  forallb (fun c => let n := Ascii.nat_of_ascii c in (Nat.eqb n 10 || (Nat.leb 32 n && Nat.leb n 126))%bool)
    (list_ascii_of_string s).


(** text.py, lines 2-14 *)
Definition FARM_BLOCKS : string := py_lines [
  EmptyString;
  (" ." ++ (rep 16 "-") ++ ".  ." ++ (rep 16 "-") ++ ".  ." ++ (rep 16 "-") ++ ".  ." ++ (rep 16 "-") ++ ". ")%string;
  ("| ." ++ (rep 14 "-") ++ ". || ." ++ (rep 14 "-") ++ ". || ." ++ (rep 14 "-") ++ ". || ." ++ (rep 14 "-") ++ ". |")%string;
  "| |  _________   | || |      __      | || |  _______     | || | ____    ____ | |";
  "| | |_   ___  |  | || |     /  \     | || | |_   __ \    | || ||_   \  /   _|| |";
  "| |   | |_  \_|  | || |    / /\ \    | || |   | |__) |   | || |  |   \/   |  | |";
  "| |   |  _|      | || |   / ____ \   | || |   |  __ /    | || |  | |\  /| |  | |";
  "| |  _| |_       | || | _/ /    \ \_ | || |  _| |  \ \_  | || | _| |_\/_| |_ | |";
  "| | |_____|      | || ||____|  |____|| || | |____| |___| | || ||_____||_____|| |";
  "| |              | || |              | || |              | || |              | |";
  ("| '" ++ (rep 14 "-") ++ "' || '" ++ (rep 14 "-") ++ "' || '" ++ (rep 14 "-") ++ "' || '" ++ (rep 14 "-") ++ "' |")%string;
  (" '" ++ (rep 16 "-") ++ "'  '" ++ (rep 16 "-") ++ "'  '" ++ (rep 16 "-") ++ "'  '" ++ (rep 16 "-") ++ "' ")%string;
  EmptyString].

(** text.py, lines 16-23 *)
Definition FARM_DOOM : string := py_lines [
  EmptyString;
  "  __";
  " / _|                    ";
  "| |_ __ _ _ __ _ __ ___  ";
  "|  _/ _` | '__| '_ ` _ \ ";
  "| || (_| | |  | | | | | |";
  "|_| \__,_|_|  |_| |_| |_|";
  EmptyString].

(** text.py, lines 25-33 *)
Definition FARM_MODULAR : string := py_lines [
  EmptyString;
  " _______  _______  ______    __   __ ";
  "|       ||   _   ||    _ |  |  |_|  |";
  "|    ___||  |_|  ||   | ||  |       |";
  "|   |___ |       ||   |_||_ |       |";
  "|    ___||       ||    __  ||       |";
  "|   |    |   _   ||   |  | || ||_|| |";
  "|___|    |__| |__||___|  |_||_|   |_|";
  EmptyString].

(** text.py, lines 35-44 *)
Definition FARM_COLOSSAL : string := py_lines [
  EmptyString;
  " .d888                               ";
  ("d88P" ++ dq ++ "                                ")%string;
  "888                                  ";
  "888888 8888b.  888d888 88888b.d88b.  ";
  ("888       " ++ dq ++ "88b 888P" ++ dq ++ "   888 " ++ dq ++ "888 " ++ dq ++ "88b ")%string;
  "888   .d888888 888     888  888  888 ";
  "888   888  888 888     888  888  888 ";
  ("888   " ++ dq ++ "Y888888 888     888  888  888")%string;
  EmptyString].

(** text.py, lines 46-53 *)
Definition FARM_DIET_COLA : string := py_lines [
  EmptyString;
  "   .-._.---'                      ";
  "  (_) /                           ";
  "     /--..-.    ).--..  .-. .-.   ";
  "    /   (  |   /      )/   )   )  ";
  " .-/     `-'-'/      '/   /   (   ";
  "(_/                            `-'";
  "                               "].

(** text.py, lines 55-61 *)
Definition WELCOME : string := py_lines [
  EmptyString;
  "                   .                                        ";
  "                  /                                /        ";
  " `)    (   .-.   / .-.  .-._..  .-. .-.   .-.  ---/---.-._. ";
  " /  .   )./.-'_ / (    (   )  )/   )   )./.-'_   /   (   )  ";
  "(_.' `-' (__.'_/_.-`---'`-'  '/   /   ( (__.'   /     `-'   ";
  "                                       `-'                  "].

Definition banners : list string :=
  [FARM_BLOCKS; FARM_DOOM; FARM_MODULAR; FARM_COLOSSAL; FARM_DIET_COLA; WELCOME].

(** ** Properties *)

(** A check of the transcribed constants: every line of every banner is at most 80
    characters wide, so it prints unbroken on an 80-column terminal
    (FARM_BLOCKS uses all 80), and the banners hold only printable ASCII
    characters and newlines (no tab, no control character).  Each
    starts with a newline, so it is printed from the first column. *)
Lemma banners_fit_80_columns :
  Forall (fun b => Forall (fun l => String.length l <= 80) (split_lines b) /\
                   printable b = true /\ String.get 0 b = Some "010"%char) banners /\
  Exists (fun l => String.length l = 80) (split_lines FARM_BLOCKS).
Proof. apply (bool_decide_unpack _). vm_compute. reflexivity. Qed.
